(** * Airflow Prometheus exporter: the metric aggregation engine

    A shallow embedding of [airflow_prometheus_exporter/prometheus_exporter.py]
    and [airflow_prometheus_exporter/xcom_config.py].

    - The metadata database is a record of tables, each a list of typed
      records; a nullable column is an [option].
    - Every query of the query layer that is run is a function from the
      database to the list of result rows.  A result row keeps the labels
      of its select list, because the collector reads rows by attribute
      name.  [get_task_duration_info] raises while it builds its query:
      its return expression is evaluated over the kinds of SQLAlchemy
      objects.
    - The collector is a generator: it runs in a small state-and-error
      monad whose state holds the families yielded so far, the log and the
      number of clock readings.
    - The libraries the exporter calls (the pickle, JSON, UTF-8 and YAML
      decoders, the Airflow configuration and the [State] enumerations)
      are fields of a [Runtime] record. *)

From stdpp Require Import prelude strings sorting pretty.
From Stdlib Require Import ZArith.
From Stdlib.Strings Require Import Byte.

#[local] Set Warnings "-register-all".

Local Open Scope string_scope.
Local Open Scope Z_scope.

(** ** Python values *)

(** The values that flow through the collector.  Timestamps are counted in
    microseconds since the epoch, the resolution of [datetime]. *)
Inductive PyVal : Type :=
| PNone
| PBool (b : bool)
| PInt (n : Z)
| PStr (s : string)
| PBytes (bs : list byte)
| PDatetime (us : Z)
| PTimedelta (us : Z)
| PSeconds (us : Z)
    (* the number [timedelta.total_seconds()] returns: [us / 10^6] seconds *)
| PDateText (days : Z)
    (* [str(d)] for the calendar date [days] days after the epoch *)
| PList (items : list PyVal)
| PTuple (items : list PyVal)
| PDict (items : list (PyVal * PyVal))
| PBuiltinMethod (name : string) (self : list PyVal).
    (* a bound method of the built-in sequence type, e.g. [tuple.count] *)

(** The exception classes that can arise, with the part of Python's class
    hierarchy the handlers of the exporter test. *)
Inductive Exn : Type :=
| TypeError | AttributeError | KeyError
| ValueError | JSONDecodeError | UnicodeDecodeError
| UnpicklingError | EOFError
| YAMLError
| FileNotFoundError | PermissionError
| OperationalError
| KeyboardInterrupt.

Definition is_ValueError (e : Exn) : bool :=
  match e with
  | ValueError | JSONDecodeError | UnicodeDecodeError => true
  | _ => false
  end.

Definition is_Exception (e : Exn) : bool :=
  match e with
  | KeyboardInterrupt => false
  | _ => true
  end.

Definition is_FileNotFoundError (e : Exn) : bool :=
  match e with
  | FileNotFoundError => true
  | _ => false
  end.

(** Pure code that may raise. *)
Definition Result (A : Type) : Type := Exn + A.

#[export] Instance result_ret : MRet Result := λ A x, inr x.
#[export] Instance result_bind : MBind Result :=
  λ A B f m, match m with inl e => inl e | inr x => f x end.

(** Truthiness, for [x or y]. *)
Definition truthy (v : PyVal) : bool :=
  match v with
  | PNone => false
  | PBool b => b
  | PInt n => negb (n =? 0)
  | PStr s => negb (String.eqb s "")
  | PBytes bs => match bs with [] => false | _ => true end
  | PTimedelta us => negb (us =? 0)
  | PSeconds us => negb (us =? 0)
  | PList l => match l with [] => false | _ => true end
  | PTuple l => match l with [] => false | _ => true end
  | PDict d => match d with [] => false | _ => true end
  | _ => true
  end.

Definition py_or (a b : PyVal) : PyVal := if truthy a then a else b.

(** [==] and hashing on the scalars used as dictionary keys. *)
Definition key_eqb (a b : PyVal) : bool :=
  match a, b with
  | PNone, PNone => true
  | PStr s, PStr t => String.eqb s t
  | PInt m, PInt n => m =? n
  | PBool x, PBool y => Bool.eqb x y
  | PBool x, PInt n | PInt n, PBool x => (if x then 1 else 0) =? n
  | _, _ => false
  end.

(** [a - b]: defined between two datetimes, a [TypeError] when an operand
    is [None] (or anything else the collector could hand it). *)
Definition py_sub (a b : PyVal) : Result PyVal :=
  match a, b with
  | PDatetime x, PDatetime y => inr (PTimedelta (x - y))
  | PTimedelta x, PTimedelta y => inr (PTimedelta (x - y))
  | PDatetime x, PTimedelta y => inr (PDatetime (x - y))
  | PInt x, PInt y => inr (PInt (x - y))
  | _, _ => inl TypeError
  end.

Definition total_seconds (v : PyVal) : Result PyVal :=
  match v with
  | PTimedelta us => inr (PSeconds us)
  | _ => inl AttributeError
  end.

Definition us_per_day : Z := 86400000000.

(** [str(v.date())]. *)
Definition date_str (v : PyVal) : Result PyVal :=
  match v with
  | PDatetime us => inr (PDateText (us `div` us_per_day))
  | _ => inl AttributeError
  end.

(** [f'{v}']: strings are inserted unchanged; the other cases are the
    [str] of the value, spelled out for the scalars that have a short
    one. *)
Definition format_value (v : PyVal) : string :=
  match v with
  | PStr s => s
  | PNone => "None"
  | PBool true => "True"
  | PBool false => "False"
  | _ => "<object>"
  end.

(** Dictionaries keep insertion order; assigning to a present key keeps
    its position. *)
Fixpoint dict_get {V} (k : PyVal) (d : list (PyVal * V)) : option V :=
  match d with
  | [] => None
  | (k', v) :: d' => if key_eqb k' k then Some v else dict_get k d'
  end.

Fixpoint dict_set {V} (k : PyVal) (v : V) (d : list (PyVal * V))
  : list (PyVal * V) :=
  match d with
  | [] => [(k, v)]
  | (k', v') :: d' =>
      if key_eqb k' k then (k', v) :: d' else (k', v') :: dict_set k v d'
  end.

(** [d.get(k, default)] *)
Definition dict_get_default {V} (k : PyVal) (default : V)
    (d : list (PyVal * V)) : V :=
  match dict_get k d with Some v => v | None => default end.

(** [v.get(k, default)] on an arbitrary value: only a dictionary has the
    method. *)
Definition py_get (v : PyVal) (k : string) (default : PyVal) : Result PyVal :=
  match v with
  | PDict d => inr (dict_get_default (PStr k) default d)
  | _ => inl AttributeError
  end.

(** [v[k]] for a string key. *)
Definition py_getitem (v : PyVal) (k : string) : Result PyVal :=
  match v with
  | PDict d => match dict_get (PStr k) d with
               | Some x => inr x
               | None => inl KeyError
               end
  | _ => inl TypeError
  end.

Fixpoint chars (s : string) : list PyVal :=
  match s with
  | EmptyString => []
  | String c s' => PStr (String c EmptyString) :: chars s'
  end.

(** [for x in v] *)
Definition py_iter (v : PyVal) : Result (list PyVal) :=
  match v with
  | PList l => inr l
  | PTuple l => inr l
  | PDict d => inr (d.*1)
  | PStr s => inr (chars s)
  | PBytes bs => inr ((λ b, PInt (Z.of_N (Byte.to_N b))) <$> bs)
  | _ => inl TypeError
  end.

(** ** Result rows *)

(** A row of a query result: the values of the select list under their
    labels.  The row class is a tuple with one attribute per label. *)
Definition Row : Type := list (string * PyVal).

Fixpoint column (name : string) (r : Row) : option PyVal :=
  match r with
  | [] => None
  | (l, v) :: r' => if String.eqb l name then Some v else column name r'
  end.

(** The methods every tuple has. *)
Definition tuple_method (name : string) : bool :=
  String.eqb name "count" || String.eqb name "index".

(** [row.name]: the column of that label if the select list has one;
    otherwise the lookup falls through to the tuple class, which has the
    methods [count] and [index] and nothing else public. *)
Definition getattr (r : Row) (name : string) : Result PyVal :=
  match column name r with
  | Some v => inr v
  | None =>
      if tuple_method name then inr (PBuiltinMethod name (r.*2))
      else inl AttributeError
  end.

Definition of_str (o : option string) : PyVal :=
  match o with Some s => PStr s | None => PNone end.

Definition of_time (o : option Z) : PyVal :=
  match o with Some t => PDatetime t | None => PNone end.

Definition of_bytes (o : option (list byte)) : PyVal :=
  match o with Some b => PBytes b | None => PNone end.

(** ** The metadata database *)

Module DagModel.
Record t : Type := mk {
  dag_id : string;
  owners : option string;
  is_active : option bool;
  is_paused : option bool
}.
End DagModel.

Module DagRun.
Record t : Type := mk {
  dag_id : string;
  execution_date : Z;
  start_date : option Z;
  end_date : option Z;
  state : option string
}.
End DagRun.

Module TaskInstance.
Record t : Type := mk {
  dag_id : string;
  task_id : string;
  execution_date : Z;
  start_date : option Z;
  end_date : option Z;
  state : option string;
  queue : option string;
  queued_dttm : option Z
}.
End TaskInstance.

Module TaskFail.
Record t : Type := mk {
  dag_id : string;
  task_id : string
}.
End TaskFail.

Module XCom.
Record t : Type := mk {
  dag_id : string;
  task_id : string;
  execution_date : Z;
  key : string;
  value : option (list byte)
}.
End XCom.

Record Database : Type := mkDatabase {
  dag : list DagModel.t;
  dag_run : list DagRun.t;
  task_instance : list TaskInstance.t;
  task_fail : list TaskFail.t;
  xcom : list XCom.t
}.

(** [airflow.utils.state.State]: the constants the exporter reads. *)
Record StateEnum : Type := mkState {
  SUCCESS : string;
  RUNNING : string;
  QUEUED : string;
  task_states : list (option string);
  dag_states : list (option string)
}.

Definition CANARY_DAG : string := "canary_dag".

(** ** SQL aggregates *)

(** [func.max] and [func.min] skip NULLs and are NULL on no value. *)
Definition sql_max (l : list Z) : option Z :=
  match l with
  | [] => None
  | x :: l' => Some (foldr Z.max x l')
  end.

Definition sql_min (l : list Z) : option Z :=
  match l with
  | [] => None
  | x :: l' => Some (foldr Z.min x l')
  end.

(** The non-NULL values of a nullable column. *)
Definition non_null {A} (l : list (option A)) : list A := omap id l.

(** [func.count(col)] counts the rows where [col] is not NULL. *)
Definition sql_count {A} (l : list (option A)) : Z :=
  Z.of_nat (length (non_null l)).

(** [GROUP BY key]: the distinct keys; NULL keys form one group. *)
Definition group_keys {A K} `{EqDecision K} (key : A → K) (l : list A)
  : list K :=
  remove_dups (key <$> l).

(** [DagModel.is_active == True, DagModel.is_paused == False]: a NULL flag
    satisfies neither comparison. *)
Definition active_unpaused (m : DagModel.t) : Prop :=
  DagModel.is_active m = Some true ∧ DagModel.is_paused m = Some false.

#[export] Instance active_unpaused_dec m : Decision (active_unpaused m).
Proof. unfold active_unpaused. apply _. Defined.

(** SQL [a = b] on nullable operands holds only between equal non-NULL
    values. *)
Definition sql_eq {A} (a b : option A) : Prop := is_Some a ∧ a = b.

#[export] Instance sql_eq_dec {A} `{EqDecision A} (a b : option A) :
  Decision (sql_eq a b).
Proof. unfold sql_eq. apply _. Defined.

(** ** SQLAlchemy expressions

    The objects a query function handles before anything is sent to the
    database, by kind: a query under construction, a clause element (a
    column, a comparison, the value of [func.max(...)] or of [and_(...)]),
    a selectable (a mapped class or a subquery), a list of rows and a
    number.  The table lists the methods the query functions call.
    [Query] has [join], [filter], [group_by], [order_by] and [limit],
    which return a query, and [subquery], [all] and [count]; a clause
    element has [label] and [isnot].  Looking up one of these names on an
    object that has no such attribute raises [AttributeError]. *)
Inductive SqlKind : Type := KQuery | KClause | KSelectable | KRows | KNumber.

Definition sql_method (receiver : SqlKind) (name : string) : Result SqlKind :=
  match receiver with
  | KQuery =>
      if bool_decide
           (name ∈ ["join"; "filter"; "group_by"; "order_by"; "limit"])
      then inr KQuery
      else if String.eqb name "subquery" then inr KSelectable
      else if String.eqb name "all" then inr KRows
      else if String.eqb name "count" then inr KNumber
      else inl AttributeError
  | KClause =>
      if bool_decide (name ∈ ["label"; "isnot"]) then inr KClause
      else inl AttributeError
  | KSelectable | KRows | KNumber => inl AttributeError
  end.

(** A method-call chain, by its parentheses. *)
Inductive PyExpr : Type :=
| Obj (kind : SqlKind)
    (* a sub-expression that evaluates to an object of that kind *)
| Call (receiver : PyExpr) (method : string) (args : list PyExpr).
    (* [receiver.method(args)] *)

(** Python's order of evaluation for [receiver.method(args)]: the
    receiver, then the attribute [receiver.method], then the arguments
    from left to right, then the call. *)
Fixpoint py_eval (e : PyExpr) : Result SqlKind :=
  match e with
  | Obj kind => inr kind
  | Call receiver method args =>
      r ← py_eval receiver;
      result ← sql_method r method;
      _ ← (fix eval_args (l : list PyExpr) : Result unit :=
             match l with
             | [] => inr tt
             | a :: l' => _ ← py_eval a; eval_args l'
             end) args;
      inr result
  end.

(** ** The query layer *)

Section Queries.
Variable State : StateEnum.
Variable db : Database.

(** *** DAG related metrics *)

(** Lines 42-47: [SELECT dag_id, state, count(state) FROM dag_run GROUP
    BY dag_id, state]. *)
Definition dag_status_query : list (string * option string * Z) :=
  k ← group_keys (λ r, (DagRun.dag_id r, DagRun.state r)) (dag_run db);
  [(k.1, k.2,
    sql_count (DagRun.state <$>
      filter (λ r, (DagRun.dag_id r, DagRun.state r) = k) (dag_run db)))].

(** Number of DAG runs with particular state. *)
Definition get_dag_state_info : list Row :=
  '(dag_id, state, count) ← dag_status_query;
  m ← filter (λ m, DagModel.dag_id m = dag_id ∧ active_unpaused m) (dag db);
  [ [("dag_id", PStr dag_id); ("state", of_str state);
     ("count", PInt count); ("owners", of_str (DagModel.owners m))] ].

(** [DagRun.end_date.isnot(None) if state == State.SUCCESS else True] *)
Definition ended_if_success (state : string) (end_date : option Z) : Prop :=
  state = SUCCESS State → is_Some end_date.

#[export] Instance ended_if_success_dec state e :
  Decision (ended_if_success state e).
Proof. unfold ended_if_success. apply _. Defined.

(** The rows of [dag_run JOIN dag] that pass the filter of lines 75-80
    (and 250-255). *)
Definition eligible_runs (state : string) : list DagRun.t :=
  r ← dag_run db;
  m ← dag db;
  if decide (DagModel.dag_id m = DagRun.dag_id r ∧ active_unpaused m ∧
             DagRun.state r = Some state ∧
             ended_if_success state (DagRun.end_date r))
  then [r] else [].

(** Lines 69-83 and, with the same text, lines 244-258: the latest
    execution date per DAG among the eligible runs. *)
Definition max_execution_dt_query (state : string) : list (string * Z) :=
  d ← group_keys DagRun.dag_id (eligible_runs state);
  match sql_max (DagRun.execution_date <$>
                   filter (λ r, DagRun.dag_id r = d) (eligible_runs state))
  with
  | Some t => [(d, t)]
  | None => []
  end.

(** Lines 85-110: the earliest start among the task instances of that
    run.  The groups are the rows of [max_execution_dt_query] that join
    with a started task instance. *)
Definition dag_start_dt_query (state : string) : list (string * Z * Z) :=
  '(d, t) ← max_execution_dt_query state;
  match sql_min (non_null (TaskInstance.start_date <$>
           filter (λ ti, TaskInstance.dag_id ti = d ∧
                         TaskInstance.execution_date ti = t)
                  (task_instance db)))
  with
  | Some s => [(d, t, s)]
  | None => []
  end.

(** Lines 112-131.  The last filter names [TaskInstance], which is not
    joined in this query: the table enters the FROM list on its own, so
    every result row is paired with every task instance of the database
    that has both dates. *)
Definition get_dag_duration_info (state : string) : list Row :=
  '(d, t, s) ← dag_start_dt_query state;
  r ← filter (λ r, DagRun.dag_id r = d ∧ DagRun.execution_date r = t)
             (dag_run db);
  _ ← filter (λ ti, is_Some (TaskInstance.start_date ti) ∧
                    is_Some (TaskInstance.end_date ti))
             (task_instance db);
  [ [("dag_id", PStr d); ("start_date", PDatetime s);
     ("end_date", of_time (DagRun.end_date r))] ].

(** *** Task related metrics *)

Definition task_key (ti : TaskInstance.t) : string * string * option string :=
  (TaskInstance.dag_id ti, TaskInstance.task_id ti, TaskInstance.state ti).

(** Lines 142-153: [count(dag_id)] per [(dag_id, task_id, state)],
    labelled [value]. *)
Definition task_status_query : list (string * string * option string * Z) :=
  k ← group_keys task_key (task_instance db);
  [(k.1.1, k.1.2, k.2,
    sql_count ((λ ti, Some (TaskInstance.dag_id ti)) <$>
      filter (λ ti, task_key ti = k) (task_instance db)))].

(** Number of task instances with particular state. *)
Definition get_task_state_info : list Row :=
  '(dag_id, task_id, state, value) ← task_status_query;
  m ← filter (λ m, DagModel.dag_id m = dag_id ∧ active_unpaused m) (dag db);
  [ [("dag_id", PStr dag_id); ("task_id", PStr task_id);
     ("state", of_str state); ("value", PInt value);
     ("owners", of_str (DagModel.owners m))] ].

Definition fail_key (f : TaskFail.t) : string * string :=
  (TaskFail.dag_id f, TaskFail.task_id f).

(** Compute task failure counts. *)
Definition get_task_failure_counts : list Row :=
  let joined :=
    f ← task_fail db;
    m ← filter (λ m, DagModel.dag_id m = TaskFail.dag_id f ∧
                     active_unpaused m) (dag db);
    [f] in
  k ← group_keys fail_key joined;
  [ [("dag_id", PStr k.1); ("task_id", PStr k.2);
     ("count", PInt (sql_count ((λ f, Some (TaskFail.dag_id f)) <$>
                       filter (λ f, fail_key f = k) joined)))] ].

(** Lines 192-199: the latest execution date per DAG, over all runs. *)
Definition xcom_max_execution_dt_query : list (string * Z) :=
  d ← group_keys DagRun.dag_id (dag_run db);
  match sql_max (DagRun.execution_date <$>
                   filter (λ r, DagRun.dag_id r = d) (dag_run db))
  with
  | Some t => [(d, t)]
  | None => []
  end.

Definition xcom_row (x : XCom.t) : Row :=
  [("dag_id", PStr (XCom.dag_id x)); ("task_id", PStr (XCom.task_id x));
   ("value", of_bytes (XCom.value x)); ("key", PStr (XCom.key x))].

(** XCom parameters for matching task_id's for the latest run of a DAG.
    [task_id] comes from the configuration document, so it is any value;
    [XCom.task_id == task_id] holds for the string equal to the column. *)
Definition get_xcom_params (task_id : PyVal) : list Row :=
  let query :=
    x ← xcom db;
    '(d, t) ← xcom_max_execution_dt_query;
    if decide (XCom.dag_id x = d ∧ XCom.execution_date x = t)
    then [x] else [] in
  if key_eqb task_id (PStr "all") then xcom_row <$> query
  else xcom_row <$> filter (λ x, key_eqb (PStr (XCom.task_id x)) task_id) query.

Definition ti_key (ti : TaskInstance.t) : string * string :=
  (TaskInstance.dag_id ti, TaskInstance.task_id ti).

(** Lines 260-271: the task instances in the target state that have
    started (and, for the success state, ended), and per (DAG, task) the
    latest execution date among them. *)
Definition qualifying_tasks (state : string) : list TaskInstance.t :=
  filter (λ ti, TaskInstance.state ti = Some state ∧
                is_Some (TaskInstance.start_date ti) ∧
                ended_if_success state (TaskInstance.end_date ti))
         (task_instance db).

Definition task_duration_query (state : string)
  : list (string * string * Z) :=
  k ← group_keys ti_key (qualifying_tasks state);
  match sql_max (TaskInstance.execution_date <$>
                   filter (λ ti, ti_key ti = k) (qualifying_tasks state))
  with
  | Some t => [(k.1, k.2, t)]
  | None => []
  end.

(** Lines 273-289: keep the (DAG, task) entries whose latest execution
    date is the latest execution date of the DAG's runs. *)
Definition task_latest_execution_dt (state : string)
  : list (string * string * Z) :=
  '(d, task, t) ← task_duration_query state;
  '(d', t') ← max_execution_dt_query state;
  if decide (d = d' ∧ t = t') then [(d, task, t)] else [].

(** Lines 291-313, the expression after [return].  The parenthesis that
    [.join(] opens at line 297 closes at line 313, after [.all()], so the
    second argument of [.join] is [and_(...).filter(...).all()]: the
    [.filter] is looked up on the clause element [and_(...)], not on the
    query. *)
Definition task_duration_return : PyExpr :=
  Call (Obj KQuery)                     (* session.query(five columns) *)
    "join"
    [Obj KSelectable;                   (* TaskInstance *)
     Call
       (Call (Obj KClause)              (* and_(three equalities) *)
          "filter"
          [Obj KClause; Obj KClause; Obj KClause])
                                        (* state == State.SUCCESS,
                                           start_date and end_date not null *)
       "all" []].

(** Duration of successful tasks in seconds.  The three subqueries above
    are built, not run; the value of the function is the value of the
    return expression.  Its evaluation raises before [.join] is called
    (see [task_duration_return_raises] below), so the rows of the query
    that [.join] would build have no model here. *)
Definition get_task_duration_info (state : string) : Result (list Row) :=
  match py_eval task_duration_return with
  | inl e => inl e
  | inr _ => inr []
  end.

(** *** Scheduler related metrics *)

Definition later_run (a b : DagRun.t) : Prop :=
  DagRun.execution_date b ≤ DagRun.execution_date a.

#[export] Instance later_run_dec a b : Decision (later_run a b).
Proof. unfold later_run. apply _. Defined.

(** Compute DAG scheduling delay: the most recent run of the canary
    DAG. *)
Definition get_dag_scheduler_delay : list Row :=
  (λ r, [("dag_id", PStr (DagRun.dag_id r));
         ("execution_date", PDatetime (DagRun.execution_date r));
         ("start_date", of_time (DagRun.start_date r))]) <$>
  take 1 (merge_sort later_run
            (filter (λ r, DagRun.dag_id r = CANARY_DAG) (dag_run db))).

Definition queued_canary_tasks : list TaskInstance.t :=
  filter (λ ti, TaskInstance.dag_id ti = CANARY_DAG ∧
                is_Some (TaskInstance.queued_dttm ti))
         (task_instance db).

(** Lines 338-349: per queue, the latest start among the canary task
    instances that were queued. *)
Definition task_scheduler_status_query : list (option string * option Z) :=
  q ← group_keys TaskInstance.queue queued_canary_tasks;
  [(q, sql_max (non_null (TaskInstance.start_date <$>
          filter (λ ti, TaskInstance.queue ti = q) queued_canary_tasks)))].

(** Compute task scheduling delay. *)
Definition get_task_scheduler_delay : list Row :=
  '(queue, max_start) ← task_scheduler_status_query;
  ti ← filter (λ ti, sql_eq (TaskInstance.queue ti) queue ∧
                     sql_eq (TaskInstance.start_date ti) max_start ∧
                     TaskInstance.dag_id ti = CANARY_DAG)
              (task_instance db);
  [ [("queue", of_str queue);
     ("execution_date", PDatetime (TaskInstance.execution_date ti));
     ("queued_dttm", of_time (TaskInstance.queued_dttm ti));
     ("start_date", of_time max_start)] ].

(** Number of queued tasks currently. *)
Definition get_num_queued_tasks : Z :=
  Z.of_nat (length (filter (λ ti, TaskInstance.state ti = Some (QUEUED State))
                           (task_instance db))).

End Queries.

(** [airflow.utils.state.State] as Airflow 1.10 defines it. *)
Definition airflow_state : StateEnum := {|
  SUCCESS := "success";
  RUNNING := "running";
  QUEUED := "queued";
  task_states :=
    [Some "success"; Some "running"; Some "failed"; Some "upstream_failed";
     Some "skipped"; Some "up_for_retry"; Some "up_for_reschedule";
     Some "queued"; None; Some "scheduled"];
  dag_states := [Some "success"; Some "running"; Some "failed"]
|}.

(** ** Metric families *)

Record Sample : Type := mkSample {
  sample_labels : list PyVal;
  sample_value : PyVal
}.

Record MetricFamily : Type := mkFamily {
  family_name : string;
  family_documentation : string;
  family_labelnames : list string;
  family_samples : list Sample
}.

Definition GaugeMetricFamily (name documentation : string)
    (labels : list string) : MetricFamily :=
  mkFamily name documentation labels [].

Definition add_sample (fam : MetricFamily) (s : Sample) : MetricFamily :=
  mkFamily (family_name fam) (family_documentation fam)
           (family_labelnames fam) (family_samples fam ++ [s]).

Definition add_metric (fam : MetricFamily) (labels : list PyVal)
    (value : PyVal) : MetricFamily :=
  add_sample fam (mkSample labels value).

(** ** The environment of a collection pass *)

(** The library functions the exporter calls. *)
Record Runtime : Type := mkRuntime {
  State : StateEnum;
  enable_xcom_pickling : bool;
    (* conf.getboolean("core", "enable_xcom_pickling") *)
  pickle_loads : PyVal → Result PyVal;
  json_loads : PyVal → Result PyVal;
  utf8_decode : list byte → Result string;
  yaml_load : string → Result PyVal
}.

Definition CONFIG_FILENAME : string := "config.yaml".

Fixpoint ends_with_slash (s : string) : bool :=
  match s with
  | EmptyString => false
  | String c EmptyString => Ascii.eqb c (Ascii.ascii_of_nat 47)
  | String _ s' => ends_with_slash s'
  end.

(** [os.path.join(path, name)] for a relative [name]. *)
Definition path_join (path name : string) : string :=
  if String.eqb path "" then name
  else if ends_with_slash path then path ++ name
  else path ++ "/" ++ name.

(** What [load_xcom_config] sees of the file system.  [isfile] and
    [read_file] are separate observations: a file can disappear between
    the test and the [open].  The working directory of the process may
    have been removed: [Path.cwd()] then raises [FileNotFoundError], and
    a removed directory holds no file. *)
Record FileSystem : Type := mkFileSystem {
  cwd : string;
  cwd_exists : bool;
  module_dir : string;
  isfile : string → bool;
  read_file : string → Result string;
  cwd_holds_config :
    isfile (path_join cwd CONFIG_FILENAME) = true → cwd_exists = true
}.

(** The calls of the collector that send a query to the database. *)
Inductive QueryCall : Type :=
| Q_task_state_info
| Q_task_failure_counts
| Q_dag_state_info
| Q_dag_duration_info (state : string)
| Q_dag_scheduler_delay
| Q_xcom_params (task_id : PyVal)
| Q_task_scheduler_delay
| Q_num_queued_tasks.

Record World : Type := mkWorld {
  rt : Runtime;
  db : Database;
  fs : FileSystem;
  clock : nat → Z;
    (* the successive readings of [timezone.utcnow()] *)
  fault : QueryCall → option Exn
    (* the data-source error, if any, a query call runs into *)
}.

Inductive LogRecord : Type :=
| LogError (message : string) (err : Exn).

(** ** The generator monad *)

Record Trace : Type := mkTrace {
  clock_reads : nat;
  log : list LogRecord;
  yielded : list MetricFamily
}.

Definition Gen (A : Type) : Type := Trace → Trace * Result A.

#[export] Instance gen_ret : MRet Gen := λ A x s, (s, inr x).
#[export] Instance gen_bind : MBind Gen :=
  λ A B f m s,
    match m s with
    | (s', inr x) => f x s'
    | (s', inl e) => (s', inl e)
    end.

Definition lift {A} (r : Result A) : Gen A := λ s, (s, r).

Definition raise {A} (e : Exn) : Gen A := λ s, (s, inl e).

Definition yield (fam : MetricFamily) : Gen unit :=
  λ s, (mkTrace (clock_reads s) (log s) (yielded s ++ [fam]), inr tt).

Definition log_error (message : string) (err : Exn) : Gen unit :=
  λ s, (mkTrace (clock_reads s) (log s ++ [LogError message err]) (yielded s),
        inr tt).

(** [timezone.utcnow()] *)
Definition utcnow (w : World) : Gen PyVal :=
  λ s, (mkTrace (S (clock_reads s)) (log s) (yielded s),
        inr (PDatetime (clock w (clock_reads s)))).

(** A call of a query function: the rows, unless the data source fails. *)
Definition session_query {A} (w : World) (call : QueryCall) (rows : A)
  : Gen A :=
  match fault w call with
  | Some e => raise e
  | None => mret rows
  end.

(** [for x in l: acc = body(acc, x)] *)
Fixpoint for_each {M : Type → Type} `{!MBind M, !MRet M} {A B}
    (l : list A) (body : B → A → M B) (acc : B) : M B :=
  match l with
  | [] => mret acc
  | x :: l' => acc' ← body acc x; for_each l' body acc'
  end.

(** [for row in rows: fam.add_metric(...)], the sample computed from the
    row. *)
Definition add_samples (fam : MetricFamily) (rows : list Row)
    (sample_of : Row → Result Sample) : Result MetricFamily :=
  for_each rows (λ fam row, s ← sample_of row; mret (add_sample fam s)) fam.

Definition empty_trace : Trace := mkTrace 0 [] [].

(** ** [xcom_config.py] *)

(** Lines 18-24: the first search path that holds the file. *)
Fixpoint search_config (fs : FileSystem) (search_paths : list string)
  : option string :=
  match search_paths with
  | [] => None
  | path :: rest =>
      let full_path := path_join path CONFIG_FILENAME in
      if isfile fs full_path then Some full_path
      else search_config fs rest
  end.

(** [Path.cwd()], line 14. *)
Definition path_cwd (fs : FileSystem) : Result string :=
  if cwd_exists fs then inr (cwd fs) else inl FileNotFoundError.

(** Loads the XCom config if present.  The search paths are built
    outside the [try]. *)
Definition load_xcom_config (rt : Runtime) (fs : FileSystem) : Result PyVal :=
  working_dir ← path_cwd fs;
  match search_config fs [working_dir; module_dir fs] with
  | None => inr (PDict [])
  | Some full_path =>
      match (text ← read_file fs full_path; yaml_load rt text) with
      | inr doc => inr doc
      | inl e => if is_FileNotFoundError e then inr (PDict []) else inl e
      end
  end.

(** ** Decoding XCom values *)

(** [value.decode("UTF-8")]: a method of [bytes]. *)
Definition py_decode (rt : Runtime) (value : PyVal) : Result PyVal :=
  match value with
  | PBytes bs => s ← utf8_decode rt bs; mret (PStr s)
  | _ => inl AttributeError
  end.

Definition xcom_error_message : string :=
  "Could not deserialize the XCOM value from JSON. " ++
  "If you are using pickles instead of JSON " ++
  "for XCOM, then you need to enable pickle " ++
  "support for XCOM in your airflow config. : ".

(** Deserializes value stored in xcom table. *)
Definition extract_xcom_parameter (rt : Runtime) (value : PyVal) : Gen PyVal :=
  if enable_xcom_pickling rt then
    value ← lift (pickle_loads rt value);
    match json_loads rt value with
    | inr value => mret value
    | inl e => if is_Exception e then mret (PDict []) else raise e
    end
  else
    match (text ← py_decode rt value; json_loads rt text) with
    | inr v => mret v
    | inl err =>
        if is_ValueError err then
          log_error xcom_error_message err;;
          mret (PDict [])
        else raise err
    end.

(** ** The collector *)

(** An entry of [tasks_info_by_id] and of [dags_info_by_id]. *)
Record EntityInfo : Type := mkInfo {
  meta : Row;
  state_count : list (PyVal * PyVal)
}.

(** [info = by_id.setdefault(uid, {'meta': row, 'state_count': {}})]
    followed by [info['state_count'][state] = count]: the assignment
    goes through to the entry the dictionary holds. *)
Definition record_state (uid : PyVal) (row : Row) (state count : PyVal)
    (by_id : list (PyVal * EntityInfo)) : list (PyVal * EntityInfo) :=
  let info :=
    match dict_get uid by_id with
    | Some info => info
    | None => mkInfo row []
    end in
  dict_set uid (mkInfo (meta info) (dict_set state count (state_count info)))
           by_id.

(** Lines 401-408. *)
Definition task_status_step (by_id : list (PyVal * EntityInfo)) (task : Row)
  : Result (list (PyVal * EntityInfo)) :=
  dag_id ← getattr task "dag_id";
  task_id ← getattr task "task_id";
  let task_uid := PStr (format_value dag_id ++ "_" ++ format_value task_id) in
  st ← getattr task "state";
  let state := py_or st (PStr "none") in
  count ← getattr task "count";
  mret (record_state task_uid task state count by_id).

(** Lines 410-417. *)
Definition task_status_emit (states : list (option string))
    (t_state : MetricFamily) (task_info : EntityInfo) : Result MetricFamily :=
  let task := meta task_info in
  for_each states (λ t_state state,
    let state := py_or (of_str state) (PStr "none") in
    dag_id ← getattr task "dag_id";
    task_id ← getattr task "task_id";
    owners ← getattr task "owners";
    mret (add_metric t_state [dag_id; task_id; owners; state]
            (dict_get_default state (PInt 0) (state_count task_info))))
    t_state.

(** Lines 394-417: the aggregation of the rows into the family. *)
Definition task_status_aggregate (states : list (option string))
    (rows : list Row) : Result MetricFamily :=
  let t_state := GaugeMetricFamily "airflow_task_status"
    "Shows the number of task instances with particular status"
    ["dag_id"; "task_id"; "owner"; "status"] in
  tasks_info_by_id ← for_each rows task_status_step [];
  for_each (tasks_info_by_id.*2) (task_status_emit states) t_state.

Definition task_status_family (w : World) : Gen MetricFamily :=
  rows ← session_query w Q_task_state_info (get_task_state_info (db w));
  lift (task_status_aggregate (task_states (State (rt w))) rows).

(** Lines 427-434. *)
Definition task_duration_sample (utc_now : PyVal) (task : Row) : Result Sample :=
  start_date ← getattr task "start_date";
  delta ← py_sub utc_now start_date;
  task_duration_value ← total_seconds delta;
  task_id ← getattr task "task_id";
  dag_id ← getattr task "dag_id";
  execution_date ← getattr task "execution_date";
  day ← date_str execution_date;
  mret (mkSample [task_id; dag_id; day] task_duration_value).

Definition task_duration_family (w : World) (utc_now : PyVal)
  : Gen MetricFamily :=
  let task_duration := GaugeMetricFamily "airflow_task_duration"
    "Duration of running tasks in seconds"
    ["task_id"; "dag_id"; "execution_date"] in
  rows ← lift (get_task_duration_info (RUNNING (State (rt w))));
  lift (add_samples task_duration rows (task_duration_sample utc_now)).

(** Lines 444-449. *)
Definition last_task_success_sample (utc_now : PyVal) (task : Row)
  : Result Sample :=
  end_date ← getattr task "end_date";
  delta ← py_sub utc_now end_date;
  last_task_success_time_value ← total_seconds delta;
  task_id ← getattr task "task_id";
  dag_id ← getattr task "dag_id";
  execution_date ← getattr task "execution_date";
  day ← date_str execution_date;
  mret (mkSample [task_id; dag_id; day] last_task_success_time_value).

Definition last_task_success_family (w : World) (utc_now : PyVal)
  : Gen MetricFamily :=
  let last_task_success_time :=
    GaugeMetricFamily "airflow_last_task_success_time"
      "Elapsed time in seconds since last task success"
      ["task_id"; "dag_id"; "execution_date"] in
  rows ← lift (get_task_duration_info (SUCCESS (State (rt w))));
  lift (add_samples last_task_success_time rows
          (last_task_success_sample utc_now)).

(** Lines 459-462. *)
Definition task_failure_sample (task : Row) : Result Sample :=
  dag_id ← getattr task "dag_id";
  task_id ← getattr task "task_id";
  count ← getattr task "count";
  mret (mkSample [dag_id; task_id] count).

Definition task_failure_family (w : World) : Gen MetricFamily :=
  let task_failure_count := GaugeMetricFamily "airflow_task_fail_count"
    "Count of failed tasks" ["dag_id"; "task_id"] in
  rows ← session_query w Q_task_failure_counts
           (get_task_failure_counts (db w));
  lift (add_samples task_failure_count rows task_failure_sample).

(** Lines 474-479: no normalisation of the state here. *)
Definition dag_status_step (by_id : list (PyVal * EntityInfo)) (dag : Row)
  : Result (list (PyVal * EntityInfo)) :=
  dag_id ← getattr dag "dag_id";
  state ← getattr dag "state";
  count ← getattr dag "count";
  mret (record_state dag_id dag state count by_id).

(** Lines 481-487. *)
Definition dag_status_emit (states : list (option string))
    (d_state : MetricFamily) (dag_info : EntityInfo) : Result MetricFamily :=
  let dag := meta dag_info in
  for_each states (λ d_state state,
    dag_id ← getattr dag "dag_id";
    owners ← getattr dag "owners";
    mret (add_metric d_state [dag_id; owners; of_str state]
            (dict_get_default (of_str state) (PInt 0) (state_count dag_info))))
    d_state.

(** Lines 467-487: the aggregation of the rows into the family. *)
Definition dag_status_aggregate (states : list (option string))
    (rows : list Row) : Result MetricFamily :=
  let d_state := GaugeMetricFamily "airflow_dag_status"
    "Shows the number of dag starts with this status"
    ["dag_id"; "owner"; "status"] in
  dags_info_by_id ← for_each rows dag_status_step [];
  for_each (dags_info_by_id.*2) (dag_status_emit states) d_state.

Definition dag_status_family (w : World) : Gen MetricFamily :=
  rows ← session_query w Q_dag_state_info (get_dag_state_info (db w));
  lift (dag_status_aggregate (dag_states (State (rt w))) rows).

(** Lines 496-502. *)
Definition dag_duration_sample (utc_now : PyVal) (dag : Row) : Result Sample :=
  start_date ← getattr dag "start_date";
  delta ← py_sub utc_now start_date;
  dag_duration_value ← total_seconds delta;
  dag_id ← getattr dag "dag_id";
  mret (mkSample [dag_id] dag_duration_value).

Definition dag_duration_family (w : World) (utc_now : PyVal)
  : Gen MetricFamily :=
  let dag_duration := GaugeMetricFamily "airflow_dag_run_duration"
    "Duration of running dag_runs in seconds" ["dag_id"] in
  rows ← session_query w (Q_dag_duration_info (RUNNING (State (rt w))))
           (get_dag_duration_info (State (rt w)) (db w)
              (RUNNING (State (rt w))));
  lift (add_samples dag_duration rows (dag_duration_sample utc_now)).

(** Lines 511-516. *)
Definition last_dag_success_sample (utc_now : PyVal) (dag : Row)
  : Result Sample :=
  end_date ← getattr dag "end_date";
  delta ← py_sub utc_now end_date;
  last_dag_success_time_value ← total_seconds delta;
  dag_id ← getattr dag "dag_id";
  mret (mkSample [dag_id] last_dag_success_time_value).

Definition last_dag_success_family (w : World) (utc_now : PyVal)
  : Gen MetricFamily :=
  let last_dag_success_time :=
    GaugeMetricFamily "airflow_last_dag_success_time"
      "Elapsed time in seconds since last DAG success" ["dag_id"] in
  rows ← session_query w (Q_dag_duration_info (SUCCESS (State (rt w))))
           (get_dag_duration_info (State (rt w)) (db w)
              (SUCCESS (State (rt w))));
  lift (add_samples last_dag_success_time rows
          (last_dag_success_sample utc_now)).

(** Lines 527-532. *)
Definition dag_scheduler_delay_sample (dag : Row) : Result Sample :=
  start_date ← getattr dag "start_date";
  execution_date ← getattr dag "execution_date";
  delta ← py_sub start_date execution_date;
  dag_scheduling_delay_value ← total_seconds delta;
  dag_id ← getattr dag "dag_id";
  mret (mkSample [dag_id] dag_scheduling_delay_value).

Definition dag_scheduler_delay_family (w : World) : Gen MetricFamily :=
  let dag_scheduler_delay := GaugeMetricFamily "airflow_dag_scheduler_delay"
    "Airflow DAG scheduling delay" ["dag_id"] in
  rows ← session_query w Q_dag_scheduler_delay
           (get_dag_scheduler_delay (db w));
  lift (add_samples dag_scheduler_delay rows dag_scheduler_delay_sample).

(** Lines 546-551, for one entry of the configuration. *)
Definition xcom_params_step (w : World) (xcom_params : MetricFamily)
    (tasks : PyVal) : Gen MetricFamily :=
  task_id ← lift (py_getitem tasks "task_id");
  rows ← session_query w (Q_xcom_params task_id)
           (get_xcom_params (db w) task_id);
  for_each rows (λ xcom_params param,
    value ← lift (getattr param "value");
    xcom_value ← extract_xcom_parameter (rt w) value;
    dag_id ← lift (getattr param "dag_id");
    task_id ← lift (getattr param "task_id");
    key ← lift (getattr param "key");
    mret (add_metric xcom_params [dag_id; task_id; key] xcom_value))
    xcom_params.

Definition xcom_params_family (w : World) : Gen MetricFamily :=
  let xcom_params := GaugeMetricFamily "airflow_xcom_parameter"
    "Airflow Xcom Parameter" ["dag_id"; "task_id"; "xcom_key"] in
  xcom_config ← lift (load_xcom_config (rt w) (fs w));
  entries ← lift (py_get xcom_config "xcom_params" (PList []));
  entries ← lift (py_iter entries);
  for_each entries (xcom_params_step w) xcom_params.

(** Lines 561-567. *)
Definition task_scheduler_delay_sample (task : Row) : Result Sample :=
  start_date ← getattr task "start_date";
  queued_dttm ← getattr task "queued_dttm";
  delta ← py_sub start_date queued_dttm;
  task_scheduling_delay_value ← total_seconds delta;
  queue ← getattr task "queue";
  mret (mkSample [queue] task_scheduling_delay_value).

Definition task_scheduler_delay_family (w : World) : Gen MetricFamily :=
  let task_scheduler_delay := GaugeMetricFamily "airflow_task_scheduler_delay"
    "Airflow Task scheduling delay" ["queue"] in
  rows ← session_query w Q_task_scheduler_delay
           (get_task_scheduler_delay (db w));
  lift (add_samples task_scheduler_delay rows task_scheduler_delay_sample).

Definition num_queued_tasks_family (w : World) : Gen MetricFamily :=
  let num_queued_tasks_metric := GaugeMetricFamily "airflow_num_queued_tasks"
    "Airflow Number of Queued Tasks" [] in
  num_queued_tasks ← session_query w Q_num_queued_tasks
                       (get_num_queued_tasks (State (rt w)) (db w));
  mret (add_metric num_queued_tasks_metric [] (PInt num_queued_tasks)).

(** Collect metrics: [MetricsCollector.collect], lines 389-578. *)
Definition collect (w : World) : Gen unit :=
  utc_now ← utcnow w;
  (* Task metrics *)
  t_state ← task_status_family w;
  yield t_state;;
  task_duration ← task_duration_family w utc_now;
  yield task_duration;;
  last_task_success_time ← last_task_success_family w utc_now;
  yield last_task_success_time;;
  task_failure_count ← task_failure_family w;
  yield task_failure_count;;
  (* Dag metrics *)
  d_state ← dag_status_family w;
  yield d_state;;
  dag_duration ← dag_duration_family w utc_now;
  yield dag_duration;;
  last_dag_success_time ← last_dag_success_family w utc_now;
  yield last_dag_success_time;;
  (* Scheduler metrics *)
  dag_scheduler_delay ← dag_scheduler_delay_family w;
  yield dag_scheduler_delay;;
  (* XCOM parameters *)
  xcom_params ← xcom_params_family w;
  yield xcom_params;;
  task_scheduler_delay ← task_scheduler_delay_family w;
  yield task_scheduler_delay;;
  num_queued_tasks_metric ← num_queued_tasks_family w;
  yield num_queued_tasks_metric.

(** One scrape: the collector run to its end, or to the exception that
    ends it. *)
Definition scrape (w : World) : Trace * Result unit := collect w empty_trace.

(** ** A reference runtime

    Small decoders that agree with the Python libraries on the inputs the
    examples below use.  A Python [str] is represented by its UTF-8
    bytes, so decoding UTF-8 is checking that the bytes are well formed. *)

Definition cont (b : N) : bool := ((128 <=? b) && (b <=? 191))%N.

(** Well-formed UTF-8 (RFC 3629). *)
Fixpoint utf8_well_formed (fuel : nat) (bs : list N) : bool :=
  match fuel with
  | O => false
  | S fuel' =>
      match bs with
      | [] => true
      | b0 :: r0 =>
          if (b0 <? 128)%N then utf8_well_formed fuel' r0
          else match r0 with
          | [] => false
          | b1 :: r1 =>
              if ((194 <=? b0) && (b0 <=? 223))%N
              then cont b1 && utf8_well_formed fuel' r1
              else match r1 with
              | [] => false
              | b2 :: r2 =>
                  if ((224 <=? b0) && (b0 <=? 239))%N
                  then cont b1 && cont b2
                       && negb ((b0 =? 224) && (b1 <? 160))%N
                       && negb ((b0 =? 237) && (159 <? b1))%N
                       && utf8_well_formed fuel' r2
                  else match r2 with
                  | [] => false
                  | b3 :: r3 =>
                      ((240 <=? b0) && (b0 <=? 244))%N
                      && cont b1 && cont b2 && cont b3
                      && negb ((b0 =? 240) && (b1 <? 144))%N
                      && negb ((b0 =? 244) && (143 <? b1))%N
                      && utf8_well_formed fuel' r3
                  end
              end
          end
      end
  end.

Definition ref_utf8_decode (bs : list byte) : Result string :=
  if utf8_well_formed (S (length bs)) (Byte.to_N <$> bs)
  then inr (String.string_of_list_byte bs)
  else inl UnicodeDecodeError.

Definition is_digit (c : Ascii.ascii) : bool :=
  let n := Ascii.N_of_ascii c in ((48 <=? n) && (n <=? 57))%N.

Fixpoint digits_value (acc : Z) (s : string) : option Z :=
  match s with
  | EmptyString => Some acc
  | String c s' =>
      if is_digit c
      then digits_value (10 * acc + Z.of_N (Ascii.N_of_ascii c) - 48) s'
      else None
  end.

(** A JSON integer: no sign or a minus, no leading zero. *)
Definition json_int (s : string) : option Z :=
  match s with
  | EmptyString => None
  | String c s' =>
      if Ascii.eqb c (Ascii.ascii_of_nat 45) then
        match s' with
        | EmptyString => None
        | String d s'' =>
            if Ascii.eqb d (Ascii.ascii_of_nat 48) && negb (String.eqb s'' "")
            then None else Z.opp <$> digits_value 0 s'
        end
      else if Ascii.eqb c (Ascii.ascii_of_nat 48) && negb (String.eqb s' "")
      then None else digits_value 0 s
  end.

(** [json.loads] on the JSON texts that are a literal, an integer, the
    empty object or the empty array; a [str] or [bytes] argument holds the
    text, any other argument is a [TypeError]. *)
Definition ref_json_text (s : string) : Result PyVal :=
  if String.eqb s "{}" then inr (PDict [])
  else if String.eqb s "[]" then inr (PList [])
  else if String.eqb s "null" then inr PNone
  else if String.eqb s "true" then inr (PBool true)
  else if String.eqb s "false" then inr (PBool false)
  else match json_int s with
       | Some n => inr (PInt n)
       | None => inl JSONDecodeError
       end.

Definition ref_json_loads (v : PyVal) : Result PyVal :=
  match v with
  | PStr s => ref_json_text s
  | PBytes bs => s ← ref_utf8_decode bs; ref_json_text s
  | _ => inl TypeError
  end.

Fixpoint line_and_rest (bs : list byte) : option (list byte * list byte) :=
  match bs with
  | [] => None
  | b :: bs' =>
      if Byte.eqb b x0a then Some ([], bs')
      else '(l, r) ← line_and_rest bs'; Some (b :: l, r)
  end.

(** [pickle.loads] on protocol-0 pickles of [None] ([N.]) and of a [str]
    without escapes ([V], the text, a newline, [.]). *)
Definition ref_pickle_loads (v : PyVal) : Result PyVal :=
  match v with
  | PBytes [] => inl EOFError
  | PBytes [x4e; x2e] => inr PNone
  | PBytes (x56 :: bs) =>
      match line_and_rest bs with
      | Some (l, [x2e]) => inr (PStr (String.string_of_list_byte l))
      | _ => inl UnpicklingError
      end
  | PBytes _ => inl UnpicklingError
  | _ => inl TypeError
  end.

(** [yaml.load] on the configuration documents of the examples: an empty
    document, a list of one or two [task_id] entries, and a text with an
    unclosed flow sequence. *)
Definition ref_yaml_load (text : string) : Result PyVal :=
  if String.eqb text "" then inr PNone
  else if String.eqb text "xcom_params: []" then
    inr (PDict [(PStr "xcom_params", PList [])])
  else if String.eqb text "xcom_params: [{task_id: all}]" then
    inr (PDict [(PStr "xcom_params",
                 PList [PDict [(PStr "task_id", PStr "all")]])])
  else if String.eqb text "xcom_params: [{task_id: load}]" then
    inr (PDict [(PStr "xcom_params",
                 PList [PDict [(PStr "task_id", PStr "load")]])])
  else inl YAMLError.

Definition ref_runtime (enable_pickling : bool) : Runtime := {|
  State := airflow_state;
  enable_xcom_pickling := enable_pickling;
  pickle_loads := ref_pickle_loads;
  json_loads := ref_json_loads;
  utf8_decode := ref_utf8_decode;
  yaml_load := ref_yaml_load
|}.

(** A file system without a configuration file. *)
Definition no_config : FileSystem := {|
  cwd := "/usr/local/airflow";
  cwd_exists := true;
  module_dir := "/usr/local/airflow/plugins/airflow_prometheus_exporter";
  isfile := λ _, false;
  read_file := λ _, inl FileNotFoundError;
  cwd_holds_config := λ _, eq_refl
|}.

(** A file system whose working directory holds [config.yaml] with the
    given text. *)
Definition with_config (text : string) : FileSystem := {|
  cwd := "/usr/local/airflow";
  cwd_exists := true;
  module_dir := "/usr/local/airflow/plugins/airflow_prometheus_exporter";
  isfile := λ p, String.eqb p "/usr/local/airflow/config.yaml";
  read_file := λ p,
    if String.eqb p "/usr/local/airflow/config.yaml" then inr text
    else inl FileNotFoundError;
  cwd_holds_config := λ _, eq_refl
|}.

Definition no_fault : QueryCall → option Exn := λ _, None.

(** * Vocabulary of the properties *)

(** A DAG the exporter considers: its definition is active and not
    paused. *)
Definition considered (db : Database) (dag_id : string) : Prop :=
  ∃ m, m ∈ dag db ∧ DagModel.dag_id m = dag_id ∧ active_unpaused m.

(** Every row of a query result carries the id of a considered DAG. *)
Definition rows_restricted (db : Database) (rows : list Row) : Prop :=
  ∀ r, r ∈ rows → ∃ d, column "dag_id" r = Some (PStr d) ∧ considered db d.

(** A database whose only DAG, the canary, is paused. *)
Definition paused_canary_db : Database := {|
  dag := [DagModel.mk "canary_dag" (Some "ops") (Some true) (Some true)];
  dag_run := [DagRun.mk "canary_dag" 100 (Some 105) None (Some "running")];
  task_instance :=
    [TaskInstance.mk "canary_dag" "probe" 100 None None (Some "queued")
       (Some "default") (Some 101)];
  task_fail := [];
  xcom := [XCom.mk "canary_dag" "probe" 100 "latency" (Some [x37])]
|}.








(** The canary DAG with a finished run and a later run that has no start
    date yet. *)
Definition canary_unstarted_db : Database := {|
  dag := [DagModel.mk "canary_dag" (Some "ops") (Some true) (Some false)];
  dag_run :=
    [DagRun.mk "canary_dag" 100 (Some 105) (Some 110) (Some "success");
     DagRun.mk "canary_dag" 200 None None (Some "running")];
  task_instance := [];
  task_fail := [];
  xcom := []
|}.

Definition canary_unstarted_world : World := {|
  rt := ref_runtime false;
  db := canary_unstarted_db;
  fs := no_config;
  clock := λ n, 1000 + Z.of_nat n;
  fault := no_fault
|}.

(** Two canary task instances of one queue that started at the same
    instant; only the first has a queued-at timestamp. *)
Definition canary_tie_db : Database := {|
  dag := [DagModel.mk "canary_dag" (Some "ops") (Some true) (Some false)];
  dag_run := [];
  task_instance :=
    [TaskInstance.mk "canary_dag" "probe_a" 100 (Some 105) None
       (Some "running") (Some "default") (Some 101);
     TaskInstance.mk "canary_dag" "probe_b" 100 (Some 105) None
       (Some "running") (Some "default") None];
  task_fail := [];
  xcom := []
|}.

(** The unique key of [dag_run]. *)
Definition dag_run_key (db : Database) : Prop :=
  ∀ a b, a ∈ dag_run db → b ∈ dag_run db →
    DagRun.dag_id a = DagRun.dag_id b →
    DagRun.execution_date a = DagRun.execution_date b →
    a = b.


(** No configuration file, and the working directory has been removed. *)
Definition removed_cwd : FileSystem := {|
  cwd := "/usr/local/airflow";
  cwd_exists := false;
  module_dir := "/usr/local/airflow/plugins/airflow_prometheus_exporter";
  isfile := λ _, false;
  read_file := λ _, inl FileNotFoundError;
  cwd_holds_config := λ H, H
|}.

Definition quiet_world (rt : Runtime) (db : Database) (fs : FileSystem)
  : World :=
  mkWorld rt db fs (λ n, 1000 + Z.of_nat n) no_fault.




(** The keys the collector's dictionaries have: strings and [None]. *)
Definition plain (k : PyVal) : Prop :=
  match k with
  | PNone | PStr _ => True
  | _ => False
  end.

(** The step both aggregation loops take for a row, with the identity of
    the entity, the state key and the recorded value read off the row. *)
Definition record_row (uid : Row → string) (skey sval : Row → PyVal)
    (by_id : list (PyVal * EntityInfo)) (row : Row)
  : list (PyVal * EntityInfo) :=
  record_state (PStr (uid row)) row (skey row) (sval row) by_id.

(** The state-count dictionary a list of rows builds. *)
Definition state_counts (skey sval : Row → PyVal) (rows : list Row)
  : list (PyVal * PyVal) :=
  foldl (λ d row, dict_set (skey row) (sval row) d) [] rows.

Definition append_samples (fam : MetricFamily) (ss : list Sample)
  : MetricFamily :=
  mkFamily (family_name fam) (family_documentation fam)
           (family_labelnames fam) (family_samples fam ++ ss).

(** The sample's label at position [i] is the string [s]. *)
Definition has_label (i : nat) (s : string) (smp : Sample) : bool :=
  match sample_labels smp !! i with
  | Some (PStr s') => String.eqb s' s
  | _ => false
  end.

(** The rows of one entity. *)
Definition rows_of (uid : Row → string) (u : string) (rows : list Row)
  : list Row :=
  filter (λ row, uid row = u) rows.

(** The string in a column of a row (empty if there is none), and the
    value in a column ([None] if there is none). *)
Definition row_str (col : string) (row : Row) : string :=
  match column col row with
  | Some (PStr s) => s
  | _ => ""
  end.

Definition row_val (col : string) (row : Row) : PyVal :=
  default PNone (column col row).

(** The rows of the two state-count queries. *)
Definition dag_row (d : string) (st : option string) (n : Z)
    (o : option string) : Row :=
  [("dag_id", PStr d); ("state", of_str st); ("count", PInt n);
   ("owners", of_str o)].

Definition task_row (d t : string) (st : option string) (n : Z)
    (o : option string) : Row :=
  [("dag_id", PStr d); ("task_id", PStr t); ("state", of_str st);
   ("value", PInt n); ("owners", of_str o)].

(** What lines 474-479 read off a row of the DAG status query. *)
Definition dag_uid (row : Row) : string := row_str "dag_id" row.

Definition dag_skey (row : Row) : PyVal :=
  match column "state" row with
  | Some (PStr s) => PStr s
  | _ => PNone
  end.

Definition dag_sval (row : Row) : PyVal := row_val "count" row.

(** What lines 401-408 read off a row of the task status query: the key
    is [f'{dag_id}_{task_id}'], the state is normalised by [or 'none'],
    and [task.count] is the tuple method, the row having no column of
    that label. *)
Definition task_uid (row : Row) : string :=
  row_str "dag_id" row ++ "_" ++ row_str "task_id" row.

Definition normalise (st : option string) : PyVal :=
  py_or (of_str st) (PStr "none").

Definition task_skey (row : Row) : PyVal :=
  match column "state" row with
  | Some (PStr s) => normalise (Some s)
  | _ => PStr "none"
  end.

Definition task_sval (row : Row) : PyVal := PBuiltinMethod "count" (row.*2).

(** The number of runs of a DAG in a state; no run is in the null
    state. *)
Definition runs_in_state (db : Database) (d : string) (st : option string)
  : Z :=
  Z.of_nat (length (filter (λ r, DagRun.dag_id r = d ∧
                                 sql_eq (DagRun.state r) st) (dag_run db))).

(** The samples of the emitted vectors, per entry of the dictionary. *)
Definition dag_samples (states : list (option string)) (info : EntityInfo)
  : list Sample :=
  (λ st, mkSample [PStr (dag_uid (meta info)); row_val "owners" (meta info);
                   of_str st]
           (dict_get_default (of_str st) (PInt 0) (state_count info)))
  <$> states.

Definition task_samples (states : list (option string)) (info : EntityInfo)
  : list Sample :=
  (λ st, mkSample [PStr (row_str "dag_id" (meta info));
                   PStr (row_str "task_id" (meta info));
                   row_val "owners" (meta info); normalise st]
           (dict_get_default (normalise st) (PInt 0) (state_count info)))
  <$> states.

(** The number of runs of a DAG whose state is one of [states]. *)
Definition runs_in_states (db : Database) (d : string)
    (states : list (option string)) : Z :=
  Z.of_nat (length (filter (λ r, DagRun.dag_id r = d ∧
                                 is_Some (DagRun.state r) ∧
                                 DagRun.state r ∈ states) (dag_run db))).

(** The count a sample holds. *)
Definition sample_count (smp : Sample) : Z :=
  match sample_value smp with
  | PInt n => n
  | _ => 0
  end.

Definition sum_Z (l : list Z) : Z := foldr Z.add 0 l.

(** [count(dag_id)] over a group of the task status query. *)
Definition task_group_count (db : Database)
    (k : string * string * option string) : Z :=
  sql_count ((λ ti, Some (TaskInstance.dag_id ti)) <$>
    filter (λ ti, task_key ti = k) (task_instance db)).

(** No other (DAG, task) pair of the database has the key
    [f'{dag_id}_{task_id}'] of the pair [(d, t)]. *)
Definition uid_is_unambiguous (db : Database) (d t : string) : Prop :=
  ∀ ti, ti ∈ task_instance db →
    TaskInstance.dag_id ti ++ "_" ++ TaskInstance.task_id ti = d ++ "_" ++ t →
    TaskInstance.dag_id ti = d ∧ TaskInstance.task_id ti = t.

(** No task instance of the pair is in a state that is normalised like
    [st]. *)
Definition state_absent (db : Database) (d t : string) (st : option string)
  : Prop :=
  ∀ ti, ti ∈ task_instance db →
    TaskInstance.dag_id ti = d → TaskInstance.task_id ti = t →
    normalise (TaskInstance.state ti) ≠ normalise st.

(** The DAG status vector of the DAG [m] is dense: its samples are one
    per defined state, each the number of runs of the DAG in that state,
    and over distinct states they add up to the number of runs in a
    defined state. *)
Definition dag_vector_is_dense (db : Database) (states : list (option string))
    (m : DagModel.t) : Prop :=
  ∃ fam, dag_status_aggregate states (get_dag_state_info db) = inr fam ∧
    filter (has_label 0 (DagModel.dag_id m)) (family_samples fam)
    = (λ st, mkSample [PStr (DagModel.dag_id m); of_str (DagModel.owners m);
                       of_str st]
               (PInt (runs_in_state db (DagModel.dag_id m) st))) <$> states ∧
    (∀ st, 0 ≤ runs_in_state db (DagModel.dag_id m) st) ∧
    (NoDup states →
     sum_Z (sample_count <$>
              filter (has_label 0 (DagModel.dag_id m)) (family_samples fam))
     = runs_in_states db (DagModel.dag_id m) states).

(** The task status vector of the task [t] of the DAG [m] is dense: its
    samples are one per defined state, and a state no task instance of
    the pair is in has the sample zero. *)
Definition task_vector_is_dense (db : Database)
    (states : list (option string)) (m : DagModel.t) (t : string) : Prop :=
  ∃ fam value,
    task_status_aggregate states (get_task_state_info db) = inr fam ∧
    filter (λ s, has_label 0 (DagModel.dag_id m) s && has_label 1 t s)
           (family_samples fam)
    = (λ st, mkSample [PStr (DagModel.dag_id m); PStr t;
                       of_str (DagModel.owners m); normalise st] (value st))
      <$> states ∧
    ∀ st, state_absent db (DagModel.dag_id m) t st → value st = PInt 0.

(** The samples of a family that was built. *)
Definition samples_of (r : Result MetricFamily) : list Sample :=
  match r with
  | inr fam => family_samples fam
  | inl _ => []
  end.

Definition etl_1 : DagModel.t :=
  DagModel.mk "etl_1" (Some "alice") (Some true) (Some false).

(** The active DAG [etl_1] with two successful runs and a running one,
    and its task [load] with two successful instances and a running
    one. *)
Definition etl_db : Database := {|
  dag := [etl_1];
  dag_run :=
    [DagRun.mk "etl_1" 100 (Some 101) (Some 200) (Some "success");
     DagRun.mk "etl_1" 300 (Some 301) (Some 400) (Some "success");
     DagRun.mk "etl_1" 500 (Some 501) None (Some "running")];
  task_instance :=
    [TaskInstance.mk "etl_1" "load" 100 (Some 102) (Some 150)
       (Some "success") (Some "default") (Some 101);
     TaskInstance.mk "etl_1" "load" 300 (Some 302) (Some 350)
       (Some "success") (Some "default") (Some 301);
     TaskInstance.mk "etl_1" "load" 500 (Some 502) None
       (Some "running") (Some "default") (Some 501)];
  task_fail := [];
  xcom := []
|}.

(** An active DAG whose only task instance is in the state [removed],
    which [State.task_states] does not list, and a paused DAG with a
    successful task instance. *)
Definition removed_task_db : Database := {|
  dag := [etl_1;
          DagModel.mk "legacy" (Some "bob") (Some true) (Some true)];
  dag_run := [];
  task_instance :=
    [TaskInstance.mk "etl_1" "load" 100 (Some 102) (Some 150)
       (Some "removed") (Some "default") (Some 101);
     TaskInstance.mk "legacy" "load" 100 (Some 102) (Some 150)
       (Some "success") (Some "default") (Some 101)];
  task_fail := [];
  xcom := []
|}.

(** The samples of [airflow_task_status] for [removed_task_db]. *)
Definition removed_task_samples : list Sample :=
  samples_of (task_status_aggregate (task_states airflow_state)
                (get_task_state_info removed_task_db)).

(** The state counts an entity has in the dictionary, if it has an
    entry. *)
Definition counts_of (uid : PyVal) (by_id : list (PyVal * EntityInfo))
  : list (PyVal * PyVal) :=
  match dict_get uid by_id with
  | Some info => state_count info
  | None => []
  end.

(** The active DAG [etl_1] with a successful run and a run whose state
    is null. *)
Definition null_state_db : Database := {|
  dag := [etl_1];
  dag_run :=
    [DagRun.mk "etl_1" 100 (Some 101) (Some 200) (Some "success");
     DagRun.mk "etl_1" 300 None None None];
  task_instance := [];
  task_fail := [];
  xcom := []
|}.

(** A latest step of a target state: a task instance in the target state
    that has started (and ended, for the success state), the latest such
    instance of its (DAG, task), whose execution date is the latest
    execution date among the eligible runs of its DAG. *)
Definition latest_step (S : StateEnum) (db : Database) (state : string)
    (ti : TaskInstance.t) : Prop :=
  ti ∈ qualifying_tasks S db state ∧
  (∀ ti', ti' ∈ qualifying_tasks S db state → ti_key ti' = ti_key ti →
          TaskInstance.execution_date ti' ≤ TaskInstance.execution_date ti) ∧
  (TaskInstance.dag_id ti, TaskInstance.execution_date ti)
    ∈ max_execution_dt_query S db state.

(** * Vocabulary of the further properties *)

(** A run the latest-run subquery considers for a target state: a run of
    an active, unpaused DAG in that state, ended if the state is the
    success state. *)
Definition eligible (S : StateEnum) (db : Database) (state : string)
    (r : DagRun.t) : Prop :=
  r ∈ dag_run db ∧ considered db (DagRun.dag_id r) ∧
  DagRun.state r = Some state ∧
  ended_if_success S state (DagRun.end_date r).

(** The task instances that have both dates. *)
Definition finished_tasks (db : Database) : list TaskInstance.t :=
  filter (λ ti, is_Some (TaskInstance.start_date ti) ∧
                is_Some (TaskInstance.end_date ti)) (task_instance db).

(** The rows of the DAG duration query before its last filter: the latest
    eligible run of each DAG, with the earliest start among the task
    instances of that run. *)
Definition dag_duration_base (S : StateEnum) (db : Database) (state : string)
  : list Row :=
  '(d, t, s) ← dag_start_dt_query S db state;
  r ← filter (λ r, DagRun.dag_id r = d ∧ DagRun.execution_date r = t)
             (dag_run db);
  [ [("dag_id", PStr d); ("start_date", PDatetime s);
     ("end_date", of_time (DagRun.end_date r))] ].

(** [s] is the earliest start among the started task instances of the run
    of DAG [d] with execution date [t]. *)
Definition earliest_start (db : Database) (d : string) (t s : Z) : Prop :=
  (∃ ti, ti ∈ task_instance db ∧ TaskInstance.dag_id ti = d ∧
         TaskInstance.execution_date ti = t ∧
         TaskInstance.start_date ti = Some s) ∧
  ∀ ti s', ti ∈ task_instance db → TaskInstance.dag_id ti = d →
    TaskInstance.execution_date ti = t →
    TaskInstance.start_date ti = Some s' → s ≤ s'.

(** An active DAG with two failures of one task, and a paused DAG with a
    failure. *)
Definition failing_db : Database := {|
  dag := [DagModel.mk "etl_1" (Some "alice") (Some true) (Some false);
          DagModel.mk "etl_2" (Some "bob") (Some true) (Some true)];
  dag_run := [];
  task_instance := [];
  task_fail := [TaskFail.mk "etl_1" "load"; TaskFail.mk "etl_2" "load";
                TaskFail.mk "etl_1" "load"];
  xcom := []
|}.

(** [t] is the latest execution date among all runs of DAG [d]. *)
Definition latest_run_date (db : Database) (d : string) (t : Z) : Prop :=
  (∃ r, r ∈ dag_run db ∧ DagRun.dag_id r = d ∧ DagRun.execution_date r = t) ∧
  ∀ r, r ∈ dag_run db → DagRun.dag_id r = d → DagRun.execution_date r ≤ t.

(** [s] is the latest start among the canary task instances of queue [q]
    that have a queueing time. *)
Definition latest_queued_start (db : Database) (q : string) (s : Z) : Prop :=
  (∃ ti, ti ∈ queued_canary_tasks db ∧ TaskInstance.queue ti = Some q ∧
         TaskInstance.start_date ti = Some s) ∧
  ∀ ti s', ti ∈ queued_canary_tasks db → TaskInstance.queue ti = Some q →
    TaskInstance.start_date ti = Some s' → s' ≤ s.

(** A sample of the custom-parameter gauge that stems from an XCom record
    of the latest run of its DAG: labelled with the record's DAG, task and
    key, and holding a value the decoder returned for the record's
    blob. *)
Definition xcom_sample (w : World) (smp : Sample) : Prop :=
  ∃ x, x ∈ xcom (db w) ∧
    latest_run_date (db w) (XCom.dag_id x) (XCom.execution_date x) ∧
    sample_labels smp
    = [PStr (XCom.dag_id x); PStr (XCom.task_id x); PStr (XCom.key x)] ∧
    ∃ s, (extract_xcom_parameter (rt w) (of_bytes (XCom.value x)) s).2
         = inr (sample_value smp).

(** The record [extract_xcom_parameter] writes for a decoding error. *)
Definition decode_error_record (r : LogRecord) : Prop :=
  ∃ e, r = LogError xcom_error_message e ∧ is_ValueError e = true.

(** From [s] to [s'] the log has only grown by decoding-error records,
    and by none in pickled mode. *)
Definition logs_decode_errors (rt : Runtime) (s s' : Trace) : Prop :=
  ∃ recs, log s' = (log s ++ recs)%list ∧
          Forall decode_error_record recs ∧
          (enable_xcom_pickling rt = true → recs = []).

(** The decoders of the runtime raise nothing but [ValueError]s on a byte
    string and on a text, as [bytes.decode] and [json.loads] do. *)
Definition decoders_raise_value_errors (rt : Runtime) : Prop :=
  (∀ bs e, utf8_decode rt bs = inl e → is_ValueError e = true) ∧
  (∀ text e, json_loads rt (PStr text) = inl e → is_ValueError e = true).

(** The canary DAG with two XCom records of its latest run, the first of
    which is not JSON. *)
Definition xcom_db : Database := {|
  dag := [DagModel.mk "canary_dag" (Some "ops") (Some true) (Some false)];
  dag_run := [DagRun.mk "canary_dag" 100 (Some 105) None (Some "running")];
  task_instance := [];
  task_fail := [];
  xcom := [XCom.mk "canary_dag" "probe" 100 "note" (Some [x6f; x6f; x70; x73]);
           XCom.mk "canary_dag" "probe" 100 "latency" (Some [x37])]
|}.

(** Two file systems that agree on the working directory and on the
    configuration file in it. *)
Definition same_cwd_config (fs fs' : FileSystem) : Prop :=
  cwd fs' = cwd fs ∧
  isfile fs' (path_join (cwd fs) CONFIG_FILENAME)
  = isfile fs (path_join (cwd fs) CONFIG_FILENAME) ∧
  read_file fs' (path_join (cwd fs) CONFIG_FILENAME)
  = read_file fs (path_join (cwd fs) CONFIG_FILENAME).

(** A configuration file in the working directory and another one, with
    another text, beside the module. *)
Definition two_configs : FileSystem := {|
  cwd := "/usr/local/airflow";
  cwd_exists := true;
  module_dir := "/opt/exporter";
  isfile := λ p, String.eqb p "/usr/local/airflow/config.yaml" ||
                 String.eqb p "/opt/exporter/config.yaml";
  read_file := λ p,
    if String.eqb p "/usr/local/airflow/config.yaml"
    then inr "xcom_params: [{task_id: all}]"
    else if String.eqb p "/opt/exporter/config.yaml"
    then inr "xcom_params: [{task_id: load}]"
    else inl FileNotFoundError;
  cwd_holds_config := λ _, eq_refl
|}.

(** * Further databases and expressions *)

(** The database with another [dag] table. *)
Definition with_dags (db : Database) (dags : list DagModel.t) : Database :=
  mkDatabase dags (dag_run db) (task_instance db) (task_fail db) (xcom db).

(** The paused canary DAG with a probe that was queued and has started. *)
Definition paused_probe_db : Database := {|
  dag := [DagModel.mk "canary_dag" (Some "ops") (Some true) (Some true)];
  dag_run := [];
  task_instance :=
    [TaskInstance.mk "canary_dag" "probe" 100 (Some 105) None
       (Some "running") (Some "default") (Some 101)];
  task_fail := [];
  xcom := []
|}.

(** The return expression of [get_task_duration_info] with the
    parenthesis of [.join(] closed after [and_(...)]. *)
Definition task_duration_return_closed : PyExpr :=
  Call
    (Call
       (Call (Obj KQuery) "join" [Obj KSelectable; Obj KClause])
       "filter" [Obj KClause; Obj KClause; Obj KClause])
    "all" [].

(** * Properties *)

(** ** SQL aggregates *)

Lemma foldr_max_ub (x : Z) (l : list Z) :
  x ≤ foldr Z.max x l ∧ ∀ y, y ∈ l → y ≤ foldr Z.max x l.
Proof.
  induction l as [|a l [IHx IHl]]; simpl.
  - split; [lia|]. intros y Hy. inversion Hy.
  - split; [lia|]. intros y Hy. apply elem_of_cons in Hy as [->|Hy].
    + lia.
    + specialize (IHl y Hy). lia.
Qed.

Lemma foldr_max_elem (x : Z) (l : list Z) : foldr Z.max x l ∈ x :: l.
Proof.
  induction l as [|a l IH]; simpl.
  - left.
  - destruct (Z.max_spec a (foldr Z.max x l)) as [[_ ->]|[_ ->]].
    + apply elem_of_cons in IH as [->|IH]; [left|right; right; exact IH].
    + right; left.
Qed.

Lemma sql_max_spec (l : list Z) (t : Z) :
  sql_max l = Some t → t ∈ l ∧ ∀ y, y ∈ l → y ≤ t.
Proof.
  destruct l as [|x l]; simpl; [discriminate|].
  intros [= <-]. split; [apply foldr_max_elem|].
  intros y Hy. destruct (foldr_max_ub x l) as [Hx Hl].
  apply elem_of_cons in Hy as [->|Hy]; auto.
Qed.

Lemma sql_max_is_Some (l : list Z) (x : Z) : x ∈ l → is_Some (sql_max l).
Proof. destruct l; [inversion 1|]. simpl. eauto. Qed.

Lemma sql_max_unique (l : list Z) (t : Z) :
  t ∈ l → (∀ y, y ∈ l → y ≤ t) → sql_max l = Some t.
Proof.
  intros Ht Hub. destruct (sql_max_is_Some l t Ht) as [t' Ht'].
  destruct (sql_max_spec l t' Ht') as [Hin Hle].
  specialize (Hub t' Hin). specialize (Hle t Ht).
  rewrite Ht'. f_equal. lia.
Qed.

Lemma elem_of_group_keys {A K} `{EqDecision K} (key : A → K) (l : list A) k :
  k ∈ group_keys key l ↔ ∃ x, x ∈ l ∧ key x = k.
Proof.
  unfold group_keys. rewrite elem_of_remove_dups, list_elem_of_fmap.
  split; intros (x & H1 & H2); eauto.
Qed.

(** ** The subqueries *)

Section QueryFacts.
Variable S : StateEnum.
Variable db : Database.

Lemma elem_of_eligible_runs state r :
  r ∈ eligible_runs S db state ↔
  r ∈ dag_run db ∧ considered db (DagRun.dag_id r) ∧
  DagRun.state r = Some state ∧ ended_if_success S state (DagRun.end_date r).
Proof.
  unfold eligible_runs, considered. rewrite list_elem_of_bind. split.
  - intros (r' & Hr & Hr'). apply list_elem_of_bind in Hr as (m & Hm & Hin).
    case_decide as Hc; [|inversion Hm].
    apply list_elem_of_singleton in Hm as ->.
    destruct Hc as (Hid & Ha & Hst & He). eauto 10.
  - intros (Hr & (m & Hm & Hid & Ha) & Hst & He). exists r. split; [|done].
    apply list_elem_of_bind. exists m. split; [|done].
    rewrite decide_True by done. by apply list_elem_of_singleton.
Qed.

(** The row of [max_execution_dt_query] for a DAG names an eligible run of
    that DAG, and no eligible run of the DAG is later. *)
Lemma elem_of_max_execution_dt_query state d t :
  (d, t) ∈ max_execution_dt_query S db state ↔
  (∃ r, r ∈ eligible_runs S db state ∧ DagRun.dag_id r = d ∧
        DagRun.execution_date r = t) ∧
  (∀ r, r ∈ eligible_runs S db state → DagRun.dag_id r = d →
        DagRun.execution_date r ≤ t).
Proof.
  unfold max_execution_dt_query. rewrite list_elem_of_bind. split.
  - intros (d' & Hin & Hd').
    destruct (sql_max _) as [t'|] eqn:Hmax; [|inversion Hin].
    apply list_elem_of_singleton in Hin as [= <- <-].
    apply sql_max_spec in Hmax as [Ht Hub].
    apply list_elem_of_fmap in Ht as (r & -> & Hr).
    apply list_elem_of_filter in Hr as [Hrd Hr]. split; [eauto|].
    intros r' Hr' Hd. apply Hub. apply list_elem_of_fmap.
    exists r'. split; [done|]. by apply list_elem_of_filter.
  - intros [(r & Hr & Hd & Ht) Hub]. exists d. split.
    + erewrite sql_max_unique; [by apply list_elem_of_singleton| |].
      * apply list_elem_of_fmap. exists r. split; [done|].
        by apply list_elem_of_filter.
      * intros y Hy. apply list_elem_of_fmap in Hy as (r' & -> & Hr').
        apply list_elem_of_filter in Hr' as [Hd' Hr']. by apply Hub.
    + apply elem_of_group_keys. eauto.
Qed.

Lemma max_execution_dt_query_considered state d t :
  (d, t) ∈ max_execution_dt_query S db state → considered db d.
Proof.
  intros [(r & Hr & <- & _) _]%elem_of_max_execution_dt_query.
  by apply elem_of_eligible_runs in Hr as (_ & Hc & _).
Qed.

Lemma elem_of_dag_start_dt_query state d t s :
  (d, t, s) ∈ dag_start_dt_query S db state →
  (d, t) ∈ max_execution_dt_query S db state.
Proof.
  unfold dag_start_dt_query. intros ([d' t'] & Hin & Hq)%list_elem_of_bind.
  destruct (sql_min _); [|inversion Hin].
  by apply list_elem_of_singleton in Hin as [= <- <- <-].
Qed.

Lemma elem_of_task_latest_execution_dt state d task t :
  (d, task, t) ∈ task_latest_execution_dt S db state ↔
  (d, task, t) ∈ task_duration_query S db state ∧
  (d, t) ∈ max_execution_dt_query S db state.
Proof.
  unfold task_latest_execution_dt. rewrite list_elem_of_bind. split.
  - intros ([[d1 task1] t1] & Hin & Hq).
    apply list_elem_of_bind in Hin as ([d2 t2] & Hin & Hm).
    case_decide as Hc; [|inversion Hin]. destruct Hc as [-> ->].
    by apply list_elem_of_singleton in Hin as [= -> -> ->].
  - intros [Hq Hm]. exists (d, task, t). split; [|done].
    apply list_elem_of_bind. exists (d, t). split; [|done].
    rewrite decide_True by done. by apply list_elem_of_singleton.
Qed.

End QueryFacts.

(** ** Which queries look at the DAG definitions *)

Section Restriction.
Variable S : StateEnum.
Variable db : Database.

Lemma get_dag_state_info_restricted : rows_restricted db (get_dag_state_info db).
Proof.
  intros r ([[d st] n] & Hr & _)%list_elem_of_bind.
  apply list_elem_of_bind in Hr as (m & Hr & Hm).
  apply list_elem_of_filter in Hm as [[Hid Ha] Hm].
  apply list_elem_of_singleton in Hr as ->.
  exists d. split; [reflexivity|]. by exists m.
Qed.

Lemma get_task_state_info_restricted :
  rows_restricted db (get_task_state_info db).
Proof.
  intros r ([[[d t] st] n] & Hr & _)%list_elem_of_bind.
  apply list_elem_of_bind in Hr as (m & Hr & Hm).
  apply list_elem_of_filter in Hm as [[Hid Ha] Hm].
  apply list_elem_of_singleton in Hr as ->.
  exists d. split; [reflexivity|]. by exists m.
Qed.

Lemma get_task_failure_counts_restricted :
  rows_restricted db (get_task_failure_counts db).
Proof.
  intros r (k & Hr & Hk)%list_elem_of_bind.
  apply list_elem_of_singleton in Hr as ->.
  apply elem_of_group_keys in Hk as (f & Hf & <-).
  apply list_elem_of_bind in Hf as (f' & Hf & _).
  apply list_elem_of_bind in Hf as (m & Hf & Hm).
  apply list_elem_of_singleton in Hf as ->.
  apply list_elem_of_filter in Hm as [[Hid Ha] Hm].
  exists (TaskFail.dag_id f'). split; [reflexivity|]. by exists m.
Qed.

Lemma get_dag_duration_info_restricted state :
  rows_restricted db (get_dag_duration_info S db state).
Proof.
  intros r ([[d t] s] & Hr & Hq)%list_elem_of_bind.
  apply list_elem_of_bind in Hr as (run & Hr & _).
  apply list_elem_of_bind in Hr as (ti & Hr & _).
  apply list_elem_of_singleton in Hr as ->.
  exists d. split; [reflexivity|].
  eapply max_execution_dt_query_considered, elem_of_dag_start_dt_query, Hq.
Qed.

End Restriction.

(** C5, as the code has it: the state-count, DAG duration and
    failure-count queries return rows of active, unpaused DAGs only; the
    latest-step-duration query returns no row at all, it raises; and the
    custom-parameter, scheduling-delay and queue-depth queries do not
    read the DAG definitions: they return the same whatever the [dag]
    table holds. *)
Theorem considered_dags_only (S : StateEnum) (db : Database) (state : string)
    (dags : list DagModel.t) (task_id : PyVal) :
  rows_restricted db (get_dag_state_info db) ∧
  rows_restricted db (get_dag_duration_info S db state) ∧
  rows_restricted db (get_task_state_info db) ∧
  rows_restricted db (get_task_failure_counts db) ∧
  get_task_duration_info state = inl AttributeError ∧
  get_xcom_params (with_dags db dags) task_id = get_xcom_params db task_id ∧
  get_dag_scheduler_delay (with_dags db dags) = get_dag_scheduler_delay db ∧
  get_task_scheduler_delay (with_dags db dags)
  = get_task_scheduler_delay db ∧
  get_num_queued_tasks S (with_dags db dags) = get_num_queued_tasks S db.
Proof.
  split; [apply get_dag_state_info_restricted|].
  split; [apply get_dag_duration_info_restricted|].
  split; [apply get_task_state_info_restricted|].
  split; [apply get_task_failure_counts_restricted|].
  repeat split.
Qed.

Lemma paused_canary_not_considered d : ¬ considered paused_canary_db d.
Proof.
  intros (m & Hm & _ & _ & Hp). apply list_elem_of_singleton in Hm as ->.
  discriminate Hp.
Qed.

Lemma paused_probe_not_considered d : ¬ considered paused_probe_db d.
Proof.
  intros (m & Hm & _ & _ & Hp). apply list_elem_of_singleton in Hm as ->.
  discriminate Hp.
Qed.

(** C5 as stated fails: with the canary DAG paused, the custom-parameter
    and the two scheduling-delay queries still return its rows, and the
    queue-depth query still counts its queued task. *)
Lemma paused_dag_is_still_served :
  ¬ rows_restricted paused_canary_db
      (get_xcom_params paused_canary_db (PStr "all")) ∧
  ¬ rows_restricted paused_canary_db
      (get_dag_scheduler_delay paused_canary_db) ∧
  get_num_queued_tasks airflow_state paused_canary_db = 1 ∧
  (∀ d, ¬ considered paused_probe_db d) ∧
  get_task_scheduler_delay paused_probe_db
  = [[("queue", PStr "default"); ("execution_date", PDatetime 100);
      ("queued_dttm", PDatetime 101); ("start_date", PDatetime 105)]].
Proof.
  split; [|split; [|split; [reflexivity|split]]].
  - intros H.
    destruct (H [("dag_id", PStr "canary_dag"); ("task_id", PStr "probe");
                 ("value", PBytes [x37]); ("key", PStr "latency")])
      as (d & _ & Hd).
    + vm_compute. left.
    + exact (paused_canary_not_considered d Hd).
  - intros H.
    destruct (H [("dag_id", PStr "canary_dag");
                 ("execution_date", PDatetime 100);
                 ("start_date", PDatetime 105)]) as (d & _ & Hd).
    + vm_compute. left.
    + exact (paused_canary_not_considered d Hd).
  - exact paused_probe_not_considered.
  - reflexivity.
Qed.

(** ** The latest-step-duration query *)

Lemma elem_of_task_duration_query_iff S db state d task t :
  (d, task, t) ∈ task_duration_query S db state ↔
  (∃ ti, ti ∈ qualifying_tasks S db state ∧ ti_key ti = (d, task) ∧
         TaskInstance.execution_date ti = t) ∧
  (∀ ti, ti ∈ qualifying_tasks S db state → ti_key ti = (d, task) →
         TaskInstance.execution_date ti ≤ t).
Proof.
  unfold task_duration_query. rewrite list_elem_of_bind. split.
  - intros ([d' task'] & Hin & Hk).
    destruct (sql_max _) as [t'|] eqn:Hmax; [|inversion Hin].
    apply list_elem_of_singleton in Hin as [= <- <- <-].
    apply sql_max_spec in Hmax as [Ht Hub].
    apply list_elem_of_fmap in Ht as (ti & -> & Hti).
    apply list_elem_of_filter in Hti as [Hkey Hti]. split; [eauto|].
    intros ti' Hti' Hkey'. apply Hub. apply list_elem_of_fmap.
    exists ti'. split; [done|]. by apply list_elem_of_filter.
  - intros [(ti & Hti & Hkey & Ht) Hub]. exists (d, task). split.
    + erewrite sql_max_unique; [by apply list_elem_of_singleton| |].
      * apply list_elem_of_fmap. exists ti. split; [done|].
        by apply list_elem_of_filter.
      * intros y Hy. apply list_elem_of_fmap in Hy as (ti' & -> & Hti').
        apply list_elem_of_filter in Hti' as [Hkey' Hti']. by apply Hub.
    + apply elem_of_group_keys. eauto.
Qed.

(** The evaluation of the return expression raises when [.filter] is
    looked up on the clause element. *)
Lemma task_duration_return_raises :
  py_eval task_duration_return = inl AttributeError.
Proof. reflexivity. Qed.

(** The same chain with [.join(] closed after [and_(...)] builds the
    query and runs it. *)
Lemma task_duration_return_closed_runs :
  py_eval task_duration_return_closed = inr KRows.
Proof. reflexivity. Qed.

(** C3: the latest-step-duration query returns nothing for any target
    state.  The second argument of [.join] is
    [and_(...).filter(...).all()]; the lookup of [filter] on the clause
    element raises [AttributeError], so the function raises on every
    call, whatever the state and the database. *)
Theorem get_task_duration_info_raises (state : string) :
  py_eval (Call (Obj KClause) "filter" [Obj KClause; Obj KClause; Obj KClause])
  = inl AttributeError ∧
  py_eval task_duration_return = inl AttributeError ∧
  get_task_duration_info state = inl AttributeError.
Proof. repeat split. Qed.

(** ** Loops and the generator monad *)


Lemma for_each_gen_trace {A B} (Q : Trace → Trace → Prop)
    (body : B → A → Gen B) (l : list A) :
  (∀ s, Q s s) → (∀ s1 s2 s3, Q s1 s2 → Q s2 s3 → Q s1 s3) →
  (∀ b a s, Q s (body b a s).1) →
  ∀ acc s, Q s (for_each l body acc s).1.
Proof.
  intros Hrefl Htrans Hbody. induction l as [|a l IH]; intros acc s; simpl.
  - apply Hrefl.
  - unfold mbind, gen_bind. specialize (Hbody acc a s).
    destruct (body acc a s) as [s1 [e|b]]; simpl in *; [done|].
    eapply Htrans; [exact Hbody|apply IH].
Qed.


(** The loop [for row in rows: fam.add_metric(...)] appends one sample per
    row, in order, or raises what the first failing row raises. *)
Lemma add_samples_inr fam rows sample_of fam' :
  add_samples fam rows sample_of = inr fam' →
  ∃ ss, Forall2 (λ row s, sample_of row = inr s) rows ss ∧
        fam' = mkFamily (family_name fam) (family_documentation fam)
                 (family_labelnames fam) (family_samples fam ++ ss).
Proof.
  unfold add_samples. revert fam. induction rows as [|row rows IH];
    intros fam; simpl.
  - intros [= <-]. exists []. rewrite app_nil_r. by destruct fam.
  - unfold mbind, result_bind, mret, result_ret.
    destruct (sample_of row) as [e|s] eqn:Hs; [discriminate|].
    intros (ss & Hss & ->)%IH. exists (s :: ss). split; [by constructor|].
    simpl. by rewrite <- app_assoc.
Qed.


(** A family that is a query followed by the sample loop. *)
Lemma query_then_samples w call rows fam0 sample_of s :
  (rows ← session_query w call rows; lift (add_samples fam0 rows sample_of)) s
  = (s, match fault w call with
        | Some e => inl e
        | None => add_samples fam0 rows sample_of
        end).
Proof.
  unfold mbind, gen_bind, session_query, lift, raise.
  by destruct (fault w call).
Qed.


(** ** Each family builds the family of its name *)



Lemma query_then_lift {A} w call (rows : A) (f : A → Result MetricFamily) s :
  (rows ← session_query w call rows; lift (f rows)) s
  = (s, match fault w call with Some e => inl e | None => f rows end).
Proof.
  unfold mbind, gen_bind, session_query, lift, raise.
  by destruct (fault w call).
Qed.

(** Without a data-source fault the two status families are the
    aggregations of their queries' rows. *)
Lemma task_status_family_no_fault w s :
  fault w Q_task_state_info = None →
  task_status_family w s
  = (s, task_status_aggregate (task_states (State (rt w)))
          (get_task_state_info (db w))).
Proof.
  intros Hf. unfold task_status_family. by rewrite query_then_lift, Hf.
Qed.

Lemma dag_status_family_no_fault w s :
  fault w Q_dag_state_info = None →
  dag_status_family w s
  = (s, dag_status_aggregate (dag_states (State (rt w)))
          (get_dag_state_info (db w))).
Proof.
  intros Hf. unfold dag_status_family. by rewrite query_then_lift, Hf.
Qed.



(** Neither task gauge is ever built: the call of the query function
    raises. *)
Lemma task_duration_family_raises w now s :
  task_duration_family w now s = (s, inl AttributeError).
Proof. reflexivity. Qed.

Lemma last_task_success_family_raises w now s :
  last_task_success_family w now s = (s, inl AttributeError).
Proof. reflexivity. Qed.













(** ** The shape of a collection pass *)






(** What a pass does: it reads the clock; if the task status query
    fails, it ends with that error; otherwise it yields the task status
    family and ends with the [AttributeError] of [get_task_duration_info]
    (line 427). *)
Lemma scrape_run w :
  scrape w
  = match fault w Q_task_state_info with
    | Some e => (mkTrace 1 [] [], inl e)
    | None =>
        match task_status_aggregate (task_states (State (rt w)))
                (get_task_state_info (db w)) with
        | inr t_state => (mkTrace 1 [] [t_state], inl AttributeError)
        | inl e => (mkTrace 1 [] [], inl e)
        end
    end.
Proof.
  unfold scrape, collect.
  unfold mbind at 1, gen_bind at 1, utcnow at 1. simpl.
  unfold mbind at 1, gen_bind at 1.
  unfold task_status_family. rewrite query_then_lift.
  destruct (fault w Q_task_state_info) as [e|]; [reflexivity|].
  destruct (task_status_aggregate _ _) as [e|t_state]; reflexivity.
Qed.



(** ** Null timestamps *)

(** A row of the DAG duration query has a start date. *)
Lemma get_dag_duration_info_start S db state row :
  row ∈ get_dag_duration_info S db state →
  ∃ s, column "start_date" row = Some (PDatetime s).
Proof.
  intros ([[d t] s] & Hr & _)%list_elem_of_bind.
  apply list_elem_of_bind in Hr as (run & Hr & _).
  apply list_elem_of_bind in Hr as (ti & Hr & _).
  apply list_elem_of_singleton in Hr as ->. by exists s.
Qed.

(** With the unique key of [dag_run] in force, a row of the DAG duration
    query for the success state has an end date. *)
Lemma get_dag_duration_info_end S db row :
  dag_run_key db →
  row ∈ get_dag_duration_info S db (SUCCESS S) →
  ∃ e, column "end_date" row = Some (PDatetime e).
Proof.
  intros Hkey ([[d t] s] & Hr & Hq)%list_elem_of_bind.
  apply list_elem_of_bind in Hr as (run & Hr & Hrun).
  apply list_elem_of_bind in Hr as (ti & Hr & _).
  apply list_elem_of_singleton in Hr as ->.
  apply list_elem_of_filter in Hrun as [[Hd Ht] Hrun].
  apply elem_of_dag_start_dt_query, elem_of_max_execution_dt_query in Hq
    as [(r & Hr & Hrd & Hrt) _].
  apply elem_of_eligible_runs in Hr as (Hr & _ & _ & Hend).
  assert (run = r) as -> by (apply Hkey; congruence).
  destruct (Hend eq_refl) as [e He]. exists e. simpl. by rewrite He.
Qed.

(** C6 at a canary run without a start date: the scheduling-delay query
    returns the run with a null [start_date], and the subtraction of
    line 528 raises. *)
Theorem dag_scheduler_delay_null_start_date :
  get_dag_scheduler_delay canary_unstarted_db
    = [[("dag_id", PStr "canary_dag"); ("execution_date", PDatetime 200);
        ("start_date", PNone)]] ∧
  dag_scheduler_delay_sample
    [("dag_id", PStr "canary_dag"); ("execution_date", PDatetime 200);
     ("start_date", PNone)] = inl TypeError ∧
  (dag_scheduler_delay_family canary_unstarted_world empty_trace).2
    = inl TypeError.
Proof. repeat split. Qed.

(** The step-level delay has the same defect on a tie: the join back to
    [task_instance] does not repeat the filter on [queued_dttm]. *)
Lemma task_scheduler_delay_null_queued_dttm :
  get_task_scheduler_delay canary_tie_db
    = [[("queue", PStr "default"); ("execution_date", PDatetime 100);
        ("queued_dttm", PDatetime 101); ("start_date", PDatetime 105)];
       [("queue", PStr "default"); ("execution_date", PDatetime 100);
        ("queued_dttm", PNone); ("start_date", PDatetime 105)]] ∧
  task_scheduler_delay_sample
    [("queue", PStr "default"); ("execution_date", PDatetime 100);
     ("queued_dttm", PNone); ("start_date", PDatetime 105)]
    = inl TypeError.
Proof. split; reflexivity. Qed.

(** ** Decoding custom parameters *)

(** C7, as the code has it.  In direct mode a blob whose UTF-8 or JSON
    decoding raises a [ValueError] gives the empty object, with one error
    record in the log.  In pickled mode a value that unpickles but whose
    JSON decoding raises gives the empty object, with no log record; a
    blob that does not unpickle raises. *)
Theorem extract_xcom_parameter_on_failure (rt : Runtime) (value : PyVal)
    (s : Trace) :
  (enable_xcom_pickling rt = false →
   ∀ e, (text ← py_decode rt value; json_loads rt text) = inl e →
        is_ValueError e = true →
        extract_xcom_parameter rt value s
        = (mkTrace (clock_reads s)
                   (log s ++ [LogError xcom_error_message e]) (yielded s),
           inr (PDict []))) ∧
  (enable_xcom_pickling rt = true →
   ∀ v e, pickle_loads rt value = inr v → json_loads rt v = inl e →
          is_Exception e = true →
          extract_xcom_parameter rt value s = (s, inr (PDict []))) ∧
  (enable_xcom_pickling rt = true →
   ∀ e, pickle_loads rt value = inl e →
        extract_xcom_parameter rt value s = (s, inl e)).
Proof.
  unfold extract_xcom_parameter. repeat split.
  - intros -> e He Hv. rewrite He, Hv. reflexivity.
  - intros -> v e Hp Hj He. unfold mbind, gen_bind, lift.
    rewrite Hp, Hj, He. reflexivity.
  - intros -> e Hp. unfold mbind, gen_bind, lift. by rewrite Hp.
Qed.

Lemma extract_xcom_parameter_on_failure_witness :
  extract_xcom_parameter (ref_runtime false)
    (PBytes (String.list_byte_of_string "{oops")) empty_trace
  = (mkTrace 0 [LogError xcom_error_message JSONDecodeError] [],
     inr (PDict [])) ∧
  extract_xcom_parameter (ref_runtime true) (PBytes [x4e; x2e]) empty_trace
  = (empty_trace, inr (PDict [])).
Proof.
  split.
  - apply (extract_xcom_parameter_on_failure (ref_runtime false)
             (PBytes (String.list_byte_of_string "{oops")) empty_trace);
      reflexivity.
  - apply (proj1 (proj2 (extract_xcom_parameter_on_failure (ref_runtime true)
                           (PBytes [x4e; x2e]) empty_trace))
             eq_refl PNone TypeError); reflexivity.
Defined.

(** C7 as stated fails in pickled mode: an empty blob does not unpickle
    and the error leaves [extract_xcom_parameter]; a pickled string that
    is not JSON gives the empty object but nothing is logged. *)
Lemma pickled_mode_raises_or_stays_silent :
  extract_xcom_parameter (ref_runtime true) (PBytes []) empty_trace
    = (empty_trace, inl EOFError) ∧
  ref_pickle_loads (PBytes (String.list_byte_of_string "Voops
.")) = inr (PStr "oops") ∧
  extract_xcom_parameter (ref_runtime true)
    (PBytes (String.list_byte_of_string "Voops
.")) empty_trace
    = (empty_trace, inr (PDict [])).
Proof. repeat split. Qed.




(** ** The configuration file *)





(** ** Elapsed-time gauges *)







(** The samples of a query-then-loop family come from the rows. *)
Lemma query_then_samples_elem w call rows name doc labels sample_of s fam smp :
  ((rows ← session_query w call rows;
    lift (add_samples (GaugeMetricFamily name doc labels) rows sample_of)) s).2
  = inr fam →
  smp ∈ family_samples fam →
  ∃ row, row ∈ rows ∧ sample_of row = inr smp.
Proof.
  rewrite query_then_samples. simpl. destruct (fault w call); [discriminate|].
  intros (ss & Hss & ->)%add_samples_inr. simpl. intros Hsmp.
  apply list_elem_of_lookup in Hsmp as [i Hi].
  destruct (Forall2_lookup_r _ _ _ _ _ Hss Hi) as (row & Hrow & Hs).
  exists row. split; [|done]. by eapply list_elem_of_lookup_2.
Qed.





(** ** Dictionaries with string keys *)

Lemma key_eqb_plain a k : plain k → key_eqb a k = true ↔ a = k.
Proof.
  destruct k; simpl; try done; intros _.
  - destruct a; simpl; split; try done.
  - destruct a; simpl; split; try done.
    + by intros ->%String.eqb_eq.
    + intros [= ->]. apply String.eqb_refl.
Qed.

Lemma key_eqb_plain_ne a k : plain k → key_eqb a k = false ↔ a ≠ k.
Proof.
  intros Hk. rewrite <- (key_eqb_plain a k Hk).
  destruct (key_eqb a k); split; congruence.
Qed.

Lemma of_str_plain o : plain (of_str o).
Proof. by destruct o. Qed.

Lemma of_str_inj o1 o2 : of_str o1 = of_str o2 → o1 = o2.
Proof. destruct o1, o2; simpl; congruence. Qed.

Section Dict.
Context {V : Type}.
Implicit Types (d : list (PyVal * V)) (k : PyVal) (v : V).

Lemma dict_get_set_eq k v d : plain k → dict_get k (dict_set k v d) = Some v.
Proof.
  intros Hk. induction d as [|[k0 v0] d IH]; simpl.
  - by rewrite (proj2 (key_eqb_plain k k Hk) eq_refl).
  - destruct (key_eqb k0 k) eqn:Hk0; simpl; by rewrite Hk0.
Qed.

Lemma dict_get_set_ne k k' v d :
  plain k → plain k' → k ≠ k' →
  dict_get k' (dict_set k v d) = dict_get k' d.
Proof.
  intros Hk Hk' Hne. induction d as [|[k0 v0] d IH]; simpl.
  - by rewrite (proj2 (key_eqb_plain_ne k k' Hk')).
  - destruct (key_eqb k0 k) eqn:Hk0; simpl.
    + apply key_eqb_plain in Hk0 as ->; [|done].
      by rewrite (proj2 (key_eqb_plain_ne k k' Hk')).
    + by rewrite IH.
Qed.

Lemma dict_get_elem k v d : plain k → dict_get k d = Some v → (k, v) ∈ d.
Proof.
  intros Hk. induction d as [|[k0 v0] d IH]; simpl; [done|].
  destruct (key_eqb k0 k) eqn:Hk0.
  - apply key_eqb_plain in Hk0 as ->; [|done]. intros [= ->]. left.
  - intros H. right. by apply IH.
Qed.

Lemma dict_get_None k d : plain k → dict_get k d = None ↔ k ∉ d.*1.
Proof.
  intros Hk. induction d as [|[k0 v0] d IH]; simpl.
  - split; [intros _; apply not_elem_of_nil|done].
  - rewrite not_elem_of_cons. destruct (key_eqb k0 k) eqn:Hk0.
    + apply key_eqb_plain in Hk0 as ->; [|done]. split; [done|].
      by intros [? _].
    + apply key_eqb_plain_ne in Hk0; [|done]. rewrite IH. split.
      * intros Hd. split; [congruence|done].
      * by intros [_ Hd].
Qed.

Lemma dict_set_keys k v d :
  plain k →
  (dict_set k v d).*1
  = match dict_get k d with
    | Some _ => d.*1
    | None => (d.*1 ++ [k])%list
    end.
Proof.
  intros Hk. induction d as [|[k0 v0] d IH]; [done|].
  cbn [dict_set dict_get]. destruct (key_eqb k0 k) eqn:Heq; [done|].
  rewrite !fmap_cons, IH. by destruct (dict_get k d).
Qed.

Lemma dict_set_NoDup k v d : plain k → NoDup d.*1 → NoDup (dict_set k v d).*1.
Proof.
  intros Hk Hnd. rewrite dict_set_keys by done.
  destruct (dict_get k d) eqn:Hget; [done|].
  apply NoDup_app. split; [done|]. split; [|apply NoDup_singleton].
  intros x Hx ->%list_elem_of_singleton. by apply dict_get_None in Hget.
Qed.

Lemma elem_of_dict_set k v d k' v' :
  plain k → NoDup d.*1 →
  (k', v') ∈ dict_set k v d ↔
  (k' = k ∧ v' = v) ∨ (k' ≠ k ∧ (k', v') ∈ d).
Proof.
  intros Hk. induction d as [|[k0 v0] d IH]; simpl.
  - intros _. rewrite list_elem_of_singleton. split.
    + intros [= -> ->]. by left.
    + intros [[-> ->]|[_ ?%elem_of_nil]]; done.
  - intros [Hk0 Hnd]%NoDup_cons. destruct (key_eqb k0 k) eqn:Heq.
    + apply key_eqb_plain in Heq as ->; [|done].
      rewrite !elem_of_cons. split.
      * intros [[= -> ->]|Hin]; [by left|]. right. split; [|by right].
        intros ->. apply Hk0. apply list_elem_of_fmap. by exists (k, v').
      * intros [[-> ->]|[Hne [[= -> ->]|Hin]]]; [by left|done|by right].
    + apply key_eqb_plain_ne in Heq; [|done].
      rewrite !elem_of_cons, (IH Hnd). split.
      * intros [[= -> ->]|[[-> ->]|[Hne Hin]]];
          [right; split; [done|by left]|by left|right; split; [done|by right]].
      * intros [[-> ->]|[Hne [[= -> ->]|Hin]]];
          [right; by left|by left|right; right; by split].
Qed.

End Dict.

(** ** State-count aggregation *)

Lemma state_counts_snoc skey sval rows row :
  state_counts skey sval (rows ++ [row])
  = dict_set (skey row) (sval row) (state_counts skey sval rows).
Proof. unfold state_counts. by rewrite foldl_app. Qed.

Section Aggregation.
Variable uid : Row → string.
Variables skey sval : Row → PyVal.
Hypothesis skey_plain : ∀ row, plain (skey row).

(** A state no row has reads as absent. *)
Lemma state_counts_absent rows k :
  plain k → (∀ row, row ∈ rows → skey row ≠ k) →
  dict_get k (state_counts skey sval rows) = None.
Proof.
  intros Hk. induction rows as [|row rows IH] using rev_ind; intros Hne.
  - reflexivity.
  - rewrite state_counts_snoc, dict_get_set_ne.
    + apply IH. intros r Hr. apply Hne, elem_of_app. by left.
    + apply skey_plain.
    + exact Hk.
    + apply Hne, elem_of_app. right. left.
Qed.

(** A state the rows agree on reads as its value. *)
Lemma state_counts_present rows row :
  row ∈ rows →
  (∀ row', row' ∈ rows → skey row' = skey row → sval row' = sval row) →
  dict_get (skey row) (state_counts skey sval rows) = Some (sval row).
Proof.
  induction rows as [|r rows IH] using rev_ind; intros Hin Hval.
  - by apply elem_of_nil in Hin.
  - rewrite state_counts_snoc.
    destruct (key_eqb (skey r) (skey row)) eqn:Hkey;
      [apply key_eqb_plain in Hkey as Heq|apply key_eqb_plain_ne in Hkey as Hne'];
      try apply skey_plain.
    + rewrite Heq, dict_get_set_eq by apply skey_plain.
      f_equal. apply Hval; [|done]. apply elem_of_app. right. left.
    + rewrite dict_get_set_ne by (try apply skey_plain; done).
      apply elem_of_app in Hin as [Hin|Hin%list_elem_of_singleton].
      * apply IH; [done|]. intros r' Hr'. apply Hval, elem_of_app. by left.
      * by subst.
Qed.

Lemma rows_of_snoc u rows row :
  rows_of uid u (rows ++ [row])
  = if decide (uid row = u) then (rows_of uid u rows ++ [row])%list
    else rows_of uid u rows.
Proof.
  unfold rows_of. rewrite filter_app, filter_cons, filter_nil.
  case_decide; [done|]. by rewrite app_nil_r.
Qed.

(** What the dictionary of entities holds after the first loop: one entry
    per identity, with the state counts of the rows of that identity. *)
Lemma aggregate_entries rows :
  let by_id := foldl (record_row uid skey sval) [] rows in
  NoDup by_id.*1 ∧
  (∀ k info, (k, info) ∈ by_id →
     ∃ u, k = PStr u ∧ uid (meta info) = u ∧ meta info ∈ rows ∧
          state_count info = state_counts skey sval (rows_of uid u rows)) ∧
  (∀ row, row ∈ rows → ∃ info, (PStr (uid row), info) ∈ by_id).
Proof.
  induction rows as [|row rows (Hnd & Hentries & Hrows)] using rev_ind; simpl.
  - split; [constructor|]. split.
    + by intros k info ?%elem_of_nil.
    + by intros row ?%elem_of_nil.
  - rewrite foldl_app. simpl. set (by_id := foldl _ [] rows) in *.
    unfold record_row at 1, record_state. set (u := uid row).
    set (info0 := match dict_get (PStr u) by_id with
                  | Some info => info
                  | None => mkInfo row []
                  end).
    assert (uid (meta info0) = u ∧ meta info0 ∈ (rows ++ [row])%list ∧
            dict_set (skey row) (sval row) (state_count info0)
            = state_counts skey sval (rows_of uid u (rows ++ [row]))) as Hnew.
    { rewrite rows_of_snoc, decide_True by done.
      rewrite state_counts_snoc. subst info0.
      destruct (dict_get (PStr u) by_id) as [info|] eqn:Hget.
      - apply dict_get_elem in Hget; [|done].
        destruct (Hentries _ _ Hget) as (u' & [= <-] & Hu & Hm & Hsc).
        rewrite Hsc. repeat split; [done|]. apply elem_of_app. by left.
      - simpl. split; [done|]. split; [apply elem_of_app; right; left|].
        replace (rows_of uid u rows) with (@nil Row); [done|].
        symmetry. apply elem_of_nil_inv. intros r Hr.
        apply list_elem_of_filter in Hr as [Hu Hr].
        destruct (Hrows r Hr) as [info Hinfo].
        apply dict_get_None in Hget; [|done]. apply Hget.
        apply list_elem_of_fmap. exists (PStr (uid r), info).
        split; [by rewrite Hu|done]. }
    split; [by apply dict_set_NoDup|]. split.
    + intros k info Hin. apply elem_of_dict_set in Hin; [|done|done].
      destruct Hin as [[-> ->]|[Hne Hin]].
      * exists u. simpl. by destruct Hnew as (? & ? & ?).
      * destruct (Hentries _ _ Hin) as (u' & -> & Hu & Hm & Hsc).
        exists u'. repeat split; [done|by apply elem_of_app; left|].
        rewrite rows_of_snoc, decide_False; [done|].
        intros Heq. apply Hne. by rewrite <- Heq.
    + intros r Hr. destruct (decide (uid r = u)) as [->|Hne].
      * eexists. apply elem_of_dict_set; [done|done|]. by left.
      * apply elem_of_app in Hr as [Hr|Hr%list_elem_of_singleton];
          [|by subst].
        destruct (Hrows r Hr) as [info Hinfo]. exists info.
        apply elem_of_dict_set; [done|done|]. right.
        split; [by intros [= Heq]|done].
Qed.

End Aggregation.

Lemma for_each_foldl {A B} (step : B → A → Result B) (f : B → A → B)
    (l : list A) (acc : B) :
  (∀ acc a, a ∈ l → step acc a = inr (f acc a)) →
  for_each l step acc = inr (foldl f acc l).
Proof.
  revert acc. induction l as [|a l IH]; intros acc Hstep; simpl; [done|].
  unfold mbind, result_bind. rewrite Hstep by left.
  apply IH. intros acc' a' Ha'. apply Hstep. by right.
Qed.

Lemma append_samples_nil fam : append_samples fam [] = fam.
Proof. unfold append_samples. rewrite app_nil_r. by destruct fam. Qed.

Lemma append_samples_app fam ss ss' :
  append_samples (append_samples fam ss) ss' = append_samples fam (ss ++ ss').
Proof. unfold append_samples. simpl. by rewrite app_assoc. Qed.

(** A loop whose every step appends samples appends them all. *)
Lemma for_each_append {A} (body : MetricFamily → A → Result MetricFamily)
    (g : A → list Sample) (l : list A) (fam : MetricFamily) :
  (∀ fam a, a ∈ l → body fam a = inr (append_samples fam (g a))) →
  for_each l body fam = inr (append_samples fam (l ≫= g)).
Proof.
  revert fam. induction l as [|a l IH]; intros fam Hbody; simpl.
  - by rewrite append_samples_nil.
  - unfold mbind at 1, result_bind. rewrite Hbody by left.
    rewrite IH by (intros fam' a' Ha'; apply Hbody; by right).
    by rewrite append_samples_app.
Qed.

Lemma filter_all {A} (P : A → Prop) `{∀ x, Decision (P x)} (l : list A) :
  (∀ x, x ∈ l → P x) → filter P l = l.
Proof.
  induction l as [|a l IH]; intros HP; [done|].
  rewrite filter_cons_True by (apply HP; left).
  f_equal. apply IH. intros x Hx. apply HP. by right.
Qed.

Lemma filter_none {A} (P : A → Prop) `{∀ x, Decision (P x)} (l : list A) :
  (∀ x, x ∈ l → ¬ P x) → filter P l = [].
Proof.
  intros HP. apply elem_of_nil_inv. intros x [Hx Hin]%list_elem_of_filter.
  by apply (HP x).
Qed.

(** Among entries with distinct keys, the samples that satisfy a
    predicate only the entry of key [k] produces are that entry's. *)
Lemma filter_bind_unique {V} (P : Sample → Prop) `{∀ s, Decision (P s)}
    (g : V → list Sample) (l : list (PyVal * V)) (k : PyVal) (v : V) :
  NoDup l.*1 → (k, v) ∈ l →
  (∀ s, s ∈ g v → P s) →
  (∀ k' v' s, (k', v') ∈ l → k' ≠ k → s ∈ g v' → ¬ P s) →
  filter P (l.*2 ≫= g) = g v.
Proof.
  intros Hnd Hin Hyes. induction l as [|[k0 v0] l IH]; intros Hno;
    [by apply elem_of_nil in Hin|].
  apply NoDup_cons in Hnd as [Hk0 Hnd].
  rewrite fmap_cons, bind_cons, filter_app. simpl.
  apply elem_of_cons in Hin as [[= <- <-]|Hin].
  - rewrite (filter_all P (g v)) by done.
    rewrite (filter_none P (l.*2 ≫= g)); [by rewrite app_nil_r|].
    intros s (v' & Hs & Hv')%list_elem_of_bind.
    apply list_elem_of_fmap in Hv' as ([k' v''] & -> & Hkv).
    apply (Hno k' v'' s); [by right| |done].
    intros ->. apply Hk0. apply list_elem_of_fmap. by exists (k, v'').
  - rewrite (filter_none P (g v0)).
    + apply IH; [done|done|]. intros k' v' s Hkv. apply Hno. by right.
    + intros s Hs. apply (Hno k0 v0 s); [left| |done].
      intros ->. apply Hk0. apply list_elem_of_fmap. by exists (k, v).
Qed.

(** ** The DAG status vector *)

Lemma dag_skey_plain row : plain (dag_skey row).
Proof. unfold dag_skey. by destruct (column "state" row) as [[]|]. Qed.

Lemma dag_status_step_row acc d st n o :
  dag_status_step acc (dag_row d st n o)
  = inr (record_row dag_uid dag_skey dag_sval acc (dag_row d st n o)).
Proof. by destruct st. Qed.

Lemma for_each_add_sample {A} (f : A → Sample) (l : list A) fam :
  for_each l (λ fam a, inr (add_sample fam (f a)) : Result MetricFamily) fam
  = inr (append_samples fam (f <$> l)).
Proof.
  revert fam. induction l as [|a l IH]; intros fam; simpl.
  - by rewrite append_samples_nil.
  - unfold mbind, result_bind. rewrite IH.
    unfold add_sample, append_samples. simpl. by rewrite <- app_assoc.
Qed.

Lemma dag_status_emit_row states fam info d st n o :
  meta info = dag_row d st n o →
  dag_status_emit states fam info
  = inr (append_samples fam (dag_samples states info)).
Proof.
  intros Hmeta. unfold dag_status_emit, dag_samples. rewrite Hmeta.
  exact (for_each_add_sample
           (λ st', mkSample [PStr d; of_str o; of_str st']
                     (dict_get_default (of_str st') (PInt 0)
                        (state_count info))) states fam).
Qed.

(** [count(state)] over a group is the number of runs in that state. *)
Lemma sql_count_states (l : list DagRun.t) d st :
  length (non_null (DagRun.state <$>
            filter (λ r, (DagRun.dag_id r, DagRun.state r) = (d, st)) l))
  = length (filter (λ r, DagRun.dag_id r = d ∧ sql_eq (DagRun.state r) st) l).
Proof.
  unfold non_null. induction l as [|a l IH]; [done|].
  rewrite !filter_cons. destruct (decide (_ = (d, st))) as [[= Hd Hst]|Hne].
  - rewrite fmap_cons, Hst. destruct st as [s|]; csimpl.
    + rewrite decide_True; [csimpl; by rewrite IH|].
      split; [done|]. split; [eauto|done].
    + rewrite decide_False; [done|]. intros [_ [[? [=]] _]].
  - rewrite decide_False; [done|]. intros [Hd [_ Hst]]. apply Hne. congruence.
Qed.

Lemma elem_of_get_dag_state_info db row :
  row ∈ get_dag_state_info db ↔
  ∃ r m, r ∈ dag_run db ∧ m ∈ dag db ∧
         DagModel.dag_id m = DagRun.dag_id r ∧ active_unpaused m ∧
         row = dag_row (DagRun.dag_id r) (DagRun.state r)
                 (runs_in_state db (DagRun.dag_id r) (DagRun.state r))
                 (DagModel.owners m).
Proof.
  unfold get_dag_state_info, dag_status_query, runs_in_state.
  rewrite list_elem_of_bind. split.
  - intros ([[d st] n] & Hrow & Hq).
    apply list_elem_of_bind in Hq as ([d' st'] & Hq & Hk).
    apply list_elem_of_singleton in Hq as [= -> -> ->].
    apply elem_of_group_keys in Hk as (r & Hr & [= <- <-]).
    apply list_elem_of_bind in Hrow as (m & Hrow & Hm).
    apply list_elem_of_filter in Hm as [[Hid Ha] Hm].
    apply list_elem_of_singleton in Hrow as ->.
    exists r, m. do 4 (split; [done|]).
    unfold dag_row, sql_count. by rewrite sql_count_states.
  - intros (r & m & Hr & Hm & Hid & Ha & ->).
    exists (DagRun.dag_id r, DagRun.state r,
            sql_count (DagRun.state <$>
              filter (λ r', (DagRun.dag_id r', DagRun.state r')
                            = (DagRun.dag_id r, DagRun.state r)) (dag_run db))).
    split.
    + apply list_elem_of_bind. exists m. split.
      * apply list_elem_of_singleton. unfold dag_row, sql_count.
        by rewrite sql_count_states.
      * by apply list_elem_of_filter.
    + apply list_elem_of_bind. exists (DagRun.dag_id r, DagRun.state r).
      split; [by apply list_elem_of_singleton|].
      apply elem_of_group_keys. by exists r.
Qed.

Lemma dag_skey_row d st n o : dag_skey (dag_row d st n o) = of_str st.
Proof. by destruct st. Qed.

Lemma NoDup_fmap_elem_inj {A B} (f : A → B) (l : list A) x y :
  NoDup (f <$> l) → x ∈ l → y ∈ l → f x = f y → x = y.
Proof.
  induction l as [|a l IH]; [by intros _ ?%elem_of_nil|].
  rewrite fmap_cons. intros [Ha Hnd]%NoDup_cons.
  intros [->|Hx]%elem_of_cons [->|Hy]%elem_of_cons Hf.
  - done.
  - exfalso. apply Ha. rewrite Hf. by apply list_elem_of_fmap_2.
  - exfalso. apply Ha. rewrite <- Hf. by apply list_elem_of_fmap_2.
  - by apply IH.
Qed.

(** The first loop over the rows of the DAG status query. *)
Lemma dag_status_first_loop db :
  for_each (get_dag_state_info db) dag_status_step []
  = inr (foldl (record_row dag_uid dag_skey dag_sval) []
           (get_dag_state_info db)).
Proof.
  apply for_each_foldl. intros acc row Hrow.
  apply elem_of_get_dag_state_info in Hrow as (r & m & _ & _ & _ & _ & ->).
  apply dag_status_step_row.
Qed.

(** The whole aggregation of the DAG status query. *)
Lemma dag_status_aggregate_eq db states :
  dag_status_aggregate states (get_dag_state_info db)
  = inr (append_samples
           (GaugeMetricFamily "airflow_dag_status"
              "Shows the number of dag starts with this status"
              ["dag_id"; "owner"; "status"])
           ((foldl (record_row dag_uid dag_skey dag_sval) []
               (get_dag_state_info db)).*2 ≫= dag_samples states)).
Proof.
  unfold dag_status_aggregate. rewrite dag_status_first_loop.
  unfold mbind at 1, result_bind at 1.
  apply for_each_append. intros fam info Hinfo.
  apply list_elem_of_fmap in Hinfo as ([k info'] & -> & Hin).
  destruct (aggregate_entries dag_uid dag_skey dag_sval
              (get_dag_state_info db)) as (_ & Hent & _).
  destruct (Hent _ _ Hin) as (u & _ & _ & Hmeta & _).
  apply elem_of_get_dag_state_info in Hmeta as (r & m & _ & _ & _ & _ & Hmeta).
  simpl. by eapply dag_status_emit_row.
Qed.

(** The rows of a DAG in the result of the DAG status query. *)
Lemma elem_of_dag_rows db d row :
  row ∈ rows_of dag_uid d (get_dag_state_info db) ↔
  ∃ r m, r ∈ dag_run db ∧ m ∈ dag db ∧ DagRun.dag_id r = d ∧
         DagModel.dag_id m = d ∧ active_unpaused m ∧
         row = dag_row d (DagRun.state r) (runs_in_state db d (DagRun.state r))
                 (DagModel.owners m).
Proof.
  unfold rows_of. rewrite list_elem_of_filter, elem_of_get_dag_state_info.
  split.
  - intros [Hu (r & m & Hr & Hm & Hid & Ha & ->)]. exists r, m.
    unfold dag_uid, row_str in Hu. simpl in Hu. subst d. by rewrite Hid.
  - intros (r & m & Hr & Hm & Hrd & Hmd & Ha & ->). split; [done|].
    exists r, m. subst d. by rewrite Hmd.
Qed.

(** The count the vector of a DAG reads for a state. *)
Lemma dag_state_count db d st :
  NoDup (DagModel.dag_id <$> dag db) → considered db d →
  dict_get_default (of_str st) (PInt 0)
    (state_counts dag_skey dag_sval
       (rows_of dag_uid d (get_dag_state_info db)))
  = PInt (runs_in_state db d st).
Proof.
  intros Hpk (m & Hm & Hmd & Ha). unfold dict_get_default.
  destruct (decide (Exists (λ r, DagRun.dag_id r = d ∧ DagRun.state r = st)
                      (dag_run db))) as [Hex|Hnex].
  - apply Exists_exists in Hex as (r & Hr & Hrd & Hrs).
    pose (row := dag_row d st (runs_in_state db d st) (DagModel.owners m)).
    rewrite <- (dag_skey_row d st (runs_in_state db d st) (DagModel.owners m)).
    rewrite (state_counts_present dag_skey dag_sval dag_skey_plain _ row).
    + reflexivity.
    + apply elem_of_dag_rows. exists r, m. by rewrite Hrs.
    + intros row' (r' & m' & Hr' & Hm' & Hrd' & Hmd' & Ha' & ->)%elem_of_dag_rows.
      unfold row. rewrite !dag_skey_row. by intros ->%of_str_inj.
  - rewrite state_counts_absent.
    + unfold runs_in_state. rewrite filter_none; [done|].
      intros r Hr [Hrd [_ Hrs]]. apply Hnex, Exists_exists. by exists r.
    + apply dag_skey_plain.
    + apply of_str_plain.
    + intros row' (r' & m' & Hr' & Hm' & Hrd' & Hmd' & Ha' & ->)%elem_of_dag_rows.
      rewrite dag_skey_row. intros Heq%of_str_inj.
      apply Hnex, Exists_exists. by exists r'.
Qed.

(** The DAG half of C1. *)
Lemma dag_status_dense db states m :
  NoDup (DagModel.dag_id <$> dag db) →
  m ∈ dag db → active_unpaused m →
  (∃ r, r ∈ dag_run db ∧ DagRun.dag_id r = DagModel.dag_id m) →
  ∃ fam, dag_status_aggregate states (get_dag_state_info db) = inr fam ∧
    filter (has_label 0 (DagModel.dag_id m)) (family_samples fam)
    = (λ st, mkSample [PStr (DagModel.dag_id m); of_str (DagModel.owners m);
                       of_str st]
               (PInt (runs_in_state db (DagModel.dag_id m) st))) <$> states.
Proof.
  intros Hpk Hm Ha (r & Hr & Hrd). set (d := DagModel.dag_id m) in *.
  eexists. split; [apply dag_status_aggregate_eq|]. simpl.
  destruct (aggregate_entries dag_uid dag_skey dag_sval
              (get_dag_state_info db)) as (Hnd & Hent & Hrows).
  assert (dag_row d (DagRun.state r) (runs_in_state db d (DagRun.state r))
            (DagModel.owners m) ∈ get_dag_state_info db) as Hrow.
  { apply elem_of_get_dag_state_info. exists r, m. by rewrite Hrd. }
  destruct (Hrows _ Hrow) as [info Hinfo].
  change (dag_uid (dag_row d _ _ _)) with d in Hinfo.
  destruct (Hent _ _ Hinfo) as (u & [= <-] & Hu & Hmeta & Hsc).
  rewrite (filter_bind_unique _ _ _ (PStr d) info Hnd Hinfo).
  - unfold dag_samples. apply list_fmap_ext. intros i st _.
    rewrite Hu, Hsc. rewrite dag_state_count; [|done|by exists m].
    assert (meta info ∈ rows_of dag_uid d (get_dag_state_info db)) as Hmrow
      by (by apply list_elem_of_filter).
    apply elem_of_dag_rows in Hmrow
      as (r' & m' & _ & Hm' & _ & Hmd' & _ & ->).
    by rewrite (NoDup_fmap_elem_inj _ _ m' m Hpk Hm' Hm Hmd').
  - intros s (st & -> & _)%list_elem_of_fmap. unfold has_label. simpl.
    rewrite Hu. by rewrite String.eqb_refl.
  - intros k' v' s Hkv Hne (st & -> & _)%list_elem_of_fmap.
    destruct (Hent _ _ Hkv) as (u' & -> & Hu' & _).
    unfold has_label. simpl. rewrite Hu'.
    destruct (String.eqb_spec u' d) as [->|]; [done|]. by intros [].
Qed.

Lemma length_filter_disjoint {A} (P Q R : A → Prop)
    `{∀ x, Decision (P x), ∀ x, Decision (Q x), ∀ x, Decision (R x)}
    (l : list A) :
  (∀ x, R x ↔ P x ∨ Q x) → (∀ x, P x → Q x → False) →
  length (filter R l) = (length (filter P l) + length (filter Q l))%nat.
Proof.
  intros HR Hdis. induction l as [|a l IH]; [done|].
  rewrite !filter_cons.
  destruct (decide (P a)) as [HP|HP], (decide (Q a)) as [HQ|HQ].
  - destruct (Hdis a HP HQ).
  - rewrite decide_True by (apply HR; by left). simpl. by rewrite IH.
  - rewrite decide_True by (apply HR; by right). simpl. rewrite IH. lia.
  - rewrite decide_False; [done|]. intros [?|?]%HR; done.
Qed.

(** Over distinct states, the counts per state add up to the number of
    runs in one of the states. *)
Lemma sum_runs_in_state db d states :
  NoDup states →
  sum_Z ((λ st, runs_in_state db d st) <$> states) = runs_in_states db d states.
Proof.
  unfold runs_in_states, runs_in_state.
  induction states as [|st states IH]; intros Hnd.
  - simpl. rewrite filter_none; [done|]. intros r _ (_ & _ & []%elem_of_nil).
  - apply NoDup_cons in Hnd as [Hst Hnd]. rewrite fmap_cons. simpl.
    rewrite (IH Hnd), <- Nat2Z.inj_add. f_equal.
    symmetry. apply length_filter_disjoint.
    + intros r. rewrite elem_of_cons. split.
      * intros (Hd & Hs & [Heq|Hin]); [left|right; done].
        split; [done|]. by split.
      * intros [[Hd [Hs Heq]]|(Hd & Hs & Hin)]; (split; [done|]; split; [done|]);
          [by left|by right].
    + intros r [_ [_ Heq]] (_ & _ & Hin). apply Hst. by rewrite <- Heq.
Qed.

(** ** The task status vector *)

Lemma normalise_plain st : plain (normalise st).
Proof.
  unfold normalise, py_or. destruct st as [s|]; simpl; [|done].
  by destruct (negb _).
Qed.

Lemma task_skey_plain row : plain (task_skey row).
Proof.
  unfold task_skey. destruct (column "state" row) as [[]|]; try done.
  apply normalise_plain.
Qed.

Lemma task_skey_row d t st n o :
  task_skey (task_row d t st n o) = normalise st.
Proof. by destruct st. Qed.

(** What [row.count] is on the rows of the two state-count queries: the
    DAG query labels its count [count]; the task query labels it
    [value], so there the attribute is the method of the tuple. *)
Lemma count_attribute d t st n o :
  getattr (dag_row d st n o) "count" = inr (PInt n) ∧
  getattr (task_row d t st n o) "count"
  = inr (PBuiltinMethod "count"
           [PStr d; PStr t; of_str st; PInt n; of_str o]) ∧
  getattr (task_row d t st n o) "value" = inr (PInt n).
Proof. by destruct st. Qed.

Lemma task_status_step_row acc d t st n o :
  task_status_step acc (task_row d t st n o)
  = inr (record_row task_uid task_skey task_sval acc (task_row d t st n o)).
Proof. by destruct st. Qed.

Lemma task_status_emit_row states fam info d t st n o :
  meta info = task_row d t st n o →
  task_status_emit states fam info
  = inr (append_samples fam (task_samples states info)).
Proof.
  intros Hmeta. unfold task_status_emit, task_samples. rewrite Hmeta.
  exact (for_each_add_sample
           (λ st', mkSample [PStr d; PStr t; of_str o; normalise st']
                     (dict_get_default (normalise st') (PInt 0)
                        (state_count info))) states fam).
Qed.

Lemma elem_of_get_task_state_info db row :
  row ∈ get_task_state_info db ↔
  ∃ ti m, ti ∈ task_instance db ∧ m ∈ dag db ∧
          DagModel.dag_id m = TaskInstance.dag_id ti ∧ active_unpaused m ∧
          row = task_row (TaskInstance.dag_id ti) (TaskInstance.task_id ti)
                  (TaskInstance.state ti) (task_group_count db (task_key ti))
                  (DagModel.owners m).
Proof.
  unfold get_task_state_info, task_status_query.
  rewrite list_elem_of_bind. split.
  - intros ([[[d t] st] n] & Hrow & Hq).
    apply list_elem_of_bind in Hq as ([[d' t'] st'] & Hq & Hk).
    apply list_elem_of_singleton in Hq as [= -> -> -> ->].
    apply elem_of_group_keys in Hk as (ti & Hti & Hkey).
    apply list_elem_of_bind in Hrow as (m & Hrow & Hm).
    apply list_elem_of_filter in Hm as [[Hid Ha] Hm].
    apply list_elem_of_singleton in Hrow as ->.
    exists ti, m. unfold task_group_count. rewrite Hkey.
    injection Hkey as <- <- <-. by do 4 (split; [done|]).
  - intros (ti & m & Hti & Hm & Hid & Ha & ->).
    exists (TaskInstance.dag_id ti, TaskInstance.task_id ti,
            TaskInstance.state ti, task_group_count db (task_key ti)).
    split.
    + apply list_elem_of_bind. exists m. split.
      * by apply list_elem_of_singleton.
      * by apply list_elem_of_filter.
    + apply list_elem_of_bind. exists (task_key ti).
      split; [by apply list_elem_of_singleton|].
      apply elem_of_group_keys. by exists ti.
Qed.

Lemma task_status_aggregate_eq db states :
  task_status_aggregate states (get_task_state_info db)
  = inr (append_samples
           (GaugeMetricFamily "airflow_task_status"
              "Shows the number of task instances with particular status"
              ["dag_id"; "task_id"; "owner"; "status"])
           ((foldl (record_row task_uid task_skey task_sval) []
               (get_task_state_info db)).*2 ≫= task_samples states)).
Proof.
  unfold task_status_aggregate.
  rewrite (for_each_foldl task_status_step
             (record_row task_uid task_skey task_sval)).
  - unfold mbind at 1, result_bind at 1.
    apply for_each_append. intros fam info Hinfo.
    apply list_elem_of_fmap in Hinfo as ([k info'] & -> & Hin).
    destruct (aggregate_entries task_uid task_skey task_sval
                (get_task_state_info db)) as (_ & Hent & _).
    destruct (Hent _ _ Hin) as (u & _ & _ & Hmeta & _).
    apply elem_of_get_task_state_info in Hmeta
      as (ti & m & _ & _ & _ & _ & Hmeta).
    simpl. by eapply task_status_emit_row.
  - intros acc row (ti & m & _ & _ & _ & _ & ->)%elem_of_get_task_state_info.
    apply task_status_step_row.
Qed.

(** The task half of C1: one sample per defined state for the pair, and
    an explicit zero for a state that no task instance of the pair is
    in. *)
Lemma task_status_dense db states m t :
  NoDup (DagModel.dag_id <$> dag db) →
  m ∈ dag db → active_unpaused m →
  (∃ ti, ti ∈ task_instance db ∧
         TaskInstance.dag_id ti = DagModel.dag_id m ∧
         TaskInstance.task_id ti = t) →
  uid_is_unambiguous db (DagModel.dag_id m) t →
  ∃ fam value,
    task_status_aggregate states (get_task_state_info db) = inr fam ∧
    filter (λ s, has_label 0 (DagModel.dag_id m) s && has_label 1 t s)
           (family_samples fam)
    = (λ st, mkSample [PStr (DagModel.dag_id m); PStr t;
                       of_str (DagModel.owners m); normalise st] (value st))
      <$> states ∧
    ∀ st, state_absent db (DagModel.dag_id m) t st → value st = PInt 0.
Proof.
  intros Hpk Hm Ha (ti & Hti & Htd & Htt) Huid.
  set (d := DagModel.dag_id m) in *.
  destruct (aggregate_entries task_uid task_skey task_sval
              (get_task_state_info db)) as (Hnd & Hent & Hrows).
  assert (task_row d t (TaskInstance.state ti)
            (task_group_count db (task_key ti)) (DagModel.owners m)
          ∈ get_task_state_info db) as Hrow.
  { apply elem_of_get_task_state_info. exists ti, m. by rewrite Htd, Htt. }
  destruct (Hrows _ Hrow) as [info Hinfo].
  change (task_uid (task_row d t _ _ _)) with (d ++ "_" ++ t) in Hinfo.
  destruct (Hent _ _ Hinfo) as (u & [= <-] & Hu & Hmeta & Hsc).
  assert (∀ row, row ∈ get_task_state_info db →
            task_uid row = d ++ "_" ++ t →
            ∃ st n, row = task_row d t st n (DagModel.owners m) ∧
                    ∃ ti', ti' ∈ task_instance db ∧
                           TaskInstance.dag_id ti' = d ∧
                           TaskInstance.task_id ti' = t ∧
                           TaskInstance.state ti' = st) as Hmine.
  { intros row (ti' & m' & Hti' & Hm' & Hid' & _ & ->)%elem_of_get_task_state_info
      Hrowuid.
    destruct (Huid ti' Hti' Hrowuid) as [Hd' Ht'].
    rewrite Hd' in Hid'.
    rewrite (NoDup_fmap_elem_inj _ _ m' m Hpk Hm' Hm Hid'), Hd', Ht'.
    eexists _, _. split; [reflexivity|]. by exists ti'. }
  destruct (Hmine _ Hmeta Hu) as (st0 & n0 & Hmeta' & _).
  exists (append_samples
            (GaugeMetricFamily "airflow_task_status"
               "Shows the number of task instances with particular status"
               ["dag_id"; "task_id"; "owner"; "status"])
            ((foldl (record_row task_uid task_skey task_sval) []
                (get_task_state_info db)).*2 ≫= task_samples states)),
         (λ st, dict_get_default (normalise st) (PInt 0) (state_count info)).
  split; [apply task_status_aggregate_eq|]. split.
  - simpl.
    rewrite (filter_bind_unique _ _ _ (PStr (d ++ "_" ++ t)) info Hnd Hinfo).
    + unfold task_samples. by rewrite Hmeta'.
    + intros s (st & -> & _)%list_elem_of_fmap. unfold has_label.
      rewrite Hmeta'. simpl. by rewrite !String.eqb_refl.
    + intros k' v' s Hkv Hne (st & -> & _)%list_elem_of_fmap.
      destruct (Hent _ _ Hkv) as (u' & -> & Hu' & _).
      unfold has_label. simpl.
      destruct (String.eqb_spec (row_str "dag_id" (meta v')) d) as [Hd'|];
        [|by intros []].
      destruct (String.eqb_spec (row_str "task_id" (meta v')) t) as [Ht'|];
        [|by intros []].
      exfalso. apply Hne. f_equal. rewrite <- Hu'. unfold task_uid.
      by rewrite Hd', Ht'.
  - intros st Habs. unfold dict_get_default. rewrite Hsc.
    rewrite state_counts_absent; [done|apply task_skey_plain|
                                  apply normalise_plain|].
    intros row [Hrowuid Hrow']%list_elem_of_filter.
    destruct (Hmine _ Hrow' Hrowuid)
      as (st' & n' & -> & ti' & Hti' & Hd' & Ht' & <-).
    rewrite task_skey_row. by apply Habs.
Qed.

Lemma sum_Z_fmap_compose {A} (f : A → Sample) (l : list A) :
  sum_Z (sample_count <$> (f <$> l)) = sum_Z ((λ x, sample_count (f x)) <$> l).
Proof. by rewrite <- list_fmap_compose. Qed.

(** C1, as the code has it.  For an active, unpaused DAG the DAG status
    vector has exactly one sample per defined DAG state, each the
    non-negative number of runs of the DAG in that state (zero where
    there is none), and over distinct states the samples add up to the
    number of runs in a defined state.  For a task of such a DAG the task
    status vector has exactly one sample per defined task state, with an
    explicit zero for every state that no task instance of the pair is
    in. *)
Theorem dense_state_vectors (db : Database)
    (dag_states task_states : list (option string)) (m : DagModel.t)
    (t : string) :
  NoDup (DagModel.dag_id <$> dag db) →
  m ∈ dag db → active_unpaused m →
  ((∃ r, r ∈ dag_run db ∧ DagRun.dag_id r = DagModel.dag_id m) →
   dag_vector_is_dense db dag_states m) ∧
  ((∃ ti, ti ∈ task_instance db ∧
          TaskInstance.dag_id ti = DagModel.dag_id m ∧
          TaskInstance.task_id ti = t) →
   uid_is_unambiguous db (DagModel.dag_id m) t →
   task_vector_is_dense db task_states m t).
Proof.
  intros Hpk Hm Ha. split.
  - intros Hrun.
    destruct (dag_status_dense db dag_states m Hpk Hm Ha Hrun)
      as (fam & Hfam & Hsamples).
    exists fam. split; [done|]. split; [done|]. split.
    + intros st. unfold runs_in_state. lia.
    + intros Hnd. rewrite Hsamples, sum_Z_fmap_compose. simpl.
      by apply sum_runs_in_state.
  - intros Hti Huid. by apply task_status_dense.
Qed.

Lemma dense_state_vectors_witness :
  dag_vector_is_dense etl_db (dag_states airflow_state) etl_1 ∧
  task_vector_is_dense etl_db (task_states airflow_state) etl_1 "load".
Proof.
  destruct (dense_state_vectors etl_db (dag_states airflow_state)
              (task_states airflow_state) etl_1 "load") as [Hdag Htask].
  - apply NoDup_singleton.
  - left.
  - split; reflexivity.
  - split.
    + apply Hdag. eexists. split; [left|reflexivity].
    + apply Htask.
      * eexists. split; [left|]. split; reflexivity.
      * intros ti Hti Heq.
        repeat (apply elem_of_cons in Hti as [->|Hti]); try (split; reflexivity).
        by apply elem_of_nil in Hti.
Defined.

(** The two vectors of [etl_db].  The DAG vector holds the counts; in the
    task vector a state that has rows holds what [task.count] evaluates
    to, the [count] method of the row. *)
Example etl_db_vectors :
  samples_of (dag_status_aggregate (dag_states airflow_state)
                (get_dag_state_info etl_db))
  = [mkSample [PStr "etl_1"; PStr "alice"; PStr "success"] (PInt 2);
     mkSample [PStr "etl_1"; PStr "alice"; PStr "running"] (PInt 1);
     mkSample [PStr "etl_1"; PStr "alice"; PStr "failed"] (PInt 0)] ∧
  take 3 (samples_of (task_status_aggregate (task_states airflow_state)
                        (get_task_state_info etl_db)))
  = [mkSample [PStr "etl_1"; PStr "load"; PStr "alice"; PStr "success"]
       (PBuiltinMethod "count"
          [PStr "etl_1"; PStr "load"; PStr "success"; PInt 2; PStr "alice"]);
     mkSample [PStr "etl_1"; PStr "load"; PStr "alice"; PStr "running"]
       (PBuiltinMethod "count"
          [PStr "etl_1"; PStr "load"; PStr "running"; PInt 1; PStr "alice"]);
     mkSample [PStr "etl_1"; PStr "load"; PStr "alice"; PStr "failed"]
       (PInt 0)].
Proof. split; reflexivity. Qed.

(** C1 as stated fails.  The pair (etl_1, load) has one task-instance
    row, in the state [removed]: its vector has the ten defined states,
    all zero.  The pair (legacy, load) has one row too, and no sample at
    all, as its DAG is paused. *)
Lemma undefined_states_and_paused_dags_are_dropped :
  length (filter (λ ti, TaskInstance.dag_id ti = "etl_1" ∧
                        TaskInstance.task_id ti = "load")
                 (task_instance removed_task_db)) = 1%nat ∧
  sample_value <$>
    filter (λ s, has_label 0 "etl_1" s && has_label 1 "load" s)
           removed_task_samples
  = replicate 10 (PInt 0) ∧
  sum_Z (sample_count <$>
           filter (λ s, has_label 0 "etl_1" s && has_label 1 "load" s)
                  removed_task_samples) = 0 ∧
  length (filter (λ ti, TaskInstance.dag_id ti = "legacy" ∧
                        TaskInstance.task_id ti = "load")
                 (task_instance removed_task_db)) = 1%nat ∧
  filter (has_label 0 "legacy") removed_task_samples = [].
Proof. repeat split. Qed.

(** ** Null states *)

(** C9, as the code has it.  At the task level a row whose state is null
    is recorded under the key ['none'] of the state counts of its entity
    (the value recorded is what [task.count] evaluates to), and the
    sample emitted for the null member of the state enumeration has the
    status ['none'] and reads that key.  At the DAG level nothing is
    normalised: the row is recorded under the null key, the key ['none']
    is left as it was, and the sample for a null member of the
    enumeration has the null status. *)
Theorem null_state_is_filed_under_none
    (by_id : list (PyVal * EntityInfo)) (d t : string) (n : Z)
    (o : option string) :
  (∃ by_id',
     task_status_step by_id (task_row d t None n o) = inr by_id' ∧
     dict_get (PStr "none") (counts_of (PStr (d ++ "_" ++ t)) by_id')
     = Some (task_sval (task_row d t None n o))) ∧
  (∀ fam info st n' o',
     meta info = task_row d t st n' o' →
     task_status_emit [None] fam info
     = inr (add_metric fam [PStr d; PStr t; of_str o'; PStr "none"]
              (dict_get_default (PStr "none") (PInt 0) (state_count info)))) ∧
  (∃ by_id',
     dag_status_step by_id (dag_row d None n o) = inr by_id' ∧
     dict_get PNone (counts_of (PStr d) by_id') = Some (PInt n) ∧
     dict_get (PStr "none") (counts_of (PStr d) by_id')
     = dict_get (PStr "none") (counts_of (PStr d) by_id)) ∧
  (∀ fam info st n' o',
     meta info = dag_row d st n' o' →
     dag_status_emit [None] fam info
     = inr (add_metric fam [PStr d; of_str o'; PNone]
              (dict_get_default PNone (PInt 0) (state_count info)))).
Proof.
  split; [|split; [|split]].
  - eexists. split; [apply task_status_step_row|].
    unfold record_row, record_state, counts_of.
    rewrite dict_get_set_eq by done. simpl.
    by rewrite dict_get_set_eq.
  - intros fam info st n' o' Hmeta.
    rewrite (task_status_emit_row _ _ _ _ _ _ _ _ Hmeta).
    unfold task_samples. by rewrite Hmeta.
  - eexists. split; [apply dag_status_step_row|].
    unfold record_row, record_state, counts_of.
    rewrite dict_get_set_eq by done. simpl.
    split; [by rewrite dict_get_set_eq|].
    change (dag_skey (dag_row d None n o)) with PNone.
    change (dag_uid (dag_row d None n o)) with d.
    rewrite dict_get_set_ne by done.
    by destruct (dict_get (PStr d) by_id).
  - intros fam info st n' o' Hmeta.
    rewrite (dag_status_emit_row _ _ _ _ _ _ _ Hmeta).
    unfold dag_samples. by rewrite Hmeta.
Qed.

(** C9 as stated fails at the DAG level: the run with the null state is
    recorded under the null key, with the count zero that [count(state)]
    gives a group of nulls, and the emitted vector has no ['none']
    sample. *)
Lemma null_dag_state_has_no_bucket :
  length (filter (λ r, DagRun.state r = None) (dag_run null_state_db))
    = 1%nat ∧
  for_each (get_dag_state_info null_state_db) dag_status_step []
    = inr [(PStr "etl_1",
            mkInfo (dag_row "etl_1" (Some "success") 1 (Some "alice"))
                   [(PStr "success", PInt 1); (PNone, PInt 0)])] ∧
  samples_of (dag_status_aggregate (dag_states airflow_state)
                (get_dag_state_info null_state_db))
  = [mkSample [PStr "etl_1"; PStr "alice"; PStr "success"] (PInt 1);
     mkSample [PStr "etl_1"; PStr "alice"; PStr "running"] (PInt 0);
     mkSample [PStr "etl_1"; PStr "alice"; PStr "failed"] (PInt 0)].
Proof. repeat split. Qed.

(** * Further properties of the query layer and the collector *)

(** ** The latest run of a DAG *)

Lemma NoDup_bind_keys {A B} (l : list A) (f : A → list (A * B)) :
  NoDup l →
  (∀ x, f x = [] ∨ ∃ y, f x = [(x, y)]) →
  NoDup (l ≫= f).*1.
Proof.
  intros Hnd Hf. induction Hnd as [|x l Hx Hnd IH]; [constructor|].
  rewrite bind_cons, fmap_app. destruct (Hf x) as [->|[y ->]]; [done|].
  simpl. apply NoDup_cons. split; [|done].
  intros ([x' y'] & Heq & Hin)%list_elem_of_fmap. simpl in Heq. subst x'.
  apply list_elem_of_bind in Hin as (x'' & Hin & Hx'').
  destruct (Hf x'') as [Hnil|[y'' Hone]].
  - rewrite Hnil in Hin. by apply elem_of_nil in Hin.
  - rewrite Hone in Hin. apply list_elem_of_singleton in Hin as [= <- _].
    done.
Qed.

(** X1: the latest-run subquery has one row per DAG; the row of a DAG
    holds the execution date of one of its eligible runs, and no eligible
    run of the DAG is later. *)
Theorem latest_run_per_dag (S : StateEnum) (db : Database) (state : string) :
  NoDup (max_execution_dt_query S db state).*1 ∧
  ∀ d t, (d, t) ∈ max_execution_dt_query S db state ↔
    (∃ r, eligible S db state r ∧ DagRun.dag_id r = d ∧
          DagRun.execution_date r = t) ∧
    (∀ r, eligible S db state r → DagRun.dag_id r = d →
          DagRun.execution_date r ≤ t).
Proof.
  split.
  - apply NoDup_bind_keys; [apply NoDup_remove_dups|].
    intros d. destruct (sql_max _); eauto.
  - intros d t. rewrite elem_of_max_execution_dt_query. unfold eligible.
    split.
    + intros [(r & Hr & Hd & Ht) Hub]. split.
      * exists r. by rewrite <- elem_of_eligible_runs.
      * intros r' Hr'. apply Hub. by apply elem_of_eligible_runs.
    + intros [(r & Hr & Hd & Ht) Hub]. split.
      * exists r. by rewrite elem_of_eligible_runs.
      * intros r' Hr'. apply Hub. by apply elem_of_eligible_runs.
Qed.

(** ** The task duration gauges *)

(** X2: neither task gauge is ever built.  Whatever the database, the
    clock and the trace, the segments of [airflow_task_duration] and of
    [airflow_last_task_success_time] end with the [AttributeError] of
    their call of [get_task_duration_info], before any sample is
    computed. *)
Theorem task_gauges_are_never_built (w : World) (utc_now : PyVal)
    (s : Trace) :
  task_duration_family w utc_now s = (s, inl AttributeError) ∧
  last_task_success_family w utc_now s = (s, inl AttributeError).
Proof.
  split; [apply task_duration_family_raises|].
  apply last_task_success_family_raises.
Qed.

(** X3: the subquery [task_latest_execution_dt] that
    [get_task_duration_info] builds (and never runs) selects, for a
    target state, the (DAG, task, execution date) of the task instances
    in that state that have started (and ended, for the success state),
    are the latest such instance of their task, and whose execution date
    is that of the latest eligible run of their DAG. *)
Theorem latest_steps_subquery (S : StateEnum) (db : Database)
    (state d task : string) (t : Z) :
  (d, task, t) ∈ task_latest_execution_dt S db state ↔
  ∃ ti, latest_step S db state ti ∧
        TaskInstance.dag_id ti = d ∧ TaskInstance.task_id ti = task ∧
        TaskInstance.execution_date ti = t.
Proof.
  rewrite elem_of_task_latest_execution_dt, elem_of_task_duration_query_iff.
  split.
  - intros [[(ti & Hti & [= Hd Htask] & Ht) Hub] Hm].
    exists ti. split; [|done]. split; [done|]. split.
    + intros ti' Hti' Hkey. rewrite Ht. apply Hub; [done|].
      rewrite Hkey. unfold ti_key. by rewrite Hd, Htask.
    + by rewrite Hd, Ht.
  - intros (ti & (Hti & Hub & Hm) & Hd & Htask & Ht).
    split; [split|].
    + exists ti. split; [done|]. split; [|done].
      unfold ti_key. by rewrite Hd, Htask.
    + intros ti' Hti' Hkey. rewrite <- Ht. apply Hub; [done|].
      rewrite Hkey. unfold ti_key. by rewrite Hd, Htask.
    + by rewrite <- Hd, <- Ht.
Qed.

Lemma add_samples_total fam rows sample_of :
  (∀ row, row ∈ rows → ∃ smp, sample_of row = inr smp) →
  ∃ ss, add_samples fam rows sample_of = inr (append_samples fam ss) ∧
        length ss = length rows.
Proof.
  unfold add_samples. revert fam.
  induction rows as [|row rows IH]; intros fam Hrows; simpl.
  - exists []. by rewrite append_samples_nil.
  - destruct (Hrows row) as [smp Hsmp]; [left|].
    unfold mbind at 1, result_bind at 1. rewrite Hsmp. simpl.
    destruct (IH (add_sample fam smp)) as (ss & -> & Hlen).
    { intros r Hr. apply Hrows. by right. }
    exists (smp :: ss). split; [|by rewrite <- Hlen].
    unfold add_sample, append_samples. simpl. by rewrite <- app_assoc.
Qed.

Lemma elem_of_get_dag_duration_info S db state row :
  row ∈ get_dag_duration_info S db state →
  ∃ d t s r, (d, t, s) ∈ dag_start_dt_query S db state ∧
    r ∈ dag_run db ∧ DagRun.dag_id r = d ∧ DagRun.execution_date r = t ∧
    row = [("dag_id", PStr d); ("start_date", PDatetime s);
           ("end_date", of_time (DagRun.end_date r))].
Proof.
  intros ([[d t] s] & Hr & Hq)%list_elem_of_bind.
  apply list_elem_of_bind in Hr as (r & Hr & Hrun).
  apply list_elem_of_bind in Hr as (ti & Hr & _).
  apply list_elem_of_singleton in Hr as ->.
  apply list_elem_of_filter in Hrun as [[Hd Ht] Hrun].
  by exists d, t, s, r.
Qed.

Lemma query_then_samples_error w call rows fam0 sample_of s e :
  (∀ row, row ∈ rows → ∃ smp, sample_of row = inr smp) →
  ((rows ← session_query w call rows;
    lift (add_samples fam0 rows sample_of)) s).2 = inl e →
  fault w call = Some e.
Proof.
  intros Hrows. rewrite query_then_samples. simpl.
  destruct (fault w call) as [e'|]; [by intros [= ->]|].
  by destruct (add_samples_total fam0 rows sample_of Hrows) as (ss & -> & _).
Qed.

(** X4: the two elapsed-time gauges of the DAG level never fail on a
    null date: the query hands them non-null dates only, so an error that
    ends one of these segments is the error of its data-source call.
    (For the time since the last DAG success this needs the unique key of
    [dag_run].) *)
Theorem dag_elapsed_gauges_fail_only_with_the_data_source (w : World)
    (now : Z) (s : Trace) (e : Exn) :
  ((dag_duration_family w (PDatetime now) s).2 = inl e →
   fault w (Q_dag_duration_info (RUNNING (State (rt w)))) = Some e) ∧
  (dag_run_key (db w) →
   (last_dag_success_family w (PDatetime now) s).2 = inl e →
   fault w (Q_dag_duration_info (SUCCESS (State (rt w)))) = Some e).
Proof.
  split.
  - apply query_then_samples_error.
    intros row (d & t & st & r & _ & _ & _ & _ & ->)%elem_of_get_dag_duration_info.
    eexists. reflexivity.
  - intros Hkey. apply query_then_samples_error. intros row Hrow.
    destruct (get_dag_duration_info_end _ _ _ Hkey Hrow) as [en Hen].
    apply elem_of_get_dag_duration_info
      in Hrow as (d & t & st & r & _ & _ & _ & _ & ->).
    simpl in Hen. injection Hen as Hen.
    unfold last_dag_success_sample, getattr. simpl. rewrite Hen.
    eexists. reflexivity.
Qed.

Lemma foldr_min_lb (x : Z) (l : list Z) :
  foldr Z.min x l ≤ x ∧ ∀ y, y ∈ l → foldr Z.min x l ≤ y.
Proof.
  induction l as [|a l [IHx IHl]]; simpl.
  - split; [lia|]. intros y Hy. inversion Hy.
  - split; [lia|]. intros y Hy. apply elem_of_cons in Hy as [->|Hy].
    + lia.
    + specialize (IHl y Hy). lia.
Qed.

Lemma foldr_min_elem (x : Z) (l : list Z) : foldr Z.min x l ∈ x :: l.
Proof.
  induction l as [|a l IH]; simpl.
  - left.
  - destruct (Z.min_spec a (foldr Z.min x l)) as [[_ ->]|[_ ->]].
    + right; left.
    + apply elem_of_cons in IH as [->|IH]; [left|right; right; exact IH].
Qed.

Lemma sql_min_spec (l : list Z) (s : Z) :
  sql_min l = Some s ↔ s ∈ l ∧ ∀ y, y ∈ l → s ≤ y.
Proof.
  split.
  - destruct l as [|x l]; simpl; [discriminate|].
    intros [= <-]. split; [apply foldr_min_elem|].
    intros y Hy. destruct (foldr_min_lb x l) as [Hx Hl].
    apply elem_of_cons in Hy as [->|Hy]; auto.
  - intros [Hs Hlb]. destruct l as [|x l]; [inversion Hs|]. simpl. f_equal.
    pose proof (foldr_min_elem x l) as Hin. destruct (foldr_min_lb x l) as [Hx Hl].
    specialize (Hlb _ Hin).
    apply elem_of_cons in Hs as [->|Hs]; [lia|]. specialize (Hl _ Hs). lia.
Qed.

Lemma elem_of_started db d t s :
  s ∈ non_null (TaskInstance.start_date <$>
        filter (λ ti, TaskInstance.dag_id ti = d ∧
                      TaskInstance.execution_date ti = t) (task_instance db)) ↔
  ∃ ti, ti ∈ task_instance db ∧ TaskInstance.dag_id ti = d ∧
        TaskInstance.execution_date ti = t ∧
        TaskInstance.start_date ti = Some s.
Proof.
  unfold non_null. rewrite list_elem_of_omap. split.
  - intros (o & Ho & Hs). simpl in Hs. subst o.
    apply list_elem_of_fmap in Ho as (ti & Hs & Hti).
    apply list_elem_of_filter in Hti as [[Hd Ht] Hti]. by exists ti.
  - intros (ti & Hti & Hd & Ht & Hs). exists (Some s). split; [|done].
    apply list_elem_of_fmap. exists ti. split; [done|].
    by apply list_elem_of_filter.
Qed.

Lemma dag_start_dt_query_spec S db state d t s :
  (d, t, s) ∈ dag_start_dt_query S db state ↔
  (d, t) ∈ max_execution_dt_query S db state ∧ earliest_start db d t s.
Proof.
  unfold dag_start_dt_query, earliest_start. rewrite list_elem_of_bind. split.
  - intros ([d' t'] & Hin & Hq).
    destruct (sql_min _) as [s'|] eqn:Hmin; [|inversion Hin].
    apply list_elem_of_singleton in Hin as [= <- <- <-].
    apply sql_min_spec in Hmin as [Hs Hlb]. split; [done|]. split.
    + by apply elem_of_started.
    + intros ti s' Hti Hd Ht Hs'. apply Hlb, elem_of_started. by exists ti.
  - intros (Hq & Hex & Hlb). exists (d, t). split; [|done].
    assert (sql_min (non_null (TaskInstance.start_date <$>
              filter (λ ti, TaskInstance.dag_id ti = d ∧
                            TaskInstance.execution_date ti = t)
                     (task_instance db))) = Some s) as ->.
    { apply sql_min_spec. split; [by apply elem_of_started|].
      intros y (ti & Hti & Hd & Ht & Hy)%elem_of_started. eauto. }
    by apply list_elem_of_singleton.
Qed.

(** X5: the DAG duration query returns a row exactly for a run whose
    (DAG, execution date) is the latest eligible one of its DAG and has a
    started task instance, provided some task instance of the database
    has both dates; the row's [start_date] is the earliest start among the
    task instances of that run and its [end_date] is the run's own. *)
Theorem dag_duration_rows (S : StateEnum) (db : Database) (state : string)
    (row : Row) :
  row ∈ get_dag_duration_info S db state ↔
  finished_tasks db ≠ [] ∧
  ∃ r s, r ∈ dag_run db ∧
    (DagRun.dag_id r, DagRun.execution_date r)
      ∈ max_execution_dt_query S db state ∧
    earliest_start db (DagRun.dag_id r) (DagRun.execution_date r) s ∧
    row = [("dag_id", PStr (DagRun.dag_id r)); ("start_date", PDatetime s);
           ("end_date", of_time (DagRun.end_date r))].
Proof.
  unfold get_dag_duration_info, finished_tasks. rewrite list_elem_of_bind. split.
  - intros ([[d t] s] & Hr & Hq).
    apply list_elem_of_bind in Hr as (r & Hr & Hrun).
    apply list_elem_of_bind in Hr as (ti & Hr & Hti).
    apply list_elem_of_singleton in Hr as ->.
    apply list_elem_of_filter in Hrun as [[<- <-] Hrun].
    apply dag_start_dt_query_spec in Hq as [Hq Hs].
    split; [intros Hnil; rewrite Hnil in Hti; inversion Hti|].
    by exists r, s.
  - intros (Hne & r & s & Hrun & Hq & Hs & ->).
    exists (DagRun.dag_id r, DagRun.execution_date r, s).
    split; [|by apply dag_start_dt_query_spec].
    apply list_elem_of_bind. exists r.
    split; [|by apply list_elem_of_filter].
    destruct (filter _ (task_instance db)) as [|ti l] eqn:Hf; [done|].
    apply list_elem_of_bind. exists ti. split; [by apply list_elem_of_singleton|left].
Qed.

Lemma bind_const_singleton {A B} (l : list A) (x : B) :
  (l ≫= λ _, [x]) = replicate (length l) x.
Proof. induction l as [|a l IH]; [done|]. csimpl. by rewrite IH. Qed.

Lemma get_dag_duration_info_replicate S db state :
  get_dag_duration_info S db state
  = dag_duration_base S db state
      ≫= replicate (length (finished_tasks db)).
Proof.
  unfold get_dag_duration_info, dag_duration_base, finished_tasks.
  induction (dag_start_dt_query S db state) as [|[[d t] s] q IH]; [done|].
  rewrite !bind_cons, bind_app, <- IH. f_equal. clear IH.
  induction (filter _ (dag_run db)) as [|r l IH]; [done|].
  rewrite !bind_cons, bind_app, <- IH. f_equal.
  rewrite bind_const_singleton. csimpl. by rewrite app_nil_r.
Qed.

Lemma length_bind_replicate {A} (n : nat) (l : list A) :
  length (l ≫= replicate n) = (length l * n)%nat.
Proof.
  induction l as [|a l IH]; [done|].
  rewrite bind_cons, length_app, length_replicate, IH. simpl. lia.
Qed.

(** X6: the last filter of the DAG duration query names a table the
    query does not join, so each row of the joined query comes back once
    per task instance of the whole database that has both dates; the DAG
    duration gauge then holds that many samples for each of those rows. *)
Theorem dag_duration_rows_repeat (w : World) (state : string) :
  get_dag_duration_info (State (rt w)) (db w) state
  = dag_duration_base (State (rt w)) (db w) state
      ≫= replicate (length (finished_tasks (db w))) ∧
  ∀ now s fam,
    (dag_duration_family w now s).2 = inr fam →
    length (family_samples fam)
    = (length (dag_duration_base (State (rt w)) (db w)
                 (RUNNING (State (rt w))))
       * length (finished_tasks (db w)))%nat.
Proof.
  split; [apply get_dag_duration_info_replicate|].
  intros now s fam. unfold dag_duration_family. cbv zeta.
  rewrite query_then_samples. simpl. destruct (fault w _); [discriminate|].
  intros (ss & Hss & ->)%add_samples_inr. simpl.
  rewrite <- (Forall2_length _ _ _ Hss), get_dag_duration_info_replicate.
  apply length_bind_replicate.
Qed.

Lemma filter_NoDup_key {A K} (key : A → K) (P : A → Prop)
    `{∀ x, Decision (P x)} (l : list A) (x : A) :
  NoDup (key <$> l) → x ∈ l → P x →
  (∀ y, y ∈ l → P y → key y = key x) → filter P l = [x].
Proof.
  induction l as [|a l IH]; [by intros _ ?%elem_of_nil|].
  rewrite fmap_cons. intros [Ha Hnd]%NoDup_cons Hx HP Hkey.
  apply elem_of_cons in Hx as [->|Hx].
  - rewrite filter_cons_True by done. f_equal. apply filter_none.
    intros y Hy HPy. apply Ha. rewrite <- (Hkey y) by (done || by right).
    by apply list_elem_of_fmap_2.
  - rewrite filter_cons_False.
    + apply IH; [done..|]. intros y Hy. apply Hkey. by right.
    + intros HPa. apply Ha. rewrite (Hkey a) by (done || left).
      by apply list_elem_of_fmap_2.
Qed.

Lemma considered_unique db d :
  NoDup (DagModel.dag_id <$> dag db) → considered db d →
  ∃ m, filter (λ m, DagModel.dag_id m = d ∧ active_unpaused m) (dag db) = [m].
Proof.
  intros Hnd (m & Hm & Hd & Ha). exists m.
  apply (filter_NoDup_key DagModel.dag_id); [done..|].
  intros y _ [Hy _]. congruence.
Qed.

Lemma bind_singleton_fmap {A B} (f : A → B) (l : list A) :
  (l ≫= λ x, [f x]) = f <$> l.
Proof. induction l as [|a l IH]; [done|]. csimpl. by rewrite IH. Qed.

Lemma sql_count_not_null {A B} (f : A → B) (l : list A) :
  sql_count ((λ x, Some (f x)) <$> l) = Z.of_nat (length l).
Proof.
  unfold sql_count, non_null. f_equal.
  induction l as [|a l IH]; [done|]. csimpl. by rewrite IH.
Qed.

Section FailureCounts.
Variable db : Database.

Local Abbreviation joined :=
  (task_fail db ≫= λ f,
     filter (λ m, DagModel.dag_id m = TaskFail.dag_id f ∧ active_unpaused m)
            (dag db) ≫= λ _, [f]).

Lemma elem_of_failures_joined f :
  f ∈ joined ↔ f ∈ task_fail db ∧ considered db (TaskFail.dag_id f).
Proof.
  rewrite list_elem_of_bind. split.
  - intros (f' & Hin & Hf').
    apply list_elem_of_bind in Hin as (m & Hin & Hm).
    apply list_elem_of_singleton in Hin as ->.
    apply list_elem_of_filter in Hm as [[Hd Ha] Hm].
    split; [done|]. by exists m.
  - intros (Hf & m & Hm & Hd & Ha). exists f. split; [|done].
    apply list_elem_of_bind. exists m.
    split; [by apply list_elem_of_singleton|by apply list_elem_of_filter].
Qed.

Lemma filter_failures_joined k :
  NoDup (DagModel.dag_id <$> dag db) → considered db k.1 →
  filter (λ f, fail_key f = k) joined
  = filter (λ f, fail_key f = k) (task_fail db).
Proof.
  intros Hnd Hk.
  induction (task_fail db) as [|f l IH]; [done|].
  rewrite bind_cons, filter_app, IH, filter_cons.
  destruct (decide (fail_key f = k)) as [Hf|Hf].
  - assert (TaskFail.dag_id f = k.1) as Hd by by rewrite <- Hf.
    rewrite Hd. destruct (considered_unique db k.1 Hnd Hk) as [m ->].
    csimpl. by rewrite filter_cons_True.
  - rewrite filter_none; [done|].
    intros f' (m & ->%list_elem_of_singleton & _)%list_elem_of_bind. done.
Qed.

End FailureCounts.

(** X7: with [dag_id] the key of the [dag] table, the failure-count query
    returns one row per (DAG, task) pair that has a failure record and
    whose DAG is active and unpaused, and the count of the row is the
    number of failure records of that pair. *)
Theorem task_failure_rows (db : Database) :
  NoDup (DagModel.dag_id <$> dag db) →
  NoDup (get_task_failure_counts db) ∧
  ∀ row, row ∈ get_task_failure_counts db ↔
    ∃ f, f ∈ task_fail db ∧ considered db (TaskFail.dag_id f) ∧
      row = [("dag_id", PStr (TaskFail.dag_id f));
             ("task_id", PStr (TaskFail.task_id f));
             ("count", PInt (Z.of_nat (length
                (filter (λ f', fail_key f' = fail_key f) (task_fail db)))))].
Proof.
  intros Hnd. unfold get_task_failure_counts. cbv zeta.
  rewrite bind_singleton_fmap. split.
  - apply NoDup_fmap_2_strong; [|unfold group_keys; apply NoDup_remove_dups].
    intros [d1 t1] [d2 t2] _ _ [= -> -> _]. done.
  - intros row. rewrite list_elem_of_fmap. split.
    + intros (k & -> & (f & Hf & <-)%elem_of_group_keys).
      apply elem_of_failures_joined in Hf as [Hf Hc]. exists f.
      split; [done|]. split; [done|].
      rewrite sql_count_not_null, filter_failures_joined by done. done.
    + intros (f & Hf & Hc & ->). exists (fail_key f). split.
      * rewrite sql_count_not_null, filter_failures_joined by done. done.
      * apply elem_of_group_keys. exists f. split; [|done].
        by apply elem_of_failures_joined.
Qed.

Lemma task_failure_rows_witness :
  NoDup (DagModel.dag_id <$> dag failing_db) ∧
  [("dag_id", PStr "etl_1"); ("task_id", PStr "load"); ("count", PInt 2)]
    ∈ get_task_failure_counts failing_db.
Proof.
  assert (NoDup (DagModel.dag_id <$> dag failing_db)) as Hnd.
  { apply (bool_decide_unpack _). reflexivity. }
  split; [exact Hnd|].
  apply (proj2 (task_failure_rows failing_db Hnd)).
  exists (TaskFail.mk "etl_1" "load"). split; [left|]. split; [|reflexivity].
  exists (DagModel.mk "etl_1" (Some "alice") (Some true) (Some false)).
  split; [left|]. split; [reflexivity|]. split; reflexivity.
Defined.

Lemma elem_of_xcom_max_execution_dt_query db d t :
  (d, t) ∈ xcom_max_execution_dt_query db ↔ latest_run_date db d t.
Proof.
  unfold xcom_max_execution_dt_query, latest_run_date.
  rewrite list_elem_of_bind. split.
  - intros (d' & Hin & Hd').
    destruct (sql_max _) as [t'|] eqn:Hmax; [|inversion Hin].
    apply list_elem_of_singleton in Hin as [= <- <-].
    apply sql_max_spec in Hmax as [Ht Hub].
    apply list_elem_of_fmap in Ht as (r & -> & Hr).
    apply list_elem_of_filter in Hr as [Hrd Hr]. split; [eauto|].
    intros r' Hr' Hd. apply Hub. apply list_elem_of_fmap.
    exists r'. split; [done|]. by apply list_elem_of_filter.
  - intros [(r & Hr & Hd & Ht) Hub]. exists d. split.
    + erewrite sql_max_unique; [by apply list_elem_of_singleton| |].
      * apply list_elem_of_fmap. exists r. split; [done|].
        by apply list_elem_of_filter.
      * intros y Hy. apply list_elem_of_fmap in Hy as (r' & -> & Hr').
        apply list_elem_of_filter in Hr' as [Hd' Hr']. by apply Hub.
    + apply elem_of_group_keys. eauto.
Qed.

Lemma elem_of_xcom_join db x :
  x ∈ (x ← xcom db;
       '(d, t) ← xcom_max_execution_dt_query db;
       if decide (XCom.dag_id x = d ∧ XCom.execution_date x = t)
       then [x] else []) ↔
  x ∈ xcom db ∧ latest_run_date db (XCom.dag_id x) (XCom.execution_date x).
Proof.
  rewrite list_elem_of_bind. split.
  - intros (x' & Hin & Hx').
    apply list_elem_of_bind in Hin as ([d t] & Hin & Hq).
    case_decide as Hc; [|inversion Hin]. destruct Hc as [<- <-].
    apply list_elem_of_singleton in Hin as ->.
    by apply elem_of_xcom_max_execution_dt_query in Hq.
  - intros [Hx Hq]. exists x. split; [|done].
    apply list_elem_of_bind.
    exists (XCom.dag_id x, XCom.execution_date x).
    split; [|by apply elem_of_xcom_max_execution_dt_query].
    rewrite decide_True by done. by apply list_elem_of_singleton.
Qed.

(** X8: for a configured task id, the XCom query returns the XCom
    records written under the latest execution date among all runs of
    their DAG, whatever the state of that run and whether or not the DAG
    is active; the id [all] selects every task, any other id the records
    of that task. *)
Theorem xcom_rows_of_latest_run (db : Database) (task_id : string)
    (row : Row) :
  row ∈ get_xcom_params db (PStr task_id) ↔
  ∃ x, x ∈ xcom db ∧ (task_id = "all" ∨ XCom.task_id x = task_id) ∧
       latest_run_date db (XCom.dag_id x) (XCom.execution_date x) ∧
       row = xcom_row x.
Proof.
  unfold get_xcom_params. cbv zeta.
  destruct (key_eqb (PStr task_id) (PStr "all")) eqn:Hall.
  - apply key_eqb_plain in Hall as [= ->]; [|done].
    rewrite list_elem_of_fmap. split.
    + intros (x & -> & [Hx Hq]%elem_of_xcom_join). exists x. eauto.
    + intros (x & Hx & _ & Hq & ->). exists x. split; [done|].
      by apply elem_of_xcom_join.
  - apply key_eqb_plain_ne in Hall; [|done].
    rewrite list_elem_of_fmap. split.
    + intros (x & -> & [Hk [Hx Hq]%elem_of_xcom_join]%list_elem_of_filter).
      exists x. split; [done|]. split; [|done]. right.
      apply Is_true_true in Hk. by apply key_eqb_plain in Hk as [= ->].
    + intros (x & Hx & [->|Ht] & Hq & ->); [done|]. exists x. split; [done|].
      apply list_elem_of_filter. split; [|by apply elem_of_xcom_join].
      apply Is_true_true. apply key_eqb_plain; [done|]. by rewrite Ht.
Qed.

#[local] Instance later_run_trans : Transitive later_run.
Proof. unfold later_run. intros a b c. lia. Qed.

#[local] Instance later_run_total : Total later_run.
Proof. unfold later_run. intros a b. lia. Qed.

(** The result of the DAG scheduler-delay query: nothing when the canary
    DAG has no run, and otherwise the row of a latest canary run. *)
Lemma get_dag_scheduler_delay_cases db :
  (get_dag_scheduler_delay db = [] ∧
   ∀ r, r ∈ dag_run db → DagRun.dag_id r ≠ CANARY_DAG) ∨
  ∃ r, r ∈ dag_run db ∧ DagRun.dag_id r = CANARY_DAG ∧
    (∀ r', r' ∈ dag_run db → DagRun.dag_id r' = CANARY_DAG →
           DagRun.execution_date r' ≤ DagRun.execution_date r) ∧
    get_dag_scheduler_delay db
    = [[("dag_id", PStr (DagRun.dag_id r));
        ("execution_date", PDatetime (DagRun.execution_date r));
        ("start_date", of_time (DagRun.start_date r))]].
Proof.
  unfold get_dag_scheduler_delay.
  pose proof (merge_sort_Permutation later_run
    (filter (λ r, DagRun.dag_id r = CANARY_DAG) (dag_run db))) as Hperm.
  pose proof (StronglySorted_merge_sort later_run
    (filter (λ r, DagRun.dag_id r = CANARY_DAG) (dag_run db))) as Hsorted.
  destruct (merge_sort later_run _) as [|r l]; simpl.
  - left. split; [done|]. intros r Hr Hd.
    apply Permutation_nil_l in Hperm.
    assert (r ∈ filter (λ r, DagRun.dag_id r = CANARY_DAG) (dag_run db))
      as Hin by by apply list_elem_of_filter.
    rewrite <- Hperm in Hin. by apply elem_of_nil in Hin.
  - right.
    assert (r ∈ filter (λ r, DagRun.dag_id r = CANARY_DAG) (dag_run db))
      as [Hd Hr]%list_elem_of_filter by (rewrite <- Hperm; left).
    exists r. do 2 (split; [done|]). split; [|done].
    intros r' Hr' Hd'. apply StronglySorted_inv in Hsorted as [_ Hall].
    assert (r' ∈ r :: l) as [->|Hin]%elem_of_cons.
    { rewrite Hperm. by apply list_elem_of_filter. }
    + lia.
    + rewrite Forall_forall in Hall. apply (Hall r' Hin).
Qed.

(** X9: the DAG scheduler-delay query returns at most one row; it
    returns none exactly when the canary DAG has no run, and otherwise the
    row of a canary run that no canary run follows, with that run's own
    start date.  Neither the DAG table nor the state of the run is
    consulted. *)
Theorem dag_scheduler_delay_row (db : Database) :
  (get_dag_scheduler_delay db = [] ↔
   ∀ r, r ∈ dag_run db → DagRun.dag_id r ≠ CANARY_DAG) ∧
  ∀ row, row ∈ get_dag_scheduler_delay db →
    get_dag_scheduler_delay db = [row] ∧
    ∃ r, r ∈ dag_run db ∧ DagRun.dag_id r = CANARY_DAG ∧
      (∀ r', r' ∈ dag_run db → DagRun.dag_id r' = CANARY_DAG →
             DagRun.execution_date r' ≤ DagRun.execution_date r) ∧
      row = [("dag_id", PStr (DagRun.dag_id r));
             ("execution_date", PDatetime (DagRun.execution_date r));
             ("start_date", of_time (DagRun.start_date r))].
Proof.
  destruct (get_dag_scheduler_delay_cases db)
    as [[-> Hno]|(r & Hr & Hd & Hmax & ->)].
  - split; [done|]. by intros row ?%elem_of_nil.
  - split.
    + split; [done|]. intros Hno. by destruct (Hno r Hr).
    + intros row ->%list_elem_of_singleton. split; [done|]. by exists r.
Qed.

Lemma sql_max_iff (l : list Z) (t : Z) :
  sql_max l = Some t ↔ t ∈ l ∧ ∀ y, y ∈ l → y ≤ t.
Proof.
  split; [apply sql_max_spec|]. intros [Ht Hub]. by apply sql_max_unique.
Qed.

Lemma elem_of_queue_starts db q s :
  s ∈ non_null (TaskInstance.start_date <$>
        filter (λ ti, TaskInstance.queue ti = q) (queued_canary_tasks db)) ↔
  ∃ ti, ti ∈ queued_canary_tasks db ∧ TaskInstance.queue ti = q ∧
        TaskInstance.start_date ti = Some s.
Proof.
  unfold non_null. rewrite list_elem_of_omap. split.
  - intros (o & Ho & Hs). simpl in Hs. subst o.
    apply list_elem_of_fmap in Ho as (ti & Hs & Hti).
    apply list_elem_of_filter in Hti as [Hq Hti]. by exists ti.
  - intros (ti & Hti & Hq & Hs). exists (Some s). split; [|done].
    apply list_elem_of_fmap. exists ti. split; [done|].
    by apply list_elem_of_filter.
Qed.

Lemma task_scheduler_status_query_spec db q s :
  (Some q, Some s) ∈ task_scheduler_status_query db ↔
  latest_queued_start db q s.
Proof.
  unfold task_scheduler_status_query, latest_queued_start.
  rewrite list_elem_of_bind. split.
  - intros (q' & [= <- Hmax]%list_elem_of_singleton & Hq').
    symmetry in Hmax. apply sql_max_iff in Hmax as [Hs Hub]. split.
    + by apply elem_of_queue_starts.
    + intros ti s' Hti Hq Hs'. apply Hub, elem_of_queue_starts. by exists ti.
  - intros [(ti & Hti & Hq & Hs) Hub]. exists (Some q). split.
    + apply list_elem_of_singleton. f_equal. symmetry. apply sql_max_iff. split.
      * apply elem_of_queue_starts. by exists ti.
      * intros y (ti' & Hti' & Hq' & Hy)%elem_of_queue_starts. eauto.
    + apply elem_of_group_keys. by exists ti.
Qed.

Lemma get_task_scheduler_delay_row db row :
  row ∈ get_task_scheduler_delay db →
  ∃ ti q s, ti ∈ task_instance db ∧
    TaskInstance.dag_id ti = CANARY_DAG ∧
    TaskInstance.queue ti = Some q ∧ TaskInstance.start_date ti = Some s ∧
    latest_queued_start db q s ∧
    row = [("queue", PStr q);
           ("execution_date", PDatetime (TaskInstance.execution_date ti));
           ("queued_dttm", of_time (TaskInstance.queued_dttm ti));
           ("start_date", PDatetime s)].
Proof.
  unfold get_task_scheduler_delay. rewrite list_elem_of_bind.
  intros ([queue max_start] & Hin & Hq).
  apply list_elem_of_bind in Hin as (ti & Hin & Hti).
  apply list_elem_of_singleton in Hin as ->.
  apply list_elem_of_filter in Hti as [([[q Hq1] Hq2] & [[s Hs1] Hs2] & Hd) Hti].
  rewrite Hq1 in Hq2. rewrite Hs1 in Hs2. subst queue max_start.
  exists ti, q, s. do 4 (split; [done|]).
  split; [by apply task_scheduler_status_query_spec|done].
Qed.

(** X10: the task scheduler-delay query returns a row for every canary
    task instance whose queue is set and whose start date is the latest
    start among the canary instances of that queue that have a queueing
    time.  The row carries that instance's own queueing time, which the
    query does not require to be set. *)
Theorem task_scheduler_delay_rows (db : Database) (row : Row) :
  row ∈ get_task_scheduler_delay db ↔
  ∃ ti q s, ti ∈ task_instance db ∧
    TaskInstance.dag_id ti = CANARY_DAG ∧
    TaskInstance.queue ti = Some q ∧ TaskInstance.start_date ti = Some s ∧
    latest_queued_start db q s ∧
    row = [("queue", PStr q);
           ("execution_date", PDatetime (TaskInstance.execution_date ti));
           ("queued_dttm", of_time (TaskInstance.queued_dttm ti));
           ("start_date", PDatetime s)].
Proof.
  split; [apply get_task_scheduler_delay_row|].
  unfold get_task_scheduler_delay. rewrite list_elem_of_bind.
  intros (ti & q & s & Hti & Hd & Hq & Hs & Hlatest & ->).
  exists (Some q, Some s).
  split; [|by apply task_scheduler_status_query_spec].
  apply list_elem_of_bind. exists ti.
  split; [by apply list_elem_of_singleton|].
  apply list_elem_of_filter. split; [|done].
  unfold sql_eq. rewrite Hq, Hs. eauto.
Qed.

(** X11: what [extract_xcom_parameter] lets escape and when it logs.  In
    direct mode no [ValueError] escapes, and a value that is not a byte
    string (a NULL blob) raises [AttributeError]; in pickled mode the
    errors that escape are those of unpickling and the non-[Exception]
    errors of the JSON decoder, and the log is never written.  A log
    record is written only when the empty object is returned. *)
Theorem extract_xcom_parameter_effects (rt : Runtime) (value : PyVal)
    (s : Trace) :
  (∀ e, (extract_xcom_parameter rt value s).2 = inl e →
     if enable_xcom_pickling rt
     then pickle_loads rt value = inl e ∨
          (is_Exception e = false ∧
           ∃ v, pickle_loads rt value = inr v ∧ json_loads rt v = inl e)
     else is_ValueError e = false) ∧
  (enable_xcom_pickling rt = true →
   log (extract_xcom_parameter rt value s).1 = log s) ∧
  (log (extract_xcom_parameter rt value s).1 ≠ log s →
   (extract_xcom_parameter rt value s).2 = inr (PDict []) ∧
   ∃ e, is_ValueError e = true ∧
        log (extract_xcom_parameter rt value s).1
        = (log s ++ [LogError xcom_error_message e])%list) ∧
  (enable_xcom_pickling rt = false → (∀ bs, value ≠ PBytes bs) →
   extract_xcom_parameter rt value s = (s, inl AttributeError)).
Proof.
  unfold extract_xcom_parameter, mbind, gen_bind, lift, raise, mret, gen_ret,
    log_error.
  destruct (enable_xcom_pickling rt).
  - destruct (pickle_loads rt value) as [e0|v] eqn:Hp; simpl.
    + split; [intros e [= ->]; by left|]. do 2 (split; [done|]). done.
    + destruct (json_loads rt v) as [e0|v'] eqn:Hj; simpl.
      * destruct (is_Exception e0) eqn:He; simpl.
        -- split; [done|]. do 2 (split; [done|]). done.
        -- split; [|do 2 (split; [done|]); done].
           intros e [= <-]. right. split; [done|]. by exists v.
      * split; [done|]. do 2 (split; [done|]). done.
  - destruct (result_bind _ _ _ _) as [e0|v] eqn:Hd; simpl.
    + destruct (is_ValueError e0) eqn:He; simpl.
      * split; [done|]. split; [done|]. split; [intros _; eauto|].
        intros _ Hnb. exfalso. unfold py_decode in Hd.
        destruct value; simpl in Hd; try (injection Hd as <-; discriminate).
        by eapply Hnb.
      * split; [by intros e [= <-]|]. do 2 (split; [done|]).
        intros _ Hnb. unfold py_decode in Hd.
        destruct value; simpl in Hd; try (by injection Hd as <-).
        by edestruct Hnb.
    + split; [done|]. do 2 (split; [done|]).
      intros _ Hnb. unfold py_decode in Hd.
      destruct value; simpl in Hd; try discriminate. by edestruct Hnb.
Qed.

Lemma search_config_isfile fs paths p :
  search_config fs paths = Some p →
  isfile fs p = true ∧ ∃ d, d ∈ paths ∧ p = path_join d CONFIG_FILENAME.
Proof.
  induction paths as [|d paths IH]; simpl; [discriminate|].
  destruct (isfile fs (path_join d CONFIG_FILENAME)) eqn:Hf.
  - intros [= <-]. split; [done|]. exists d. split; [left|done].
  - intros [Hp (d' & Hd' & ->)]%IH. split; [done|]. exists d'.
    split; [by right|done].
Qed.

(** X12: the errors of [load_xcom_config].  It raises
    [FileNotFoundError] exactly when the working directory has been
    removed, from [Path.cwd()] outside the [try].  Any other error comes
    from a file that was found on the search path (the working directory
    first, the module's directory second): the error of opening and
    reading it, or the error of the YAML parser on its text. *)
Theorem load_xcom_config_errors (rt : Runtime) (fs : FileSystem) :
  (cwd_exists fs = false →
   load_xcom_config rt fs = inl FileNotFoundError) ∧
  ∀ e, load_xcom_config rt fs = inl e →
    (cwd_exists fs = false ∧ e = FileNotFoundError) ∨
    (cwd_exists fs = true ∧ is_FileNotFoundError e = false ∧
     ∃ d, d ∈ [cwd fs; module_dir fs] ∧
       isfile fs (path_join d CONFIG_FILENAME) = true ∧
       (read_file fs (path_join d CONFIG_FILENAME) = inl e ∨
        ∃ text, read_file fs (path_join d CONFIG_FILENAME) = inr text ∧
                yaml_load rt text = inl e)).
Proof.
  unfold load_xcom_config, path_cwd. split; [by intros ->|]. intros e.
  destruct (cwd_exists fs); cbn [mbind result_bind];
    [|intros [= <-]; by left].
  destruct (search_config fs _) as [p|] eqn:Hs; [|intros [=]].
  apply search_config_isfile in Hs as [Hf (d & Hd & ->)].
  intros Hload. right. split; [done|]. revert Hload.
  unfold mbind, result_bind.
  destruct (read_file fs _) as [e0|text] eqn:Hr.
  - destruct (is_FileNotFoundError e0) eqn:He; [discriminate|].
    intros [= <-]. split; [done|]. exists d. eauto.
  - destruct (yaml_load rt text) as [e0|doc] eqn:Hy; [|discriminate].
    destruct (is_FileNotFoundError e0) eqn:He; [discriminate|].
    intros [= <-]. split; [done|]. exists d. eauto 6.
Qed.

Lemma load_xcom_config_errors_witness :
  cwd_exists removed_cwd = false ∧
  load_xcom_config (ref_runtime false) removed_cwd = inl FileNotFoundError ∧
  cwd_exists (with_config "xcom_params: [") = true ∧
  load_xcom_config (ref_runtime false) (with_config "xcom_params: [")
  = inl YAMLError ∧
  ((cwd_exists (with_config "xcom_params: [") = false ∧
    YAMLError = FileNotFoundError) ∨
   (cwd_exists (with_config "xcom_params: [") = true ∧
    is_FileNotFoundError YAMLError = false ∧
    ∃ d, d ∈ [cwd (with_config "xcom_params: [");
              module_dir (with_config "xcom_params: [")] ∧
      isfile (with_config "xcom_params: [") (path_join d CONFIG_FILENAME)
      = true ∧
      (read_file (with_config "xcom_params: [") (path_join d CONFIG_FILENAME)
       = inl YAMLError ∨
       ∃ text, read_file (with_config "xcom_params: [")
                 (path_join d CONFIG_FILENAME) = inr text ∧
               yaml_load (ref_runtime false) text = inl YAMLError))).
Proof.
  split; [reflexivity|].
  split; [apply (load_xcom_config_errors (ref_runtime false) removed_cwd);
          reflexivity|].
  split; [reflexivity|]. split; [reflexivity|].
  apply (load_xcom_config_errors (ref_runtime false)
           (with_config "xcom_params: [") ).
  reflexivity.
Defined.

(** X13: without a data-source error the DAG scheduler-delay gauge has no
    sample when the canary DAG has no run; otherwise it is decided by a
    latest canary run alone: one sample, the start date minus the
    execution date, if that run has started, and a [TypeError] if it has
    not. *)
Theorem dag_scheduler_delay_gauge (w : World) (s : Trace) :
  fault w Q_dag_scheduler_delay = None →
  ((∀ r, r ∈ dag_run (db w) → DagRun.dag_id r ≠ CANARY_DAG) ∧
   (dag_scheduler_delay_family w s).2
   = inr (GaugeMetricFamily "airflow_dag_scheduler_delay"
            "Airflow DAG scheduling delay" ["dag_id"])) ∨
  ∃ r, r ∈ dag_run (db w) ∧ DagRun.dag_id r = CANARY_DAG ∧
    (∀ r', r' ∈ dag_run (db w) → DagRun.dag_id r' = CANARY_DAG →
           DagRun.execution_date r' ≤ DagRun.execution_date r) ∧
    (dag_scheduler_delay_family w s).2
    = match DagRun.start_date r with
      | Some start =>
          inr (mkFamily "airflow_dag_scheduler_delay"
                 "Airflow DAG scheduling delay" ["dag_id"]
                 [mkSample [PStr CANARY_DAG]
                    (PSeconds (start - DagRun.execution_date r))])
      | None => inl TypeError
      end.
Proof.
  intros Hf. unfold dag_scheduler_delay_family. cbv zeta.
  rewrite query_then_samples, Hf. simpl.
  destruct (get_dag_scheduler_delay_cases (db w))
    as [[-> Hno]|(r & Hr & Hd & Hmax & ->)].
  - left. by split.
  - right. exists r. do 3 (split; [done|]). rewrite Hd.
    by destruct (DagRun.start_date r).
Qed.

Lemma dag_scheduler_delay_gauge_witness :
  fault canary_unstarted_world Q_dag_scheduler_delay = None ∧
  (((∀ r, r ∈ dag_run canary_unstarted_db → DagRun.dag_id r ≠ CANARY_DAG) ∧
    (dag_scheduler_delay_family canary_unstarted_world empty_trace).2
    = inr (GaugeMetricFamily "airflow_dag_scheduler_delay"
             "Airflow DAG scheduling delay" ["dag_id"])) ∨
   ∃ r, r ∈ dag_run canary_unstarted_db ∧ DagRun.dag_id r = CANARY_DAG ∧
     (∀ r', r' ∈ dag_run canary_unstarted_db →
            DagRun.dag_id r' = CANARY_DAG →
            DagRun.execution_date r' ≤ DagRun.execution_date r) ∧
     (dag_scheduler_delay_family canary_unstarted_world empty_trace).2
     = match DagRun.start_date r with
       | Some start =>
           inr (mkFamily "airflow_dag_scheduler_delay"
                  "Airflow DAG scheduling delay" ["dag_id"]
                  [mkSample [PStr CANARY_DAG]
                     (PSeconds (start - DagRun.execution_date r))])
       | None => inl TypeError
       end).
Proof.
  split; [reflexivity|].
  apply (dag_scheduler_delay_gauge canary_unstarted_world empty_trace).
  reflexivity.
Defined.

Lemma add_samples_inl fam rows sample_of e :
  add_samples fam rows sample_of = inl e →
  ∃ row, row ∈ rows ∧ sample_of row = inl e.
Proof.
  unfold add_samples. revert fam.
  induction rows as [|row rows IH]; intros fam; simpl; [discriminate|].
  unfold mbind at 1, result_bind at 1.
  destruct (sample_of row) as [e0|smp] eqn:Hs; simpl.
  - intros [= <-]. exists row. split; [left|done].
  - intros (row' & Hin & Hrow')%IH. exists row'. split; [by right|done].
Qed.

(** X14: without a data-source error the task scheduler-delay gauge
    fails only with a [TypeError], and only when a canary task instance
    that starts last in its queue has no queueing time.  Every sample of
    the gauge is the start date minus the queueing time of such an
    instance, labelled with its queue. *)
Theorem task_scheduler_delay_gauge (w : World) (s : Trace) :
  fault w Q_task_scheduler_delay = None →
  (∀ e, (task_scheduler_delay_family w s).2 = inl e →
     e = TypeError ∧
     ∃ ti q start, ti ∈ task_instance (db w) ∧
       TaskInstance.dag_id ti = CANARY_DAG ∧
       TaskInstance.queue ti = Some q ∧
       TaskInstance.start_date ti = Some start ∧
       latest_queued_start (db w) q start ∧
       TaskInstance.queued_dttm ti = None) ∧
  (∀ fam smp, (task_scheduler_delay_family w s).2 = inr fam →
     smp ∈ family_samples fam →
     ∃ ti q start queued, ti ∈ task_instance (db w) ∧
       TaskInstance.dag_id ti = CANARY_DAG ∧
       TaskInstance.queue ti = Some q ∧
       TaskInstance.start_date ti = Some start ∧
       latest_queued_start (db w) q start ∧
       TaskInstance.queued_dttm ti = Some queued ∧
       smp = mkSample [PStr q] (PSeconds (start - queued))).
Proof.
  intros Hf. split.
  - intros e. unfold task_scheduler_delay_family. cbv zeta.
    rewrite query_then_samples, Hf. simpl.
    intros (row & Hrow & Hsmp)%add_samples_inl.
    apply get_task_scheduler_delay_row
      in Hrow as (ti & q & st & Hti & Hd & Hq & Hs & Hlatest & ->).
    destruct (TaskInstance.queued_dttm ti) as [qd|] eqn:Hqd;
      [discriminate|].
    injection Hsmp as <-. split; [done|]. by exists ti, q, st.
  - intros fam smp Hfam Hsmp.
    destruct (query_then_samples_elem _ _ _ _ _ _ _ _ _ _ Hfam Hsmp)
      as (row & Hrow & Hrs).
    apply get_task_scheduler_delay_row
      in Hrow as (ti & q & st & Hti & Hd & Hq & Hs & Hlatest & ->).
    destruct (TaskInstance.queued_dttm ti) as [qd|] eqn:Hqd;
      [|discriminate].
    injection Hrs as <-. by exists ti, q, st, qd.
Qed.

Lemma task_scheduler_delay_gauge_witness :
  fault (quiet_world (ref_runtime false) canary_tie_db no_config)
    Q_task_scheduler_delay = None ∧
  (task_scheduler_delay_family
     (quiet_world (ref_runtime false) canary_tie_db no_config)
     empty_trace).2 = inl TypeError ∧
  ∃ ti q start, ti ∈ task_instance canary_tie_db ∧
    TaskInstance.dag_id ti = CANARY_DAG ∧
    TaskInstance.queue ti = Some q ∧
    TaskInstance.start_date ti = Some start ∧
    latest_queued_start canary_tie_db q start ∧
    TaskInstance.queued_dttm ti = None.
Proof.
  split; [reflexivity|]. split; [reflexivity|].
  apply (proj1 (task_scheduler_delay_gauge
                  (quiet_world (ref_runtime false) canary_tie_db no_config)
                  empty_trace eq_refl) TypeError).
  reflexivity.
Defined.

Lemma get_task_failure_counts_row db row :
  row ∈ get_task_failure_counts db →
  ∃ d t n, row = [("dag_id", PStr d); ("task_id", PStr t); ("count", PInt n)].
Proof.
  unfold get_task_failure_counts. cbv zeta.
  intros ([d t] & ->%list_elem_of_singleton & _)%list_elem_of_bind. eauto.
Qed.

Lemma query_then_samples_fails w call rows fam0 sample_of s e :
  (∀ row, row ∈ rows → ∃ smp, sample_of row = inr smp) →
  ((rows ← session_query w call rows;
    lift (add_samples fam0 rows sample_of)) s).2 = inl e ↔
  fault w call = Some e.
Proof.
  intros Hrows. split; [by apply query_then_samples_error|].
  rewrite query_then_samples. simpl. by intros ->.
Qed.

(** X15: the four counting gauges (task status, DAG status, failure
    count, queued tasks) cannot fail on the rows of their queries: each
    raises exactly when its data-source call does, with that error. *)
Theorem counting_gauges_fail_with_the_data_source (w : World) (s : Trace)
    (e : Exn) :
  ((task_status_family w s).2 = inl e ↔ fault w Q_task_state_info = Some e) ∧
  ((dag_status_family w s).2 = inl e ↔ fault w Q_dag_state_info = Some e) ∧
  ((task_failure_family w s).2 = inl e ↔
   fault w Q_task_failure_counts = Some e) ∧
  ((num_queued_tasks_family w s).2 = inl e ↔
   fault w Q_num_queued_tasks = Some e).
Proof.
  split; [|split; [|split]].
  - unfold task_status_family. rewrite query_then_lift. simpl.
    destruct (fault w _) as [e'|]; [split; congruence|].
    by rewrite task_status_aggregate_eq.
  - unfold dag_status_family. rewrite query_then_lift. simpl.
    destruct (fault w _) as [e'|]; [split; congruence|].
    by rewrite dag_status_aggregate_eq.
  - apply query_then_samples_fails.
    intros row (d & t & n & ->)%get_task_failure_counts_row.
    eexists. reflexivity.
  - unfold num_queued_tasks_family, mbind, gen_bind, session_query, raise,
      mret, gen_ret.
    destruct (fault w _) as [e'|]; simpl; split; congruence.
Qed.

(** X16: every collection pass ends with an error and yields at most
    one family.  If the data source fails on the task status query the
    pass yields nothing and ends with that error; otherwise it yields
    [airflow_task_status] alone and ends with the [AttributeError] that
    [get_task_duration_info] raises at line 427. *)
Theorem scrape_ends_after_task_status (w : World) :
  ∃ e, (scrape w).2 = inl e ∧
    ((fault w Q_task_state_info = Some e ∧ yielded (scrape w).1 = []) ∨
     (fault w Q_task_state_info = None ∧ e = AttributeError ∧
      ∃ t_state,
        task_status_aggregate (task_states (State (rt w)))
          (get_task_state_info (db w)) = inr t_state ∧
        yielded (scrape w).1 = [t_state] ∧
        family_name t_state = "airflow_task_status")).
Proof.
  rewrite scrape_run. destruct (fault w Q_task_state_info) as [e|].
  - exists e. split; [done|]. by left.
  - pose proof (task_status_aggregate_eq (db w) (task_states (State (rt w))))
      as Hagg.
    rewrite Hagg. exists AttributeError. split; [done|]. right.
    do 2 (split; [done|]). eexists. split; [done|]. by split.
Qed.

Lemma length_bind_const {A B} (f : A → list B) (n : nat) (l : list A) :
  (∀ x, length (f x) = n) → length (l ≫= f) = (n * length l)%nat.
Proof.
  intros Hf. induction l as [|a l IH]; [simpl; lia|].
  rewrite bind_cons, length_app, Hf, IH. simpl. lia.
Qed.

Lemma aggregate_size (uid : Row → string) (skey sval : Row → PyVal) rows :
  length (foldl (record_row uid skey sval) [] rows)
  = length (remove_dups (uid <$> rows)).
Proof.
  destruct (aggregate_entries uid skey sval rows) as (Hnd & Hent & Hrows).
  cbv zeta in *. rewrite <- (length_fmap fst).
  rewrite <- (length_fmap PStr (remove_dups _)).
  apply Permutation_length, NoDup_Permutation; [done| |].
  - apply NoDup_fmap_2_strong; [congruence|apply NoDup_remove_dups].
  - intros k. rewrite !list_elem_of_fmap. split.
    + intros ([k' info] & -> & Hin). simpl.
      destruct (Hent _ _ Hin) as (u & -> & Hu & Hmeta & _).
      exists u. split; [done|]. apply elem_of_remove_dups, list_elem_of_fmap.
      by exists (meta info).
    + intros (u & -> & (row & -> & Hrow)%elem_of_remove_dups%list_elem_of_fmap).
      destruct (Hrows row Hrow) as [info Hinfo]. by exists (PStr (uid row), info).
Qed.

(** X17: each status gauge is built without an error from the rows of its
    query, and has one sample per listed state for every distinct entity
    key among the rows: the DAG id for the DAG gauge, the string
    [dag_id_task_id] for the task gauge. *)
Theorem status_vector_sizes (db : Database) (states : list (option string)) :
  ∃ d_state t_state,
    dag_status_aggregate states (get_dag_state_info db) = inr d_state ∧
    task_status_aggregate states (get_task_state_info db) = inr t_state ∧
    length (family_samples d_state)
    = (length states *
       length (remove_dups (dag_uid <$> get_dag_state_info db)))%nat ∧
    length (family_samples t_state)
    = (length states *
       length (remove_dups (task_uid <$> get_task_state_info db)))%nat.
Proof.
  eexists _, _.
  split; [apply dag_status_aggregate_eq|].
  split; [apply task_status_aggregate_eq|]. simpl. split.
  - rewrite (length_bind_const _ (length states)).
    + by rewrite length_fmap, aggregate_size.
    + intros info. unfold dag_samples. by rewrite length_fmap.
  - rewrite (length_bind_const _ (length states)).
    + by rewrite length_fmap, aggregate_size.
    + intros info. unfold task_samples. by rewrite length_fmap.
Qed.

Lemma for_each_gen_inv {A B} (P : B → Prop) (body : B → A → Gen B)
    (l : list A) :
  (∀ b a s b', a ∈ l → P b → (body b a s).2 = inr b' → P b') →
  ∀ acc s acc', P acc → (for_each l body acc s).2 = inr acc' → P acc'.
Proof.
  induction l as [|a l IH]; intros Hbody acc s acc' Hacc; simpl.
  - by intros [= <-].
  - unfold mbind, gen_bind.
    pose proof (Hbody acc a s) as Hstep.
    destruct (body acc a s) as [s1 [e|b]]; simpl in *; [discriminate|].
    apply IH.
    + intros b0 a0 s0 b' Ha0. apply Hbody. by right.
    + apply Hstep; [left|done|done].
Qed.

Lemma get_xcom_params_row db task_id row :
  row ∈ get_xcom_params db task_id →
  ∃ x, x ∈ xcom db ∧
       latest_run_date db (XCom.dag_id x) (XCom.execution_date x) ∧
       row = xcom_row x.
Proof.
  unfold get_xcom_params. cbv zeta.
  destruct (key_eqb task_id (PStr "all")).
  - intros (x & -> & [Hx Hq]%elem_of_xcom_join)%list_elem_of_fmap. eauto.
  - intros (x & -> & Hin)%list_elem_of_fmap.
    apply list_elem_of_filter in Hin as [_ [Hx Hq]%elem_of_xcom_join]. eauto.
Qed.

Lemma xcom_params_step_samples w fam tasks s fam' :
  (∀ smp, smp ∈ family_samples fam → xcom_sample w smp) →
  (xcom_params_step w fam tasks s).2 = inr fam' →
  ∀ smp, smp ∈ family_samples fam' → xcom_sample w smp.
Proof.
  intros Hfam. unfold xcom_params_step, mbind at 1, gen_bind at 1, lift at 1.
  destruct (py_getitem tasks "task_id") as [e|task_id]; [discriminate|].
  unfold mbind at 1, gen_bind at 1, session_query, raise, mret at 1,
    gen_ret at 1.
  destruct (fault w _); [discriminate|].
  apply (for_each_gen_inv (λ fam, ∀ smp, smp ∈ family_samples fam →
                                          xcom_sample w smp)); [|done].
  clear fam fam' Hfam s.
  intros fam row s fam' Hrow Hfam.
  apply get_xcom_params_row in Hrow as (x & Hx & Hlatest & ->).
  unfold mbind, gen_bind, lift, mret, gen_ret. simpl.
  destruct (extract_xcom_parameter (rt w) (of_bytes (XCom.value x)) s)
    as [s1 [e|v]] eqn:Hv; simpl; [discriminate|].
  intros [= <-] smp. simpl.
  intros [Hsmp|Hsmp]%elem_of_app; [by apply Hfam|].
  apply list_elem_of_singleton in Hsmp as ->.
  exists x. do 3 (split; [done|]). exists s. by rewrite Hv.
Qed.

(** X18: every sample of the custom-parameter gauge stems from an XCom
    record written under the latest execution date among the runs of its
    DAG: it is labelled with the record's DAG, task and key, and its
    value is what [extract_xcom_parameter] returned for the record's
    blob. *)
Theorem xcom_gauge_samples (w : World) (s : Trace) (fam : MetricFamily)
    (smp : Sample) :
  (xcom_params_family w s).2 = inr fam →
  smp ∈ family_samples fam →
  ∃ x, x ∈ xcom (db w) ∧
    latest_run_date (db w) (XCom.dag_id x) (XCom.execution_date x) ∧
    sample_labels smp
    = [PStr (XCom.dag_id x); PStr (XCom.task_id x); PStr (XCom.key x)] ∧
    ∃ s', (extract_xcom_parameter (rt w) (of_bytes (XCom.value x)) s').2
          = inr (sample_value smp).
Proof.
  unfold xcom_params_family. cbv zeta.
  unfold mbind at 1, gen_bind at 1, lift at 1.
  destruct (load_xcom_config _ _) as [e|config]; [discriminate|].
  unfold mbind at 1, gen_bind at 1, lift at 1.
  destruct (py_get config _ _) as [e|entries]; [discriminate|].
  unfold mbind at 1, gen_bind at 1, lift at 1.
  destruct (py_iter entries) as [e|l]; [discriminate|].
  intros Hfam. revert smp.
  refine (for_each_gen_inv (λ fam, ∀ smp, smp ∈ family_samples fam →
                                          xcom_sample w smp)
            (xcom_params_step w) l _ _ s fam _ Hfam).
  - intros b a s0 b' _ Hb. by apply xcom_params_step_samples.
  - by intros smp ?%elem_of_nil.
Qed.

Lemma xcom_gauge_samples_witness :
  (xcom_params_family
     (quiet_world (ref_runtime false) paused_canary_db
        (with_config "xcom_params: [{task_id: all}]")) empty_trace).2
  = inr (mkFamily "airflow_xcom_parameter" "Airflow Xcom Parameter"
           ["dag_id"; "task_id"; "xcom_key"]
           [mkSample [PStr "canary_dag"; PStr "probe"; PStr "latency"]
              (PInt 7)]) ∧
  ∃ x, x ∈ xcom paused_canary_db ∧
    latest_run_date paused_canary_db (XCom.dag_id x) (XCom.execution_date x) ∧
    [PStr "canary_dag"; PStr "probe"; PStr "latency"]
    = [PStr (XCom.dag_id x); PStr (XCom.task_id x); PStr (XCom.key x)] ∧
    ∃ s', (extract_xcom_parameter (ref_runtime false)
             (of_bytes (XCom.value x)) s').2 = inr (PInt 7).
Proof.
  split; [reflexivity|].
  apply (xcom_gauge_samples
           (quiet_world (ref_runtime false) paused_canary_db
              (with_config "xcom_params: [{task_id: all}]"))
           empty_trace
           (mkFamily "airflow_xcom_parameter" "Airflow Xcom Parameter"
              ["dag_id"; "task_id"; "xcom_key"]
              [mkSample [PStr "canary_dag"; PStr "probe"; PStr "latency"]
                 (PInt 7)])
           (mkSample [PStr "canary_dag"; PStr "probe"; PStr "latency"]
              (PInt 7))).
  - reflexivity.
  - left.
Defined.

(** ** The log of a collection pass *)

Lemma logs_decode_errors_refl rt s : logs_decode_errors rt s s.
Proof. exists []. by rewrite app_nil_r. Qed.

Lemma logs_decode_errors_trans rt s1 s2 s3 :
  logs_decode_errors rt s1 s2 → logs_decode_errors rt s2 s3 →
  logs_decode_errors rt s1 s3.
Proof.
  intros (r1 & H1 & Hf1 & Hp1) (r2 & H2 & Hf2 & Hp2).
  exists (r1 ++ r2)%list. rewrite H2, H1, app_assoc. split; [done|]. split.
  - by apply Forall_app.
  - intros Hp. by rewrite Hp1, Hp2.
Qed.

Lemma extract_xcom_parameter_log rt value s :
  logs_decode_errors rt s (extract_xcom_parameter rt value s).1.
Proof.
  unfold extract_xcom_parameter, mbind, gen_bind, lift, raise, mret, gen_ret,
    log_error.
  destruct (enable_xcom_pickling rt) eqn:Hmode.
  - destruct (pickle_loads rt value); simpl;
      [apply logs_decode_errors_refl|].
    destruct (json_loads rt _) as [e|v]; [destruct (is_Exception e)|];
      apply logs_decode_errors_refl.
  - destruct (result_bind _ _ _ _) as [e|v];
      [destruct (is_ValueError e) eqn:He|]; simpl;
      try apply logs_decode_errors_refl.
    exists [LogError xcom_error_message e]. split; [done|].
    split; [|by rewrite Hmode]. constructor; [by exists e|constructor].
Qed.

Lemma xcom_params_step_log w fam tasks s :
  logs_decode_errors (rt w) s (xcom_params_step w fam tasks s).1.
Proof.
  unfold xcom_params_step, mbind at 1, gen_bind at 1, lift at 1.
  destruct (py_getitem tasks "task_id") as [e|task_id];
    [apply logs_decode_errors_refl|].
  unfold mbind at 1, gen_bind at 1, session_query, raise, mret at 1,
    gen_ret at 1.
  destruct (fault w _); [apply logs_decode_errors_refl|].
  apply (for_each_gen_trace (logs_decode_errors (rt w)));
    [apply logs_decode_errors_refl|apply logs_decode_errors_trans|].
  intros b a s0. unfold mbind, gen_bind, lift, mret, gen_ret.
  destruct (getattr a "value") as [e|v]; [apply logs_decode_errors_refl|].
  pose proof (extract_xcom_parameter_log (rt w) v s0) as Hx.
  destruct (extract_xcom_parameter (rt w) v s0) as [s1 [e|x]]; [done|].
  simpl in Hx.
  repeat (destruct (getattr a _); [done|]). done.
Qed.

Lemma xcom_params_family_log w s :
  logs_decode_errors (rt w) s (xcom_params_family w s).1.
Proof.
  unfold xcom_params_family, mbind at 1, gen_bind at 1, lift at 1.
  destruct (load_xcom_config _ _) as [e|cfg]; [apply logs_decode_errors_refl|].
  unfold mbind at 1, gen_bind at 1, lift at 1.
  destruct (py_get _ _ _) as [e|entries]; [apply logs_decode_errors_refl|].
  unfold mbind at 1, gen_bind at 1, lift at 1.
  destruct (py_iter _) as [e|l]; [apply logs_decode_errors_refl|].
  apply (for_each_gen_trace (logs_decode_errors (rt w)));
    [apply logs_decode_errors_refl|apply logs_decode_errors_trans|].
  intros b a s0. apply xcom_params_step_log.
Qed.

(** X19: the segment of the custom-parameter gauge writes nothing to
    the log but the records of [extract_xcom_parameter] for a blob whose
    decoding raised a [ValueError], and nothing at all in pickled mode.
    A collection pass ends before that segment, so its log is empty. *)
Theorem xcom_segment_log (w : World) (s : Trace) :
  logs_decode_errors (rt w) s (xcom_params_family w s).1 ∧
  log (scrape w).1 = [].
Proof.
  split; [apply xcom_params_family_log|].
  rewrite scrape_run. destruct (fault w Q_task_state_info); [done|].
  by destruct (task_status_aggregate _ _).
Qed.

Lemma extract_xcom_parameter_direct_total rt bs s :
  enable_xcom_pickling rt = false → decoders_raise_value_errors rt →
  ∃ s' v, extract_xcom_parameter rt (PBytes bs) s = (s', inr v).
Proof.
  intros Hmode [Hutf Hjson]. unfold extract_xcom_parameter. rewrite Hmode.
  unfold py_decode.
  destruct (utf8_decode rt bs) as [e|text] eqn:Hd.
  - cbn [mbind result_bind]. rewrite (Hutf _ _ Hd). eexists _, _. reflexivity.
  - cbn [mbind result_bind mret result_ret].
    destruct (json_loads rt (PStr text)) as [e|v] eqn:Hj.
    + rewrite (Hjson _ _ Hj). eexists _, _. reflexivity.
    + eexists _, _. reflexivity.
Qed.

Lemma xcom_rows_loop_total w rows :
  enable_xcom_pickling (rt w) = false →
  decoders_raise_value_errors (rt w) →
  (∀ row, row ∈ rows → ∃ x bs, row = xcom_row x ∧ XCom.value x = Some bs) →
  ∀ fam s, ∃ fam',
    (for_each rows (λ xcom_params param,
       value ← lift (getattr param "value");
       xcom_value ← extract_xcom_parameter (rt w) value;
       dag_id ← lift (getattr param "dag_id");
       task_id ← lift (getattr param "task_id");
       key ← lift (getattr param "key");
       mret (add_metric xcom_params [dag_id; task_id; key] xcom_value))
       fam s).2 = inr fam' ∧
    length (family_samples fam')
    = (length (family_samples fam) + length rows)%nat.
Proof.
  intros Hmode Hdec. induction rows as [|row rows IH]; intros Hrows fam s.
  - exists fam. split; [done|]. simpl. lia.
  - destruct (Hrows row) as (x & bs & -> & Hbs); [left|].
    cbn [for_each]. unfold mbind at 1, gen_bind at 1.
    unfold mbind at 1, gen_bind at 1, lift at 1.
    unfold getattr at 1, xcom_row at 1. simpl column. rewrite Hbs. cbn [of_bytes].
    destruct (extract_xcom_parameter_direct_total (rt w) bs s Hmode Hdec)
      as (s1 & v & Hx).
    unfold mbind at 1, gen_bind at 1. rewrite Hx.
    unfold mbind, gen_bind, lift, mret, gen_ret. simpl.
    fold (@mbind Gen _) (@mret Gen _).
    destruct (IH (λ r Hr, Hrows r (proj2 (elem_of_cons _ _ _) (or_intror Hr)))
                 (add_metric fam
                    [PStr (XCom.dag_id x); PStr (XCom.task_id x);
                     PStr (XCom.key x)] v) s1) as (fam' & Hfam' & Hlen).
    exists fam'. split; [exact Hfam'|].
    rewrite Hlen. simpl. rewrite length_app. simpl. lia.
Qed.

(** X20: in direct mode, with decoders that raise nothing but
    [ValueError]s and no NULL blob in the table, the loop over one
    configured task id ends without an error and adds one sample per row
    of the XCom query: a blob that does not decode costs no row. *)
Theorem xcom_step_keeps_every_row (w : World) (fam : MetricFamily)
    (tasks task_id : PyVal) (s : Trace) :
  enable_xcom_pickling (rt w) = false →
  decoders_raise_value_errors (rt w) →
  (∀ x, x ∈ xcom (db w) → is_Some (XCom.value x)) →
  py_getitem tasks "task_id" = inr task_id →
  fault w (Q_xcom_params task_id) = None →
  ∃ fam', (xcom_params_step w fam tasks s).2 = inr fam' ∧
    length (family_samples fam')
    = (length (family_samples fam) +
       length (get_xcom_params (db w) task_id))%nat.
Proof.
  intros Hmode Hdec Hblob Htask Hfault.
  unfold xcom_params_step, mbind at 1, gen_bind at 1, lift at 1.
  rewrite Htask.
  unfold mbind at 1, gen_bind at 1, session_query, raise, mret at 1,
    gen_ret at 1.
  rewrite Hfault.
  apply xcom_rows_loop_total; [done..|].
  intros row (x & Hx & _ & ->)%get_xcom_params_row.
  destruct (Hblob x Hx) as [bs Hbs]. by exists x, bs.
Qed.

Lemma ref_decoders_raise_value_errors b :
  decoders_raise_value_errors (ref_runtime b).
Proof.
  split; simpl.
  - intros bs e. unfold ref_utf8_decode.
    destruct (utf8_well_formed _ _); [discriminate|]. by intros [= <-].
  - intros text e. unfold ref_json_text.
    repeat (destruct (String.eqb text _); [discriminate|]).
    destruct (json_int text); [discriminate|]. by intros [= <-].
Qed.

Lemma xcom_step_keeps_every_row_witness :
  enable_xcom_pickling (ref_runtime false) = false ∧
  decoders_raise_value_errors (ref_runtime false) ∧
  length (get_xcom_params xcom_db (PStr "all")) = 2%nat ∧
  ∃ fam',
    (xcom_params_step
       (quiet_world (ref_runtime false) xcom_db
          (with_config "xcom_params: [{task_id: all}]"))
       (GaugeMetricFamily "airflow_xcom_parameter" "Airflow Xcom Parameter"
          ["dag_id"; "task_id"; "xcom_key"])
       (PDict [(PStr "task_id", PStr "all")]) empty_trace).2 = inr fam' ∧
    length (family_samples fam')
    = (0 + length (get_xcom_params xcom_db (PStr "all")))%nat.
Proof.
  split; [reflexivity|].
  split; [apply ref_decoders_raise_value_errors|].
  split; [reflexivity|].
  apply (xcom_step_keeps_every_row
           (quiet_world (ref_runtime false) xcom_db
              (with_config "xcom_params: [{task_id: all}]"))
           (GaugeMetricFamily "airflow_xcom_parameter"
              "Airflow Xcom Parameter" ["dag_id"; "task_id"; "xcom_key"])
           (PDict [(PStr "task_id", PStr "all")]) (PStr "all") empty_trace).
  - reflexivity.
  - apply ref_decoders_raise_value_errors.
  - intros x Hx. simpl in Hx.
    apply elem_of_cons in Hx as [->|Hx]; [by eexists|].
    apply list_elem_of_singleton in Hx as ->. by eexists.
  - reflexivity.
  - reflexivity.
Defined.

(** X21: a configuration file in the working directory shadows the one
    beside the module: when the working directory holds the file, the
    document [load_xcom_config] returns (or the error it raises) depends
    on nothing else in the file system. *)
Theorem config_in_working_directory_wins (rt : Runtime) (fs fs' : FileSystem) :
  isfile fs (path_join (cwd fs) CONFIG_FILENAME) = true →
  same_cwd_config fs fs' →
  load_xcom_config rt fs' = load_xcom_config rt fs.
Proof.
  intros Hfile (Hcwd & Hisfile & Hread).
  assert (cwd_exists fs' = true) as Hexists'.
  { apply cwd_holds_config. by rewrite Hcwd, Hisfile. }
  unfold load_xcom_config, path_cwd.
  rewrite Hexists', (cwd_holds_config fs Hfile).
  cbn [mbind result_bind]. simpl.
  rewrite Hcwd, Hisfile, Hfile, Hread. reflexivity.
Qed.

Lemma config_in_working_directory_wins_witness :
  isfile (with_config "xcom_params: [{task_id: all}]")
    (path_join (cwd (with_config "xcom_params: [{task_id: all}]"))
       CONFIG_FILENAME) = true ∧
  same_cwd_config (with_config "xcom_params: [{task_id: all}]") two_configs ∧
  load_xcom_config (ref_runtime false) two_configs
  = load_xcom_config (ref_runtime false)
      (with_config "xcom_params: [{task_id: all}]").
Proof.
  split; [reflexivity|]. split; [by repeat split|].
  apply (config_in_working_directory_wins (ref_runtime false)
           (with_config "xcom_params: [{task_id: all}]") two_configs).
  - reflexivity.
  - by repeat split.
Defined.
